(** * Air-cargo booking: lifecycle manager, lock manager and route finder

    A shallow embedding of the booking services
    ([air-cargo-booking/src/config/database.js], second document, called the
    lock-protected service below, and [unnamed/part_001], the service used by
    [src/routes/bookings.js]), of the Redis client wrapper
    ([src/config/redis.js]), of [Database.transaction] and of
    [FlightService.getTransitRoutes] ([unnamed/part_000]).

    JavaScript [async] methods become functions in a state-and-exception
    monad over a [World]: the relational store, the Redis store with the
    client's connection flag, the wall clock, the supply of [Math.random]
    values and the log of commands sent to the two stores. *)

From Stdlib Require Import ZArith String List Bool Lia.
From stdpp Require Import gmap strings list fin_maps pretty sorting.

Local Open Scope Z_scope.
Local Open Scope string_scope.

(** ** Rows of [schema.sql] *)

(** [ENUM('BOOKED','DEPARTED','ARRIVED','DELIVERED','CANCELLED')]. *)
Inductive Status := BOOKED | DEPARTED | ARRIVED | DELIVERED | CANCELLED.

#[global] Instance Status_eq_dec : EqDecision Status.
Proof. solve_decision. Defined.

Definition status_name (s : Status) : string :=
  match s with
  | BOOKED => "BOOKED"
  | DEPARTED => "DEPARTED"
  | ARRIVED => "ARRIVED"
  | DELIVERED => "DELIVERED"
  | CANCELLED => "CANCELLED"
  end.

Definition status_eqb (a b : Status) : bool := bool_decide (a = b).

(** Table [bookings]. [user_id] is kept nullable: the lock-protected service
    inserts no [user_id]; the [users] table is outside the model.
    [schema.sql] declares the column [NOT NULL], which the model does not
    enforce. *)
Record BookingRow := {
  bk_id : Z;
  bk_user_id : option Z;
  bk_ref_id : string;
  bk_origin : string;
  bk_destination : string;
  bk_pieces : Z;
  bk_weight_kg : Z;
  bk_status : Status;
  bk_created_at : Z;
  bk_updated_at : Z;
  bk_version : Z
}.

(** Table [booking_flights]. *)
Record BookingFlightRow := {
  bf_id : Z;
  bf_booking_id : Z;
  bf_flight_id : string;
  bf_sequence_order : Z;
  bf_created_at : Z
}.

(** Table [timeline_events]. *)
Record TimelineRow := {
  te_id : Z;
  te_booking_id : Z;
  te_event_type : Status;
  te_location : option string;
  te_flight_id : option string;
  te_description : string;
  te_created_at : Z
}.

(** Table [flights]; [DATETIME] values are seconds since the epoch. *)
Record FlightRow := {
  fl_flight_id : string;
  fl_flight_number : string;
  fl_airline_name : string;
  fl_departure_datetime : Z;
  fl_arrival_datetime : Z;
  fl_origin : string;
  fl_destination : string
}.

(** The relational store: the four tables in insertion order and the
    [AUTO_INCREMENT] counters of the three tables that have one. *)
Record DB := {
  bookings : list BookingRow;
  booking_flights : list BookingFlightRow;
  timeline_events : list TimelineRow;
  flights : list FlightRow;
  next_booking_id : Z;
  next_booking_flight_id : Z;
  next_timeline_id : Z
}.

(** ** Errors *)

(** [JsError m] is [new Error(m)]; [SqlError code] is an error raised by the
    MySQL driver, with its [code]. *)
Inductive Error :=
| JsError (message : string)
| SqlError (code : string).

Inductive Result (A : Type) :=
| Ok (a : A)
| Throw (e : Error).
Arguments Ok {A} a.
Arguments Throw {A} e.

(** ** Commands sent to the two stores *)

Inductive Sql :=
| INSERT_bookings
| INSERT_booking_flights
| INSERT_timeline_events
| SELECT_bookings (ref_id : string)
| UPDATE_bookings (ref_id : string)
| SELECT_booking_flights (booking_id : Z)
| SELECT_timeline_events (booking_id : Z)
| SELECT_flights.

Inductive Cmd :=
| SET_NX (key : string)
| SETEX (key : string)
| GET (key : string)
| DEL (key : string)
| EVAL (key : string)
| BEGIN
| COMMIT
| ROLLBACK
| QUERY (sql : Sql).

(** ** The Redis store and the world *)

(** A stored value is either the raw string written by [client.set] (a lock
    value) or the JSON text written by [setEx(JSON.stringify(value))]; the
    JSON text is kept as the value it encodes, of type [J]. *)
Inductive RedisValue (J : Type) :=
| Plain (s : string)
| Json (j : J).
Arguments Plain {J} s.
Arguments Json {J} j.

(** [isConnected] is the flag of [RedisClient]; [failing] says that the
    commands of the underlying client reject (the [catch] branches). Keys
    expire through [expire_key] below. *)
Record Redis (J : Type) := {
  isConnected : bool;
  failing : bool;
  store : gmap string (RedisValue J)
}.
Arguments isConnected {J} r.
Arguments failing {J} r.
Arguments store {J} r.

(** [undo] is the state a rollback returns to while a transaction is open.
    [entropy] is the supply of [Math.random()] results, already rendered as
    text; [clock] is [Date.now()] in milliseconds. *)
Record World (J : Type) := {
  db : DB;
  undo : option DB;
  redis : Redis J;
  clock : Z;
  entropy : list string;
  trace : list Cmd
}.
Arguments db {J} w.
Arguments undo {J} w.
Arguments redis {J} w.
Arguments clock {J} w.
Arguments entropy {J} w.
Arguments trace {J} w.

Section WorldUpdates.
Context {J : Type}.

Definition with_db (d : DB) (w : World J) : World J :=
  {| db := d; undo := undo w; redis := redis w; clock := clock w;
     entropy := entropy w; trace := trace w |}.

Definition with_undo (u : option DB) (w : World J) : World J :=
  {| db := db w; undo := u; redis := redis w; clock := clock w;
     entropy := entropy w; trace := trace w |}.

Definition with_redis (r : Redis J) (w : World J) : World J :=
  {| db := db w; undo := undo w; redis := r; clock := clock w;
     entropy := entropy w; trace := trace w |}.

Definition with_clock (c : Z) (w : World J) : World J :=
  {| db := db w; undo := undo w; redis := redis w; clock := c;
     entropy := entropy w; trace := trace w |}.

Definition with_entropy (e : list string) (w : World J) : World J :=
  {| db := db w; undo := undo w; redis := redis w; clock := clock w;
     entropy := e; trace := trace w |}.

Definition with_trace (t : list Cmd) (w : World J) : World J :=
  {| db := db w; undo := undo w; redis := redis w; clock := clock w;
     entropy := entropy w; trace := t |}.

Definition with_store (s : gmap string (RedisValue J)) (r : Redis J) : Redis J :=
  {| isConnected := isConnected r; failing := failing r; store := s |}.

Definition with_isConnected (b : bool) (r : Redis J) : Redis J :=
  {| isConnected := b; failing := failing r; store := store r |}.

Definition with_failing (b : bool) (r : Redis J) : Redis J :=
  {| isConnected := isConnected r; failing := b; store := store r |}.
End WorldUpdates.

(** ** The monad of [async] methods *)

Definition M (J A : Type) : Type := World J -> Result A * World J.

Section Monad.
Context {J : Type}.

Definition ret {A} (a : A) : M J A := fun w => (Ok a, w).

Definition bind {A B} (m : M J A) (k : A -> M J B) : M J B :=
  fun w =>
    match m w with
    | (Ok a, w1) => k a w1
    | (Throw e, w1) => (Throw e, w1)
    end.

Definition throw {A} (e : Error) : M J A := fun w => (Throw e, w).

(** [try { body } finally { cleanup }]. *)
Definition try_finally {A B} (body : M J A) (cleanup : M J B) : M J A :=
  fun w =>
    match body w with
    | (r, w1) =>
        match cleanup w1 with
        | (Ok _, w2) => (r, w2)
        | (Throw e, w2) => (Throw e, w2)
        end
    end.

Definition gets {A} (f : World J -> A) : M J A := fun w => (Ok (f w), w).

Definition modify (f : World J -> World J) : M J unit := fun w => (Ok tt, f w).

Definition emit (c : Cmd) : M J unit :=
  modify (fun w => with_trace (trace w ++ [c]) w).

(** [Date.now()]. *)
Definition Date_now : M J Z := gets clock.

(** [Math.random()], rendered as text; an exhausted supply gives ["0"]. *)
Definition next_random (w : World J) : string :=
  match entropy w with
  | r :: _ => r
  | [] => "0"
  end.

Definition Math_random : M J string :=
  fun w => (Ok (next_random w), with_entropy (tail (entropy w)) w).
End Monad.

Declare Scope js_scope.
Delimit Scope js_scope with js.
Notation "x <- m ;; k" := (bind m (fun x => k))
  (at level 100, m at next level, right associativity) : js_scope.
Notation "m ;;; k" := (bind m (fun _ => k))
  (at level 100, right associativity) : js_scope.
Local Open Scope js_scope.

(** JavaScript truthiness of strings and of nullable strings. *)
Definition truthy (s : string) : bool := negb (String.eqb s "").

Definition truthy_opt (o : option string) : bool :=
  match o with
  | Some s => truthy s
  | None => false
  end.

(** [a || b] on a nullable string. *)
Definition or_else (o : option string) (d : string) : string :=
  match o with
  | Some s => if truthy s then s else d
  | None => d
  end.

(** [try { body } catch (error) { handler }]. *)
Definition try_catch {J A} (body : M J A) (handler : Error -> M J A) : M J A :=
  fun w =>
    match body w with
    | (Ok a, w1) => (Ok a, w1)
    | (Throw error, w1) => handler error w1
    end.

(** [s.includes(sub)]. *)
Fixpoint includes (s sub : string) : bool :=
  String.prefix sub s
  || match s with
     | EmptyString => false
     | String _ rest => includes rest sub
     end.

(** ** [RedisClient] ([src/config/redis.js]) *)

Module RedisClient.
Section RedisClient.
Context {J : Type}.

Definition connected : M J bool := gets (fun w => isConnected (redis w)).
Definition rejects : M J bool := gets (fun w => failing (redis w)).
Definition lookup_key (key : string) : M J (option (RedisValue J)) :=
  gets (fun w => store (redis w) !! key).
Definition write_store (f : gmap string (RedisValue J) -> gmap string (RedisValue J))
  : M J unit :=
  modify (fun w => with_redis (with_store (f (store (redis w))) (redis w)) w).

(** [set(key, value, expireSeconds = 3600)]. *)
Definition set (key : string) (value : J) : M J bool :=
  c <- connected ;;
  if negb c then ret false
  else
    emit (SETEX key) ;;;
    f <- rejects ;;
    if f then ret false
    else write_store (insert key (Json value)) ;;; ret true.

(** [get(key)]: a raw lock value is no JSON text, [JSON.parse] throws on it
    and the [catch] returns [null]. *)
Definition get (key : string) : M J (option J) :=
  c <- connected ;;
  if negb c then ret None
  else
    emit (GET key) ;;;
    f <- rejects ;;
    if f then ret None
    else
      v <- lookup_key key ;;
      match v with
      | Some (Json j) => ret (Some j)
      | Some (Plain _) => ret None
      | None => ret None
      end.

(** [del(key)]. *)
Definition del (key : string) : M J bool :=
  c <- connected ;;
  if negb c then ret false
  else
    emit (DEL key) ;;;
    f <- rejects ;;
    if f then ret false
    else write_store (delete key) ;;; ret true.

(** [acquireLock(lockKey, ttlSeconds = 30, identifier = null)]: one
    [SET key value PX ttl NX]. *)
Definition acquireLock (lockKey : string) (identifier : option string)
  : M J (option string) :=
  c <- connected ;;
  if negb c then ret None
  else
    lockId <- (if truthy_opt identifier then ret (or_else identifier "")
               else
                 now <- Date_now ;;
                 rnd <- Math_random ;;
                 ret (pretty now +:+ "-" +:+ rnd)) ;;
    now <- Date_now ;;
    let lockValue := lockId +:+ ":" +:+ pretty now in
    emit (SET_NX ("lock:" +:+ lockKey)) ;;;
    f <- rejects ;;
    if f then ret None
    else
      v <- lookup_key ("lock:" +:+ lockKey) ;;
      match v with
      | None =>
          write_store (insert ("lock:" +:+ lockKey) (Plain lockValue)) ;;;
          ret (Some lockId)
      | Some _ => ret None
      end.

(** The identifier and the value a call of [acquireLock] without
    [identifier] generates in [w]. *)
Definition fresh_lockId (w : World J) : string :=
  pretty (clock w) +:+ "-" +:+ next_random w.

Definition fresh_lockValue (w : World J) : string :=
  fresh_lockId w +:+ ":" +:+ pretty (clock w).

(** The Lua script of [releaseLock]:
    [if redis.call("get", KEYS[1]) == ARGV[1] then return redis.call("del", KEYS[1]) else return 0 end]. *)
Definition luaScript (key arg : string) : M J Z :=
  v <- lookup_key key ;;
  match v with
  | Some (Plain s) =>
      if String.eqb s arg then write_store (delete key) ;;; ret 1 else ret 0
  | _ => ret 0
  end.

(** [releaseLock(lockKey, lockId)]. The value read by [client.get] is the
    raw text; a JSON text under a lock key does not start with a lock
    identifier. *)
Definition releaseLock (lockKey : string) (lockId : option string) : M J bool :=
  c <- connected ;;
  if negb c || negb (truthy lockKey) || negb (truthy_opt lockId) then ret false
  else
    emit (GET ("lock:" +:+ lockKey)) ;;;
    f <- rejects ;;
    if f then ret false
    else
      v <- lookup_key ("lock:" +:+ lockKey) ;;
      match v with
      | Some (Plain currentLockValue) =>
          if truthy currentLockValue
             && String.prefix (or_else lockId "" +:+ ":") currentLockValue
          then
            emit (EVAL ("lock:" +:+ lockKey)) ;;;
            result <- luaScript ("lock:" +:+ lockKey) currentLockValue ;;
            if (result =? 1)%Z then ret true else ret false
          else ret false
      | _ => ret false
      end.

(** [cacheBooking], [getCachedBooking], [invalidateBookingCache]. *)
Definition cacheBooking (refId : string) (bookingData : J) : M J bool :=
  set ("booking:" +:+ refId) bookingData.

Definition getCachedBooking (refId : string) : M J (option J) :=
  get ("booking:" +:+ refId).

Definition invalidateBookingCache (refId : string) : M J bool :=
  del ("booking:" +:+ refId).

(** [cacheFlightRoutes], [getCachedFlightRoutes]. *)
Definition routes_key (origin destination date : string) : string :=
  "routes:" +:+ origin +:+ ":" +:+ destination +:+ ":" +:+ date.

Definition cacheFlightRoutes (origin destination date : string) (routes : J)
  : M J bool :=
  set (routes_key origin destination date) routes.

Definition getCachedFlightRoutes (origin destination date : string)
  : M J (option J) :=
  get (routes_key origin destination date).
End RedisClient.
End RedisClient.

(** The event handlers registered by [connect()], and what the Redis server
    and the network do on their own. *)
Section Environment.
Context {J : Type}.

(** [client.on('connect', ...)]. *)
Definition on_connect (w : World J) : World J :=
  with_redis (with_isConnected true (redis w)) w.

(** [client.on('error', ...)] and [client.on('disconnect', ...)]. *)
Definition on_error (w : World J) : World J :=
  with_redis (with_isConnected false (redis w)) w.

(** The underlying client starts or stops rejecting commands. *)
Definition set_failing (b : bool) (w : World J) : World J :=
  with_redis (with_failing b (redis w)) w.

(** A key reaches its time to live. *)
Definition expire_key (key : string) (w : World J) : World J :=
  with_redis (with_store (delete key (store (redis w))) (redis w)) w.

(** Time passes. *)
Definition tick (ms : Z) (w : World J) : World J :=
  with_clock (clock w + Z.max 0 ms) w.
End Environment.

Inductive EnvEvent :=
| EvConnect
| EvError
| EvFailing (b : bool)
| EvExpire (key : string)
| EvTick (ms : Z).

Definition env_step {J} (e : EnvEvent) (w : World J) : World J :=
  match e with
  | EvConnect => on_connect w
  | EvError => on_error w
  | EvFailing b => set_failing b w
  | EvExpire key => expire_key key w
  | EvTick ms => tick ms w
  end.

(** The events of a list, one after the other. *)
Definition env_run {J} (events : list EnvEvent) (w : World J) : World J :=
  fold_left (fun w e => env_step e w) events w.

(** What the cache client, the Redis server and the clock do while a call
    is suspended at an [await]. *)
Definition meanwhile {J} (events : list EnvEvent) : M J unit :=
  modify (env_run events).

(** ** [ORDER BY]: a stable insertion sort *)

Fixpoint insert_by {A} (leb : A -> A -> bool) (x : A) (l : list A) : list A :=
  match l with
  | [] => [x]
  | y :: l' => if leb x y then x :: l else y :: insert_by leb x l'
  end.

Definition order_by {A} (leb : A -> A -> bool) (l : list A) : list A :=
  foldr (insert_by leb) [] l.

(** ** [Database] ([air-cargo-booking/src/config/database.js]) and the SQL
    statements the services execute *)

Module Database.
Section Database.
Context {J : Type}.

Definition read {A} (f : DB -> A) : M J A := gets (fun w => f (db w)).

Definition write (f : DB -> DB) : M J unit :=
  modify (fun w => with_db (f (db w)) w).

(** [CURRENT_TIMESTAMP], in seconds. *)
Definition CURRENT_TIMESTAMP : M J Z := gets (fun w => clock w / 1000).

(** [transaction(callback)]: [beginTransaction], the callback, then
    [commit], or [rollback] and rethrow. Commands sent to Redis by the
    callback are not undone. *)
Definition transaction {A} (callback : M J A) : M J A :=
  fun w =>
    match callback (with_trace (trace w ++ [BEGIN]) (with_undo (Some (db w)) w)) with
    | (Ok result, w1) =>
        (Ok result, with_trace (trace w1 ++ [COMMIT]) (with_undo None w1))
    | (Throw error, w1) =>
        (Throw error,
         with_trace (trace w1 ++ [ROLLBACK])
           (with_undo None (with_db (default (db w1) (undo w1)) w1)))
    end.

(** Other sessions commit [others] while this one is between two
    statements: their writes are in the store and survive a rollback of
    this session. *)
Definition interleave (others : DB -> DB) : M J unit :=
  modify (fun w => with_undo (others <$> undo w) (with_db (others (db w)) w)).

Definition fits (n : nat) (s : string) : bool := (String.length s <=? n)%nat.

Definition fits_opt (n : nat) (o : option string) : bool :=
  match o with
  | Some s => fits n s
  | None => true
  end.

(** [INSERT INTO bookings (ref_id, user_id, origin, destination, pieces,
    weight_kg, status) VALUES (?, ?, ?, ?, ?, ?, 'BOOKED')]; [version]
    takes its default 1. Returns [insertId]. *)
Definition new_booking (ref_id : string) (user_id : option Z)
    (origin destination : string) (pieces weight_kg : Z) (now : Z) (d : DB)
  : BookingRow :=
  {| bk_id := next_booking_id d; bk_user_id := user_id;
     bk_ref_id := ref_id; bk_origin := origin;
     bk_destination := destination; bk_pieces := pieces;
     bk_weight_kg := weight_kg; bk_status := BOOKED;
     bk_created_at := now; bk_updated_at := now;
     bk_version := 1 |}.

Definition add_booking (row : BookingRow) (d : DB) : DB :=
  {| bookings := bookings d ++ [row];
     booking_flights := booking_flights d;
     timeline_events := timeline_events d;
     flights := flights d;
     next_booking_id := next_booking_id d + 1;
     next_booking_flight_id := next_booking_flight_id d;
     next_timeline_id := next_timeline_id d |}.

Definition insert_booking (ref_id : string) (user_id : option Z)
    (origin destination : string) (pieces weight_kg : Z) : M J Z :=
  emit (QUERY INSERT_bookings) ;;;
  d <- read (fun d => d) ;;
  now <- CURRENT_TIMESTAMP ;;
  if negb (fits 20 ref_id && fits 10 origin && fits 10 destination)
  then throw (SqlError "ER_DATA_TOO_LONG")
  else if existsb (fun b => String.eqb (bk_ref_id b) ref_id) (bookings d)
  then throw (SqlError "ER_DUP_ENTRY")
  else
    write (add_booking
             (new_booking ref_id user_id origin destination pieces weight_kg now d)) ;;;
    ret (next_booking_id d).

(** [INSERT INTO booking_flights (booking_id, flight_id, sequence_order)
    VALUES (?, ?, ?)], with the two foreign keys and
    [UNIQUE (booking_id, flight_id)]. *)
Definition add_booking_flight (booking_id : Z) (flight_id : string)
    (sequence_order : Z) (now : Z) (d : DB) : DB :=
  {| bookings := bookings d;
     booking_flights := booking_flights d ++
       [{| bf_id := next_booking_flight_id d; bf_booking_id := booking_id;
           bf_flight_id := flight_id; bf_sequence_order := sequence_order;
           bf_created_at := now |}];
     timeline_events := timeline_events d;
     flights := flights d;
     next_booking_id := next_booking_id d;
     next_booking_flight_id := next_booking_flight_id d + 1;
     next_timeline_id := next_timeline_id d |}.

Definition insert_booking_flight (booking_id : Z) (flight_id : string)
    (sequence_order : Z) : M J unit :=
  emit (QUERY INSERT_booking_flights) ;;;
  d <- read (fun d => d) ;;
  now <- CURRENT_TIMESTAMP ;;
  if negb (fits 50 flight_id) then throw (SqlError "ER_DATA_TOO_LONG")
  else if negb (existsb (fun b => bk_id b =? booking_id)%Z (bookings d)
                && existsb (fun f => String.eqb (fl_flight_id f) flight_id) (flights d))
  then throw (SqlError "ER_NO_REFERENCED_ROW_2")
  else if existsb (fun r => (bf_booking_id r =? booking_id)%Z
                            && String.eqb (bf_flight_id r) flight_id)
            (booking_flights d)
  then throw (SqlError "ER_DUP_ENTRY")
  else write (add_booking_flight booking_id flight_id sequence_order now).

(** [for (let i = 0; i < flightIds.length; i++)] with the [INSERT] of
    [flightIds[i]] at [sequence_order = i + 1], as both services run it;
    [i] is the index of the head of [flightIds]. *)
Fixpoint insert_flights (bookingId : Z) (flightIds : list string) (i : Z)
  : M J unit :=
  match flightIds with
  | [] => ret tt
  | flightId :: rest =>
      insert_booking_flight bookingId flightId (i + 1) ;;;
      insert_flights bookingId rest (i + 1)
  end.

(** The rows the loop appends when every [INSERT] succeeds. *)
Fixpoint leg_rows (bookingId : Z) (flightIds : list string) (i next now : Z)
  : list BookingFlightRow :=
  match flightIds with
  | [] => []
  | flightId :: rest =>
      {| bf_id := next; bf_booking_id := bookingId; bf_flight_id := flightId;
         bf_sequence_order := i + 1; bf_created_at := now |}
      :: leg_rows bookingId rest (i + 1) (next + 1) now
  end.

(** [INSERT INTO timeline_events (booking_id, event_type, location,
    flight_id, description) VALUES (?, ?, ?, ?, ?)]. *)
Definition add_timeline_event (booking_id : Z) (event_type : Status)
    (location flight_id : option string) (description : string) (now : Z)
    (d : DB) : DB :=
  {| bookings := bookings d;
     booking_flights := booking_flights d;
     timeline_events := timeline_events d ++
       [{| te_id := next_timeline_id d; te_booking_id := booking_id;
           te_event_type := event_type; te_location := location;
           te_flight_id := flight_id; te_description := description;
           te_created_at := now |}];
     flights := flights d;
     next_booking_id := next_booking_id d;
     next_booking_flight_id := next_booking_flight_id d;
     next_timeline_id := next_timeline_id d + 1 |}.

Definition insert_timeline_event (booking_id : Z) (event_type : Status)
    (location flight_id : option string) (description : string) : M J unit :=
  emit (QUERY INSERT_timeline_events) ;;;
  d <- read (fun d => d) ;;
  now <- CURRENT_TIMESTAMP ;;
  if negb (fits_opt 10 location && fits_opt 50 flight_id)
  then throw (SqlError "ER_DATA_TOO_LONG")
  else if negb (existsb (fun b => bk_id b =? booking_id)%Z (bookings d))
  then throw (SqlError "ER_NO_REFERENCED_ROW_2")
  else write (add_timeline_event booking_id event_type location flight_id description now).

(** [SELECT ... FROM bookings WHERE ref_id = ?]. *)
Definition rows_by_ref (ref_id : string) (d : DB) : list BookingRow :=
  List.filter (fun b => String.eqb (bk_ref_id b) ref_id) (bookings d).

Definition select_bookings (ref_id : string) : M J (list BookingRow) :=
  emit (QUERY (SELECT_bookings ref_id)) ;;;
  read (rows_by_ref ref_id).

Definition set_bookings (l : list BookingRow) (d : DB) : DB :=
  {| bookings := l;
     booking_flights := booking_flights d;
     timeline_events := timeline_events d;
     flights := flights d;
     next_booking_id := next_booking_id d;
     next_booking_flight_id := next_booking_flight_id d;
     next_timeline_id := next_timeline_id d |}.

Definition bump (status : Status) (now : Z) (b : BookingRow) : BookingRow :=
  {| bk_id := bk_id b; bk_user_id := bk_user_id b; bk_ref_id := bk_ref_id b;
     bk_origin := bk_origin b; bk_destination := bk_destination b;
     bk_pieces := bk_pieces b; bk_weight_kg := bk_weight_kg b;
     bk_status := status; bk_created_at := bk_created_at b;
     bk_updated_at := now; bk_version := bk_version b + 1 |}.

Definition restate (status : Status) (now : Z) (b : BookingRow) : BookingRow :=
  {| bk_id := bk_id b; bk_user_id := bk_user_id b; bk_ref_id := bk_ref_id b;
     bk_origin := bk_origin b; bk_destination := bk_destination b;
     bk_pieces := bk_pieces b; bk_weight_kg := bk_weight_kg b;
     bk_status := status; bk_created_at := bk_created_at b;
     bk_updated_at := (if status_eqb (bk_status b) status then bk_updated_at b else now);
     bk_version := bk_version b |}.

Definition version_gate (ref_id : string) (version : Z) (b : BookingRow) : bool :=
  String.eqb (bk_ref_id b) ref_id && (bk_version b =? version)%Z.

(** [UPDATE bookings SET status = ?, version = version + 1
    WHERE ref_id = ? AND version = ?]. Returns [affectedRows]. *)
Definition gated_update (status : Status) (ref_id : string) (version : Z)
    (now : Z) (d : DB) : DB :=
  set_bookings
    (map (fun b => if version_gate ref_id version b then bump status now b else b)
       (bookings d))
    d.

Definition update_status_versioned (status : Status) (ref_id : string)
    (version : Z) : M J Z :=
  emit (QUERY (UPDATE_bookings ref_id)) ;;;
  d <- read (fun d => d) ;;
  now <- CURRENT_TIMESTAMP ;;
  write (gated_update status ref_id version now) ;;;
  ret (Z.of_nat (length (List.filter (version_gate ref_id version) (bookings d)))).

(** [UPDATE bookings SET status = ? WHERE ref_id = ?]; [updated_at] moves
    only when the row changes. *)
Definition plain_update (status : Status) (ref_id : string) (now : Z) (d : DB)
  : DB :=
  set_bookings
    (map (fun b => if String.eqb (bk_ref_id b) ref_id then restate status now b else b)
       (bookings d))
    d.

Definition update_status (status : Status) (ref_id : string) : M J unit :=
  emit (QUERY (UPDATE_bookings ref_id)) ;;;
  now <- CURRENT_TIMESTAMP ;;
  write (plain_update status ref_id now).

(** [SELECT ... FROM booking_flights WHERE booking_id = ?
    ORDER BY sequence_order ASC]. *)
Definition legs_of (booking_id : Z) (d : DB) : list BookingFlightRow :=
  order_by (fun a b => (bf_sequence_order a <=? bf_sequence_order b)%Z)
    (List.filter (fun r => (bf_booking_id r =? booking_id)%Z) (booking_flights d)).

Definition select_booking_flights (booking_id : Z) : M J (list BookingFlightRow) :=
  emit (QUERY (SELECT_booking_flights booking_id)) ;;;
  read (legs_of booking_id).

(** [SELECT ... FROM booking_flights bf JOIN flights f
    ON bf.flight_id = f.flight_id WHERE bf.booking_id = ?
    ORDER BY bf.sequence_order ASC]. *)
Definition joined_legs_of (booking_id : Z) (d : DB)
  : list (BookingFlightRow * FlightRow) :=
  order_by (fun a b => (bf_sequence_order (fst a) <=? bf_sequence_order (fst b))%Z)
    (flat_map
       (fun r =>
          map (fun f => (r, f))
            (List.filter (fun f => String.eqb (bf_flight_id r) (fl_flight_id f))
               (flights d)))
       (List.filter (fun r => (bf_booking_id r =? booking_id)%Z) (booking_flights d))).

Definition select_booking_flights_join (booking_id : Z)
  : M J (list (BookingFlightRow * FlightRow)) :=
  emit (QUERY (SELECT_booking_flights booking_id)) ;;;
  read (joined_legs_of booking_id).

(** [SELECT ... FROM timeline_events WHERE booking_id = ?
    ORDER BY created_at ASC]. *)
Definition events_of (booking_id : Z) (d : DB) : list TimelineRow :=
  order_by (fun a b => (te_created_at a <=? te_created_at b)%Z)
    (List.filter (fun e => (te_booking_id e =? booking_id)%Z) (timeline_events d)).

Definition select_timeline (booking_id : Z) : M J (list TimelineRow) :=
  emit (QUERY (SELECT_timeline_events booking_id)) ;;;
  read (events_of booking_id).

(** [... ORDER BY created_at ASC, id ASC]. *)
Definition events_by_id_of (booking_id : Z) (d : DB) : list TimelineRow :=
  order_by (fun a b => (te_created_at a <? te_created_at b)%Z
                       || ((te_created_at a =? te_created_at b)%Z
                           && (te_id a <=? te_id b)%Z))
    (List.filter (fun e => (te_booking_id e =? booking_id)%Z) (timeline_events d)).

Definition select_timeline_by_id (booking_id : Z) : M J (list TimelineRow) :=
  emit (QUERY (SELECT_timeline_events booking_id)) ;;;
  read (events_by_id_of booking_id).

(** The statements below are not among the commands that [trace] records. *)

(** The column widths of [flights]. *)
Definition flight_fits (f : FlightRow) : bool :=
  fits 50 (fl_flight_id f) && fits 20 (fl_flight_number f)
  && fits 100 (fl_airline_name f) && fits 10 (fl_origin f)
  && fits 10 (fl_destination f).

Definition add_flights (rows : list FlightRow) (d : DB) : DB :=
  {| bookings := bookings d;
     booking_flights := booking_flights d;
     timeline_events := timeline_events d;
     flights := flights d ++ rows;
     next_booking_id := next_booking_id d;
     next_booking_flight_id := next_booking_flight_id d;
     next_timeline_id := next_timeline_id d |}.

(** A row of [rows] has the [flight_id] of a flight of the table or of
    another row of [rows]. *)
Definition duplicate_flight (rows : list FlightRow) (d : DB) : bool :=
  existsb (fun r => existsb (fun f => String.eqb (fl_flight_id f) (fl_flight_id r))
                      (flights d))
    rows
  || negb (bool_decide (NoDup (map fl_flight_id rows))).

(** [INSERT INTO flights (...) VALUES (?, ?, ?, ?, ?, ?, ?)] and the
    multi-row [INSERT INTO flights (...) VALUES ?]: one statement, which
    stores every row or none. *)
Definition insert_flight_rows (rows : list FlightRow) : M J unit :=
  d <- read (fun d => d) ;;
  if negb (forallb flight_fits rows) then throw (SqlError "ER_DATA_TOO_LONG")
  else if duplicate_flight rows d then throw (SqlError "ER_DUP_ENTRY")
  else write (add_flights rows).

(** [SELECT ... FROM flights WHERE flight_id = ?]. *)
Definition flights_by_id (flight_id : string) (d : DB) : list FlightRow :=
  List.filter (fun f => String.eqb (fl_flight_id f) flight_id) (flights d).

(** [SELECT ... FROM bookings WHERE user_id = ? ORDER BY created_at DESC]. *)
Definition bookings_of_user (user_id : Z) (d : DB) : list BookingRow :=
  order_by (fun a b => (bk_created_at b <=? bk_created_at a)%Z)
    (List.filter (fun b => bool_decide (bk_user_id b = Some user_id)) (bookings d)).

(** [SELECT status, COUNT( * ) as count FROM bookings
    WHERE created_at >= DATE_SUB(NOW(), INTERVAL 30 DAY) GROUP BY status]:
    one row for every status that some booking of the last 30 days has. *)
Definition recent (now : Z) (b : BookingRow) : bool :=
  (now - 30 * 86400 <=? bk_created_at b)%Z.

Definition count_status (now : Z) (status : Status) (d : DB) : Z :=
  Z.of_nat
    (length (List.filter (fun b => recent now b && status_eqb (bk_status b) status)
               (bookings d))).

Definition stats_rows (now : Z) (d : DB) : list (Status * Z) :=
  List.filter (fun row => (0 <? snd row)%Z)
    (map (fun status => (status, count_status now status d))
       [BOOKED; DEPARTED; ARRIVED; DELIVERED; CANCELLED]).
End Database.

(** The values of a query object: [undefined], a string, or a value of
    another type, kept as its text. *)
Inductive JsValue :=
| Undefined
| Str (s : string)
| Other (text : string).

(** [`${field} LIKE ?`] or [`${field} = ?`]. *)
Definition condition_of (field : string) (value : JsValue) : string :=
  match value with
  | Str s => if includes s "%" then field +:+ " LIKE ?" else field +:+ " = ?"
  | _ => field +:+ " = ?"
  end.

(** The test of the loop of [buildSearchConditions]:
    [allowedFields.includes(field) && value !== undefined && value !== '']. *)
Definition kept (allowedFields : list string) (entry : string * JsValue) : bool :=
  existsb (String.eqb (fst entry)) allowedFields
  && match snd entry with
     | Undefined => false
     | Str s => negb (String.eqb s "")
     | Other _ => true
     end.

(** [conditions.join(' AND ')]. *)
Fixpoint join_AND (conditions : list string) : string :=
  match conditions with
  | [] => ""
  | [c] => c
  | c :: rest => c +:+ " AND " +:+ join_AND rest
  end.

(** [buildSearchConditions(searchParams, allowedFields)], on the entries of
    [searchParams] in their order: [{ whereClause, values }]. *)
Definition search_conditions (searchParams : list (string * JsValue))
    (allowedFields : list string) : list string :=
  map (fun entry => condition_of (fst entry) (snd entry))
    (List.filter (kept allowedFields) searchParams).

Definition buildSearchConditions (searchParams : list (string * JsValue))
    (allowedFields : list string) : string * list JsValue :=
  let conditions := search_conditions searchParams allowedFields in
  let values := map snd (List.filter (kept allowedFields) searchParams) in
  ((if (0 <? Z.of_nat (length conditions))%Z
    then "WHERE " +:+ join_AND conditions else ""),
   values).


(** The number of [?] placeholders in a statement. *)
Definition placeholders (sql : string) : nat :=
  length (List.filter (Ascii.eqb (Ascii.ascii_of_nat 63)) (list_ascii_of_string sql)).
End Database.

(** [Number.prototype.toString(36)] followed by [toUpperCase()]. *)
Definition digit36 (d : Z) : string :=
  String.substring (Z.to_nat d) 1 "0123456789ABCDEFGHIJKLMNOPQRSTUVWXYZ".

Fixpoint to_base36 (fuel : nat) (n : Z) (acc : string) : string :=
  match fuel with
  | O => acc
  | S fuel' =>
      if (n / 36 =? 0)%Z then digit36 (n mod 36) +:+ acc
      else to_base36 fuel' (n / 36) (digit36 (n mod 36) +:+ acc)
  end.

Definition toString36 (n : Z) : string :=
  to_base36 (S (Z.to_nat (Z.log2 n))) n "".

(** ** What the store holds for a reference code *)

Definition stored (refId : string) (d : DB) : option BookingRow :=
  head (Database.rows_by_ref refId d).

Definition stored_version (refId : string) (d : DB) : option Z :=
  bk_version <$> stored refId d.

Definition stored_status (refId : string) (d : DB) : option Status :=
  bk_status <$> stored refId d.

Definition is_ok {A} (r : Result A) : bool :=
  match r with
  | Ok _ => true
  | Throw _ => false
  end.

(** The constraints of [schema.sql] that the reads rely on: the primary key
    of [flights], the [AUTO_INCREMENT] counter of [bookings] above every
    [id] in use, and the foreign keys from [booking_flights] and
    [timeline_events] to [bookings]. *)
Record consistent (d : DB) : Prop := {
  flights_pk : NoDup (map fl_flight_id (flights d));
  bookings_below_counter : Forall (fun b => bk_id b < next_booking_id d) (bookings d);
  booking_flights_fk :
    Forall (fun r => existsb (fun b => bk_id b =? bf_booking_id r)%Z (bookings d) = true)
      (booking_flights d);
  timeline_events_fk :
    Forall (fun e => existsb (fun b => bk_id b =? te_booking_id e)%Z (bookings d) = true)
      (timeline_events d)
}.

(** [n] consecutive integers after [i]. *)
Fixpoint consecutive (i : Z) (n : nat) : list Z :=
  match n with
  | O => []
  | S n' => (i + 1) :: consecutive (i + 1) n'
  end.

(** The foreign key of [booking_flights.flight_id] holds for [flightId]. *)
Definition flight_known (d : DB) (flightId : string) : Prop :=
  existsb (fun f => String.eqb (fl_flight_id f) flightId) (flights d) = true.

(** The characters of a string do not include [":"]. *)
Fixpoint no_colon (s : string) : bool :=
  match s with
  | EmptyString => true
  | String c rest => negb (Ascii.eqb c (Ascii.ascii_of_nat 58)) && no_colon rest
  end.

(** The keys of [schema.sql] on the tables of bookings: [PRIMARY KEY (id)]
    and [UNIQUE (ref_id)] of [bookings], and on [booking_flights] the
    foreign key to [flights] and
    [UNIQUE KEY unique_booking_flight (booking_id, flight_id)]. *)
Record keyed (d : DB) : Prop := {
  bookings_pk : NoDup (map bk_id (bookings d));
  bookings_ref_unique : NoDup (map bk_ref_id (bookings d));
  booking_flights_flight_fk :
    Forall (fun r => flight_known d (bf_flight_id r)) (booking_flights d);
  unique_booking_flight :
    NoDup (map (fun r => (bf_booking_id r, bf_flight_id r)) (booking_flights d))
}.

(** The constraints of [schema.sql] on the four tables, read together. *)
Definition schema_holds (d : DB) : Prop := consistent d /\ keyed d.

(** [SELECT COUNT( * ) FROM timeline_events WHERE booking_id = ?]. *)
Definition events_count (d : DB) (booking_id : Z) : Z :=
  Z.of_nat
    (length (List.filter (fun e => (te_booking_id e =? booking_id)%Z) (timeline_events d))).

(** Every booking has as many timeline events as its version says. *)
Definition audited (d : DB) : Prop :=
  Forall (fun b => events_count d (bk_id b) = bk_version b) (bookings d).

(** [m] keeps the property [I] of the relational store: when the store and
    the state an open transaction would roll back to have it, they have it
    after [m], whether [m] returns or throws. *)
Definition keeps {J A} (I : DB -> Prop) (m : M J A) : Prop :=
  forall w,
    I (db w) -> (forall u, undo w = Some u -> I u) ->
    I (db (snd (m w))) /\ (forall u, undo (snd (m w)) = Some u -> I u).

(** ** [errorHandler] ([air-cargo-booking/src/middleware/errorHandler.js]) *)

(** What the handlers read of an error object. *)
Record Err := {
  err_name : string;
  err_code : option string;
  err_message : string
}.

(** The JSON replies of the routes: the HTTP status, the [data] of a
    [{ success: true, data }] body or the [error] of a
    [{ success: false, error }] body. *)
Record Response (A : Type) := {
  res_status : Z;
  res_data : option A;
  res_error : option string
}.
Arguments res_status {A} r.
Arguments res_data {A} r.
Arguments res_error {A} r.

Definition reply_data {A} (status : Z) (data : A) : Response A :=
  {| res_status := status; res_data := Some data; res_error := None |}.

Definition reply_error {A} (status : Z) (error : string) : Response A :=
  {| res_status := status; res_data := None; res_error := Some error |}.

Module ErrorHandler.
Section ErrorHandler.
(** The [message] of an error raised by the MySQL driver, by its code. *)
Variable sqlMessage : string -> string.

Definition message_of (e : Error) : string :=
  match e with
  | JsError message => message
  | SqlError code => sqlMessage code
  end.

(** The error object of an [Error] thrown by the services. *)
Definition thrown (e : Error) : Err :=
  match e with
  | JsError message =>
      {| err_name := "Error"; err_code := None; err_message := message |}
  | SqlError code =>
      {| err_name := "Error"; err_code := Some code; err_message := sqlMessage code |}
  end.

(** [errorHandler(err, req, res, next)]: the status and the [error] text of
    the reply; the [details] (the stack outside production), the timestamp
    and the request id are left out. *)
Definition errorHandler {A} (err : Err) : Response A :=
  if String.eqb (err_name err) "ValidationError"
  then reply_error 400 "Validation error"
  else if bool_decide (err_code err = Some "ER_DUP_ENTRY")
  then reply_error 409 "Duplicate entry"
  else if bool_decide (err_code err = Some "ER_NO_REFERENCED_ROW_2")
  then reply_error 400 "Referenced record not found"
  else if includes (err_message err) "not found"
  then reply_error 404 (err_message err)
  else if includes (err_message err) "Unable to acquire lock"
  then reply_error 423 "Resource locked, please try again"
  else if includes (err_message err) "Concurrent update"
  then reply_error 409 "Concurrent modification detected, please retry"
  else reply_error 500 "Internal server error".
End ErrorHandler.
End ErrorHandler.

(** ** The lock-protected [BookingService]
    ([air-cargo-booking/src/config/database.js], second document) *)

Module LockedBookingService.
Import RedisClient Database.

Record FlightLeg := { leg_flight_id : string; leg_sequence : Z }.

Record TimelineItem := {
  ti_event_type : Status;
  ti_location : option string;
  ti_flight_id : option string;
  ti_description : string;
  ti_created_at : Z
}.

(** The object built by [getBookingHistory]; [b_timeline] is the list whose
    [JSON.stringify] text the source stores in the field. *)
Record Booking := {
  b_id : Z;
  b_ref_id : string;
  b_origin : string;
  b_destination : string;
  b_pieces : Z;
  b_weight_kg : Z;
  b_status : Status;
  b_created_at : Z;
  b_updated_at : Z;
  b_flights : list FlightLeg;
  b_timeline : list TimelineItem
}.

Record BookingData := {
  bd_origin : string;
  bd_destination : string;
  bd_pieces : Z;
  bd_weight_kg : Z
}.

Record Created := { cr_refId : string; cr_bookingId : Z }.

(** [{ success: true, refId, status }]. *)
Record StatusAck := { ack_success : bool; ack_refId : string; ack_status : Status }.

(** [generateRefId()]; the supply gives
    [Math.random().toString(36).substr(2, 4).toUpperCase()]. *)
Definition generateRefId : M Booking string :=
  now <- Date_now ;;
  rnd <- Math_random ;;
  ret ("AC" +:+ toString36 now +:+ rnd).

(** The callback [createBooking] passes to [database.transaction]. *)
Definition createBooking_callback (bookingData : BookingData)
    (flightIds : list string) : M Booking Created :=
  refId <- generateRefId ;;
  bookingId <- insert_booking refId None (bd_origin bookingData)
                 (bd_destination bookingData) (bd_pieces bookingData)
                 (bd_weight_kg bookingData) ;;
  insert_flights bookingId flightIds 0 ;;;
  insert_timeline_event bookingId BOOKED (Some (bd_origin bookingData)) None
    "Booking created successfully" ;;;
  ret {| cr_refId := refId; cr_bookingId := bookingId |}.

(** [createBooking(bookingData, flightIds = [])]. *)
Definition createBooking (bookingData : BookingData) (flightIds : list string)
  : M Booking Created :=
  now <- Date_now ;;
  let lockKey := "create_booking_" +:+ pretty now in
  lockId <- acquireLock lockKey None ;;
  if negb (truthy_opt lockId)
  then throw (JsError "Unable to acquire lock for booking creation")
  else
    try_finally
      (transaction (createBooking_callback bookingData flightIds))
      (releaseLock lockKey lockId).

(** [updateBookingStatus(refId, status, location = null, flightId = null,
    description = null)]. [racing] is what other sessions commit between
    the [SELECT] and the [UPDATE] of this call; a call that runs alone has
    [racing = fun d => d]. *)
Definition updateBookingStatus_callback (racing : DB -> DB) (refId : string)
    (status : Status) (location flightId description : option string)
  : M Booking StatusAck :=
  bookings <- select_bookings refId ;;
  match bookings with
  | [] => throw (JsError "Booking not found")
  | booking :: _ =>
      if status_eqb status CANCELLED && status_eqb (bk_status booking) ARRIVED
      then throw (JsError "Cannot cancel booking that has already arrived")
      else
        interleave racing ;;;
        affectedRows <- update_status_versioned status refId (bk_version booking) ;;
        if (affectedRows =? 0)%Z
        then throw (JsError "Concurrent update detected. Please retry.")
        else
          let eventDescription :=
            or_else description ("Status updated to " +:+ status_name status) in
          insert_timeline_event (bk_id booking) status location flightId
            eventDescription ;;;
          invalidateBookingCache refId ;;;
          ret {| ack_success := true; ack_refId := refId; ack_status := status |}
  end.

Definition updateBookingStatus (racing : DB -> DB) (refId : string)
    (status : Status) (location flightId description : option string)
  : M Booking StatusAck :=
  let lockKey := "booking_" +:+ refId in
  lockId <- acquireLock lockKey None ;;
  if negb (truthy_opt lockId)
  then throw (JsError "Unable to acquire lock for booking update")
  else
    try_finally
      (transaction
         (updateBookingStatus_callback racing refId status location flightId description))
      (releaseLock lockKey lockId).

(** [updateBookingStatus] with what happens around it while it is suspended:
    [outage] are the events that arrive after [acquireLock] has returned
    (l.193) and before the transaction begins (l.200), [later] those that
    arrive after the transaction and before [releaseLock] (l.260). The
    statements of the transaction do not read the state of the cache client,
    so an event that arrives during the transaction acts on the cache
    commands as one of [outage] does when it comes before the [DEL] of
    l.245, and as one of [later] when it comes after. With no events this is
    [updateBookingStatus]. *)
Definition updateBookingStatus_amid (outage later : list EnvEvent)
    (racing : DB -> DB) (refId : string) (status : Status)
    (location flightId description : option string)
  : M Booking StatusAck :=
  let lockKey := "booking_" +:+ refId in
  lockId <- acquireLock lockKey None ;;
  if negb (truthy_opt lockId)
  then throw (JsError "Unable to acquire lock for booking update")
  else
    try_finally
      (meanwhile outage ;;;
       transaction
         (updateBookingStatus_callback racing refId status location flightId description))
      (meanwhile later ;;; releaseLock lockKey lockId).

Definition leg_of (r : BookingFlightRow) : FlightLeg :=
  {| leg_flight_id := bf_flight_id r; leg_sequence := bf_sequence_order r |}.

Definition item_of (e : TimelineRow) : TimelineItem :=
  {| ti_event_type := te_event_type e; ti_location := te_location e;
     ti_flight_id := te_flight_id e; ti_description := te_description e;
     ti_created_at := te_created_at e |}.

(** [booking.flights = flightRows.map(...)] and
    [booking.timeline = JSON.stringify(timelineRows)] on the selected row. *)
Definition assemble (row : BookingRow) (flightRows : list BookingFlightRow)
    (timelineRows : list TimelineRow) : Booking :=
  {| b_id := bk_id row; b_ref_id := bk_ref_id row;
     b_origin := bk_origin row; b_destination := bk_destination row;
     b_pieces := bk_pieces row; b_weight_kg := bk_weight_kg row;
     b_status := bk_status row; b_created_at := bk_created_at row;
     b_updated_at := bk_updated_at row;
     b_flights := map leg_of flightRows;
     b_timeline := map item_of timelineRows |}.

(** [getBookingHistory(refId)]. *)
Definition getBookingHistory (refId : string) : M Booking (option Booking) :=
  cached <- getCachedBooking refId ;;
  match cached with
  | Some booking => ret (Some booking)
  | None =>
      bookingRows <- select_bookings refId ;;
      match bookingRows with
      | [] => ret None
      | row :: _ =>
          flightRows <- select_booking_flights (bk_id row) ;;
          timelineRows <- select_timeline (bk_id row) ;;
          let booking := assemble row flightRows timelineRows in
          cacheBooking refId booking ;;;
          ret (Some booking)
      end
  end.

(** What [getBookingHistory] reads from the store on a cache miss. *)
Definition fetch (refId : string) (d : DB) : option Booking :=
  match rows_by_ref refId d with
  | [] => None
  | row :: _ => Some (assemble row (legs_of (bk_id row) d) (events_of (bk_id row) d))
  end.

(** An entry of the [results] of [bulkUpdateStatus]:
    [{ refId, success: true }] or [{ refId, success: false, error }]. *)
Record BulkResult := {
  br_refId : string;
  br_success : bool;
  br_error : option string
}.

Section Bulk.
(** The [message] of an error raised by the MySQL driver, by its code. *)
Variable sqlMessage : string -> string.

(** [for (const refId of batch) { try { ... } catch (error) { ... } }]: the
    results pushed for the batch. *)
Fixpoint bulk_items (batch : list string) (status : Status)
    (location : option string) : M Booking (list BulkResult) :=
  match batch with
  | [] => ret []
  | refId :: rest =>
      result <- try_catch
                  (updateBookingStatus (fun d => d) refId status location None None ;;;
                   ret {| br_refId := refId; br_success := true; br_error := None |})
                  (fun error =>
                     ret {| br_refId := refId; br_success := false;
                            br_error := Some (ErrorHandler.message_of sqlMessage error) |}) ;;
      results <- bulk_items rest status location ;;
      ret (result :: results)
  end.

(** [for (let i = 0; i < refIds.length; i += batchSize)] with
    [batch = refIds.slice(i, i + batchSize)] and [batchSize = 10]; the list
    is what is left of [refIds] from [i] on, and [fuel] bounds the number of
    batches. The batch runs inside a [database.transaction] of its own, in
    which the updates open theirs. *)
Fixpoint bulk_batches (fuel : nat) (refIds : list string) (status : Status)
    (location : option string) : M Booking (list BulkResult) :=
  match fuel, refIds with
  | _, [] => ret []
  | O, _ => ret []
  | S fuel', _ =>
      let batch := take 10 refIds in
      pushed <- try_catch
                  (transaction (bulk_items batch status location))
                  (fun error =>
                     ret (map (fun refId =>
                                 {| br_refId := refId; br_success := false;
                                    br_error := Some (ErrorHandler.message_of sqlMessage error) |})
                            batch)) ;;
      results <- bulk_batches fuel' (drop 10 refIds) status location ;;
      ret (pushed ++ results)%list
  end.

(** [bulkUpdateStatus(refIds, status, location = null)]. *)
Definition bulkUpdateStatus (refIds : list string) (status : Status)
    (location : option string) : M Booking (list BulkResult) :=
  if (length refIds =? 0)%nat then throw (JsError "Invalid refIds array")
  else bulk_batches (length refIds) refIds status location.
End Bulk.

(** Requests served one after the other, and what happens around them. *)
Inductive Request :=
| CreateBooking (bookingData : BookingData) (flightIds : list string)
| UpdateBookingStatus (refId : string) (status : Status)
    (location flightId description : option string)
| GetBookingHistory (refId : string).

Inductive Step :=
| Call (r : Request)
| Env (e : EnvEvent).

Definition step (s : Step) (w : World Booking) : World Booking :=
  match s with
  | Call (CreateBooking bookingData flightIds) =>
      snd (createBooking bookingData flightIds w)
  | Call (UpdateBookingStatus refId status location flightId description) =>
      snd (updateBookingStatus (fun d => d) refId status location flightId description w)
  | Call (GetBookingHistory refId) => snd (getBookingHistory refId w)
  | Env e => env_step e w
  end.

Definition run (steps : list Step) (w : World Booking) : World Booking :=
  fold_left (fun w s => step s w) steps w.

(** The step is a status update of [refId] that succeeds in [w]. *)
Definition updates (refId : string) (s : Step) (w : World Booking) : bool :=
  match s with
  | Call (UpdateBookingStatus r status location flightId description) =>
      String.eqb r refId
      && is_ok (fst (updateBookingStatus (fun d => d) r status location flightId description w))
  | _ => false
  end.

Fixpoint successful_updates (refId : string) (steps : list Step)
    (w : World Booking) : Z :=
  match steps with
  | [] => 0
  | s :: rest =>
      (if updates refId s w then 1 else 0) + successful_updates refId rest (step s w)
  end.

(** The step is no status update of [refId]. *)
Definition leaves (refId : string) (s : Step) : bool :=
  match s with
  | Call (UpdateBookingStatus r _ _ _ _) => negb (String.eqb r refId)
  | _ => true
  end.

(** The store holds [refId] in [status], and so does the cache entry of
    [refId] when there is one. *)
Definition coherent (refId : string) (status : Status) (w : World Booking) : Prop :=
  (exists row, stored refId (db w) = Some row /\ bk_status row = status)
  /\ (forall b, store (redis w) !! ("booking:" +:+ refId) = Some (Json b) ->
                b_status b = status).

(** The lock of [refId] can be taken: the client is connected, its commands
    do not reject and nobody holds the lock. *)
Definition lock_free (w : World Booking) (refId : string) : Prop :=
  isConnected (redis w) = true /\ failing (redis w) = false
  /\ store (redis w) !! ("lock:" +:+ "booking_" +:+ refId) = None.

(** The number of entries of [results] that report a successful update of
    [refId]. *)
Definition successes (refId : string) (results : list BulkResult) : Z :=
  Z.of_nat
    (length (List.filter (fun r => String.eqb (br_refId r) refId && br_success r)
               results)).

(** What a report of [bulkUpdateStatus] says of the rows of the store before
    and after: the version of a booking has grown by the number of its
    successful updates; with none the row is as it was, otherwise it has
    the new status. *)
Definition reported (status : Status) (results : list BulkResult) (d d' : DB) : Prop :=
  forall refId row,
    stored refId d = Some row ->
    exists row',
      stored refId d' = Some row'
      /\ bk_version row' = bk_version row + successes refId results
      /\ (successes refId results = 0 -> row' = row)
      /\ (0 < successes refId results -> bk_status row' = status).
End LockedBookingService.

(** ** The [BookingService] of [unnamed/part_001] *)

Module BookingService.
Import RedisClient Database.

Record FlightInfo := {
  fi_flight_id : string;
  fi_sequence_order : Z;
  fi_flight_number : string;
  fi_airline_name : string
}.

(** The row of [SELECT * FROM bookings] with its [flights] and [timeline]. *)
Record Booking := {
  b_row : BookingRow;
  b_flights : list FlightInfo;
  b_timeline : list TimelineRow
}.

Record BookingData := {
  bd_userId : Z;
  bd_origin : string;
  bd_destination : string;
  bd_pieces : Z;
  bd_weight_kg : Z
}.

(** The [details] argument of [updateBookingStatus]. *)
Record Details := { location : option string; description : option string }.

(** [generateRefId()]; the supply gives
    [Math.random().toString(36).substr(2, 5).toUpperCase()]. *)
Definition generateRefId : M Booking string :=
  now <- Date_now ;;
  rnd <- Math_random ;;
  ret ("AC" +:+ toString36 now +:+ rnd).

Definition info_of (p : BookingFlightRow * FlightRow) : FlightInfo :=
  {| fi_flight_id := bf_flight_id (fst p);
     fi_sequence_order := bf_sequence_order (fst p);
     fi_flight_number := fl_flight_number (snd p);
     fi_airline_name := fl_airline_name (snd p) |}.

(** [booking.flights = flightRows; booking.timeline = timelineRows]. *)
Definition assemble (row : BookingRow)
    (flightRows : list (BookingFlightRow * FlightRow))
    (timelineRows : list TimelineRow) : Booking :=
  {| b_row := row; b_flights := map info_of flightRows;
     b_timeline := timelineRows |}.

(** [getBookingHistory(refId, forceDb = false)]. *)
Definition getBookingHistory (refId : string) (forceDb : bool)
  : M Booking (option Booking) :=
  cached <- (if negb forceDb then getCachedBooking refId else ret None) ;;
  match cached with
  | Some booking => ret (Some booking)
  | None =>
      bookingRows <- select_bookings refId ;;
      match bookingRows with
      | [] => ret None
      | row :: _ =>
          flightRows <- select_booking_flights_join (bk_id row) ;;
          timelineRows <- select_timeline_by_id (bk_id row) ;;
          let booking := assemble row flightRows timelineRows in
          cacheBooking refId booking ;;;
          ret (Some booking)
      end
  end.

(** [createBooking(bookingData, flightIds = [])]. The source passes the
    result of [getBookingHistory] to [cacheBooking] as it is; it is an
    object here, the booking having just been committed. *)
Definition createBooking_callback (bookingData : BookingData)
    (flightIds : list string) : M Booking string :=
  newRefId <- generateRefId ;;
  bookingId <- insert_booking newRefId (Some (bd_userId bookingData))
                 (bd_origin bookingData) (bd_destination bookingData)
                 (bd_pieces bookingData) (bd_weight_kg bookingData) ;;
  insert_flights bookingId flightIds 0 ;;;
  let firstFlightId := head flightIds in
  insert_timeline_event bookingId BOOKED (Some (bd_origin bookingData))
    firstFlightId "Booking created successfully" ;;;
  ret newRefId.

Definition createBooking (bookingData : BookingData) (flightIds : list string)
  : M Booking (option Booking) :=
  refId <- transaction (createBooking_callback bookingData flightIds) ;;
  newBookingDetails <- getBookingHistory refId true ;;
  match newBookingDetails with
  | Some details => cacheBooking refId details ;;; ret newBookingDetails
  | None => ret newBookingDetails
  end.

(** [updateBookingStatus(refId, status, details = {})]. *)
Definition updateBookingStatus_callback (refId : string) (status : Status)
    (details : Details) : M Booking unit :=
  bookingRows <- select_bookings refId ;;
  match bookingRows with
  | [] => throw (JsError "Booking not found")
  | booking :: _ =>
      if status_eqb status CANCELLED && status_eqb (bk_status booking) DELIVERED
      then throw (JsError "Cannot cancel a delivered booking.")
      else
        update_status status refId ;;;
        insert_timeline_event (bk_id booking) status (location details) None
          (or_else (description details) ("Status updated to " +:+ status_name status))
  end.

Definition updateBookingStatus (refId : string) (status : Status)
    (details : Details) : M Booking (option Booking) :=
  transaction (updateBookingStatus_callback refId status details) ;;;
  invalidateBookingCache refId ;;;
  getBookingHistory refId true.

(** A row of [getBookingsByUserId]. *)
Record Listed := {
  li_ref_id : string;
  li_origin : string;
  li_destination : string;
  li_pieces : Z;
  li_weight_kg : Z;
  li_status : Status;
  li_created_at : Z
}.

Definition listed_of (b : BookingRow) : Listed :=
  {| li_ref_id := bk_ref_id b; li_origin := bk_origin b;
     li_destination := bk_destination b; li_pieces := bk_pieces b;
     li_weight_kg := bk_weight_kg b; li_status := bk_status b;
     li_created_at := bk_created_at b |}.

(** [getBookingsByUserId(userId)]. *)
Definition getBookingsByUserId (userId : Z) : M Booking (list Listed) :=
  rows <- read (bookings_of_user userId) ;;
  ret (map listed_of rows).

(** [{ total, by_status }]; [by_status] maps the name of a status to its
    count. *)
Record Stats := {
  total : Z;
  by_status : gmap string Z
}.

(** [rows.forEach(row => { stats.total += Number(row.count);
    stats.by_status[row.status] = { count: Number(row.count) } })]. *)
Definition add_row (stats : Stats) (row : Status * Z) : Stats :=
  {| total := total stats + snd row;
     by_status := <[status_name (fst row) := snd row]> (by_status stats) |}.

(** [getBookingStats()]. *)
Definition getBookingStats : M Booking Stats :=
  now <- CURRENT_TIMESTAMP ;;
  rows <- read (stats_rows now) ;;
  ret (fold_left add_row rows {| total := 0; by_status := ∅ |}).
(** What [getBookingHistory] reads from the store on a cache miss. *)
Definition fetch (refId : string) (d : DB) : option Booking :=
  match rows_by_ref refId d with
  | [] => None
  | row :: _ =>
      Some (assemble row (joined_legs_of (bk_id row) d) (events_by_id_of (bk_id row) d))
  end.

(** Requests served one after the other, and what happens around them. *)
Inductive Request :=
| CreateBooking (bookingData : BookingData) (flightIds : list string)
| UpdateBookingStatus (refId : string) (status : Status) (details : Details)
| GetBookingHistory (refId : string).

Inductive Step :=
| Call (r : Request)
| Env (e : EnvEvent).

Definition step (s : Step) (w : World Booking) : World Booking :=
  match s with
  | Call (CreateBooking bookingData flightIds) =>
      snd (createBooking bookingData flightIds w)
  | Call (UpdateBookingStatus refId status details) =>
      snd (updateBookingStatus refId status details w)
  | Call (GetBookingHistory refId) => snd (getBookingHistory refId false w)
  | Env e => env_step e w
  end.

Definition run (steps : list Step) (w : World Booking) : World Booking :=
  fold_left (fun w s => step s w) steps w.

(** The step is no status update of [refId]. *)
Definition leaves (refId : string) (s : Step) : bool :=
  match s with
  | Call (UpdateBookingStatus r _ _) => negb (String.eqb r refId)
  | _ => true
  end.

(** The store holds [refId] in [status], and so does the cache entry of
    [refId] when there is one. *)
Definition coherent (refId : string) (status : Status) (w : World Booking) : Prop :=
  (exists row, stored refId (db w) = Some row /\ bk_status row = status)
  /\ (forall b, store (redis w) !! ("booking:" +:+ refId) = Some (Json b) ->
                bk_status (b_row b) = status).
End BookingService.

(** ** [FlightService.getTransitRoutes] ([unnamed/part_000]) *)

Module FlightService.
Import Database.

(** [TIMESTAMPDIFF(MINUTE, a, b)]: whole minutes from [a] to [b], rounded
    towards zero. *)
Definition TIMESTAMPDIFF_MINUTE (a b : Z) : Z := Z.quot (b - a) 60.

(** [DATE_ADD(t, INTERVAL 1 DAY)]. *)
Definition DATE_ADD_1_DAY (t : Z) : Z := t + 86400.

(** [NOW()]. *)
Definition NOW {J} (w : World J) : Z := clock w / 1000.

(** A row of the transit query. *)
Record TransitRow := {
  first_flight_id : string;
  first_flight_number : string;
  first_airline : string;
  first_departure : Z;
  first_arrival : Z;
  first_origin : string;
  row_transit_hub : string;
  second_flight_id : string;
  second_flight_number : string;
  second_airline : string;
  second_departure : Z;
  second_arrival : Z;
  second_origin : string;
  second_destination : string;
  total_duration : Z;
  row_layover_minutes : Z
}.

Record Segment := {
  flight_id : string;
  flight_number : string;
  airline_name : string;
  departure_datetime : Z;
  arrival_datetime : Z;
  origin : string;
  destination : string;
  segment_order : Z
}.

Record TransitRoute := {
  route_type : string;
  total_duration_minutes : Z;
  layover_minutes : Z;
  stops : Z;
  transit_hub : string;
  segments : list Segment
}.

Definition select_row (f1 f2 : FlightRow) : TransitRow :=
  {| first_flight_id := fl_flight_id f1;
     first_flight_number := fl_flight_number f1;
     first_airline := fl_airline_name f1;
     first_departure := fl_departure_datetime f1;
     first_arrival := fl_arrival_datetime f1;
     first_origin := fl_origin f1;
     row_transit_hub := fl_destination f1;
     second_flight_id := fl_flight_id f2;
     second_flight_number := fl_flight_number f2;
     second_airline := fl_airline_name f2;
     second_departure := fl_departure_datetime f2;
     second_arrival := fl_arrival_datetime f2;
     second_origin := fl_origin f2;
     second_destination := fl_destination f2;
     total_duration :=
       TIMESTAMPDIFF_MINUTE (fl_departure_datetime f1) (fl_arrival_datetime f2);
     row_layover_minutes :=
       TIMESTAMPDIFF_MINUTE (fl_arrival_datetime f1) (fl_departure_datetime f2) |}.

(** The [WHERE] clause. *)
Definition where_clause (origin destination : string) (startDate endDate now : Z)
    (f1 f2 : FlightRow) : bool :=
  String.eqb (fl_origin f1) origin
  && String.eqb (fl_destination f2) destination
  && ((startDate <=? fl_departure_datetime f1)%Z
      && (fl_departure_datetime f1 <=? endDate)%Z)
  && (now <=? fl_departure_datetime f1)%Z
  && (fl_departure_datetime f2 <=? DATE_ADD_1_DAY (fl_departure_datetime f1))%Z
  && (60 <=? TIMESTAMPDIFF_MINUTE (fl_arrival_datetime f1) (fl_departure_datetime f2))%Z
  && (TIMESTAMPDIFF_MINUTE (fl_arrival_datetime f1) (fl_departure_datetime f2) <=? 1440)%Z
  && (fl_arrival_datetime f1 <? fl_departure_datetime f2)%Z.

(** [ORDER BY total_duration ASC, f1.departure_datetime ASC]. *)
Definition order_leb (a b : TransitRow) : bool :=
  (total_duration a <? total_duration b)%Z
  || ((total_duration a =? total_duration b)%Z
      && (first_departure a <=? first_departure b)%Z).

(** [FROM flights f1 JOIN flights f2 ON f1.destination = f2.origin
    WHERE ... ORDER BY ... LIMIT 50]. *)
Definition transit_query (origin destination : string) (startDate endDate now : Z)
    (fs : list FlightRow) : list TransitRow :=
  take 50
    (order_by order_leb
       (flat_map
          (fun f1 =>
             map (select_row f1)
               (List.filter
                  (fun f2 =>
                     String.eqb (fl_destination f1) (fl_origin f2)
                     && where_clause origin destination startDate endDate now f1 f2)
                  fs))
          fs)).

Definition route_of (route : TransitRow) : TransitRoute :=
  {| route_type := "transit";
     total_duration_minutes := total_duration route;
     layover_minutes := row_layover_minutes route;
     stops := 1;
     transit_hub := row_transit_hub route;
     segments :=
       [ {| flight_id := first_flight_id route;
            flight_number := first_flight_number route;
            airline_name := first_airline route;
            departure_datetime := first_departure route;
            arrival_datetime := first_arrival route;
            origin := first_origin route;
            destination := row_transit_hub route;
            segment_order := 1 |};
         {| flight_id := second_flight_id route;
            flight_number := second_flight_number route;
            airline_name := second_airline route;
            departure_datetime := second_departure route;
            arrival_datetime := second_arrival route;
            origin := second_origin route;
            destination := second_destination route;
            segment_order := 2 |} ] |}.

Section Moment.
Context {J : Type}.
(** [moment(d).startOf('day')] and [moment(d).endOf('day')], read back by
    the store as [DATETIME] values. *)
Variables startOf_day endOf_day : Z -> Z.

(** [getTransitRoutes(origin, destination, departureDate)]. *)
Definition getTransitRoutes (origin destination : string) (departureDate : Z)
  : M J (list TransitRoute) :=
  let startDate := startOf_day departureDate in
  let endDate := endOf_day departureDate in
  emit (QUERY SELECT_flights) ;;;
  now <- gets NOW ;;
  rows <- read (fun d => transit_query origin destination startDate endDate now (flights d)) ;;
  ret (map route_of rows).
End Moment.

(** The departure of the first leg of a route. *)
Definition leg1_departure (route : TransitRoute) : Z :=
  match segments route with
  | leg1 :: _ => departure_datetime leg1
  | [] => 0
  end.

(** [a] comes no later than [b] in the order by total duration, then by
    the departure of the first leg. *)
Definition ordered (a b : TransitRoute) : Prop :=
  total_duration_minutes a < total_duration_minutes b
  \/ (total_duration_minutes a = total_duration_minutes b
      /\ leg1_departure a <= leg1_departure b).


(** The day of a timestamp in UTC. *)
Definition utc_startOf_day (t : Z) : Z := 86400 * (t / 86400).
Definition utc_endOf_day (t : Z) : Z := utc_startOf_day t + 86399.

(** A row of [getDirectFlights] and of [getFlightById]: the columns of the
    flight and [duration_minutes]. *)
Record FlightDetails := {
  fd_flight : FlightRow;
  duration_minutes : Z
}.

Definition details_of (f : FlightRow) : FlightDetails :=
  {| fd_flight := f;
     duration_minutes :=
       TIMESTAMPDIFF_MINUTE (fl_departure_datetime f) (fl_arrival_datetime f) |}.

(** [{ ...flight, route_type: 'direct', total_duration_minutes, stops: 0 }]. *)
Record DirectRoute := {
  dr_flight : FlightDetails;
  dr_route_type : string;
  dr_total_duration_minutes : Z;
  dr_stops : Z
}.

Definition direct_of (flight : FlightDetails) : DirectRoute :=
  {| dr_flight := flight; dr_route_type := "direct";
     dr_total_duration_minutes := duration_minutes flight; dr_stops := 0 |}.

(** [WHERE origin = ? AND destination = ? AND departure_datetime BETWEEN ? AND ?
    AND departure_datetime >= NOW() ORDER BY departure_datetime ASC]. *)
Definition direct_where (origin destination : string) (startDate endDate now : Z)
    (f : FlightRow) : bool :=
  String.eqb (fl_origin f) origin
  && String.eqb (fl_destination f) destination
  && ((startDate <=? fl_departure_datetime f)%Z
      && (fl_departure_datetime f <=? endDate)%Z)
  && (now <=? fl_departure_datetime f)%Z.

Definition direct_query (origin destination : string) (startDate endDate now : Z)
    (fs : list FlightRow) : list FlightDetails :=
  map details_of
    (order_by (fun a b => (fl_departure_datetime a <=? fl_departure_datetime b)%Z)
       (List.filter (direct_where origin destination startDate endDate now) fs)).

(** [{ direct, transit }]. *)
Record Routes := {
  direct : list DirectRoute;
  transit : list TransitRoute
}.

(** [{ success: true, flight_id }]. *)
Record Added := { added_success : bool; added_flight_id : string }.

(** An entry of the [results] of [bulkAddFlights]. *)
Record FlightResult := {
  fr_flight_id : string;
  fr_success : bool;
  fr_error : option string
}.

Section Service.
Context {J : Type}.
(** [moment(d).startOf('day')] and [moment(d).endOf('day')] as [DATETIME]
    values, [moment(d).format('YYYY-MM-DD')] and [moment(d).add(i, 'days')];
    the [message] of an error raised by the MySQL driver, by its code. *)
Variables startOf_day endOf_day : Z -> Z.
Variable format_date : Z -> string.
Variable add_days : Z -> Z -> Z.
Variable sqlMessage : string -> string.

(** [getDirectFlights(origin, destination, departureDate)]. *)
Definition getDirectFlights (origin destination : string) (departureDate : Z)
  : M J (list DirectRoute) :=
  let startDate := startOf_day departureDate in
  let endDate := endOf_day departureDate in
  emit (QUERY SELECT_flights) ;;;
  now <- gets NOW ;;
  rows <- read (fun d => direct_query origin destination startDate endDate now (flights d)) ;;
  ret (map direct_of rows).

(** [getFlightById(flightId)]. *)
Definition getFlightById (flightId : string) : M J (option FlightDetails) :=
  emit (QUERY SELECT_flights) ;;;
  rows <- read (fun d => map details_of (flights_by_id flightId d)) ;;
  ret (head rows).

(** The loop of [clearRouteCache], from [i] for [n] days. *)
Fixpoint clear_days (origin destination : string) (i : Z) (n : nat) : M J unit :=
  match n with
  | O => ret tt
  | S n' =>
      now <- Date_now ;;
      let date := format_date (add_days now i) in
      RedisClient.del (RedisClient.routes_key origin destination date) ;;;
      RedisClient.del (RedisClient.routes_key destination origin date) ;;;
      clear_days origin destination (i + 1) n'
  end.

(** [clearRouteCache(origin, destination)]. *)
Definition clearRouteCache (origin destination : string) : M J unit :=
  clear_days origin destination 0 7.

(** [addFlight(flightData)]. *)
Definition addFlight (flightData : FlightRow) : M J Added :=
  insert_flight_rows [flightData] ;;;
  clearRouteCache (fl_origin flightData) (fl_destination flightData) ;;;
  ret {| added_success := true; added_flight_id := fl_flight_id flightData |}.

(** [bulkAddFlights(flights)]: the loop over the batches of [batchSize = 100];
    the list is what is left of [flights], and [fuel] bounds the number of
    batches. *)
Fixpoint bulk_batches (fuel : nat) (flights : list FlightRow)
  : M J (list FlightResult) :=
  match fuel, flights with
  | _, [] => ret []
  | O, _ => ret []
  | S fuel', _ =>
      let batch := take 100 flights in
      pushed <- try_catch
                  (transaction (insert_flight_rows batch) ;;;
                   ret (map (fun f => {| fr_flight_id := fl_flight_id f;
                                         fr_success := true; fr_error := None |})
                          batch))
                  (fun error =>
                     ret (map (fun f =>
                                 {| fr_flight_id := fl_flight_id f; fr_success := false;
                                    fr_error :=
                                      Some (ErrorHandler.message_of sqlMessage error) |})
                            batch)) ;;
      results <- bulk_batches fuel' (drop 100 flights) ;;
      ret (pushed ++ results)%list
  end.

Definition bulkAddFlights (flights : list FlightRow) : M J (list FlightResult) :=
  bulk_batches (length flights) flights.
End Service.

Section GetRoutes.
Variables startOf_day endOf_day : Z -> Z.
Variable format_date : Z -> string.

(** [getRoutes(origin, destination, departureDate)]: the cache holds values
    of the type of the result. *)
Definition getRoutes (origin destination : string) (departureDate : Z)
  : M Routes Routes :=
  let dateStr := format_date departureDate in
  cached <- RedisClient.getCachedFlightRoutes origin destination dateStr ;;
  match cached with
  | Some routes => ret routes
  | None =>
      direct <- getDirectFlights startOf_day endOf_day origin destination departureDate ;;
      transit <- getTransitRoutes startOf_day endOf_day origin destination departureDate ;;
      let routes := {| direct := direct; transit := transit |} in
      RedisClient.cacheFlightRoutes origin destination dateStr routes ;;;
      ret routes
  end.
End GetRoutes.

(** The flights that [results], the report of [bulkAddFlights] on [flights],
    marks as stored. *)
Definition stored_flights (flights : list FlightRow) (results : list FlightResult)
  : list FlightRow :=
  map fst (List.filter (fun p => fr_success (snd p)) (combine flights results)).
End FlightService.

(** ** The booking routes of the lock-protected service ([unnamed/part_002]) *)

Module BookingRoutes.
Import LockedBookingService ErrorHandler.

(** [[A-Z0-9]]. *)
Definition upper_alnum (c : Ascii.ascii) : bool :=
  let n := Ascii.nat_of_ascii c in
  ((65 <=? n)%nat && (n <=? 90)%nat) || ((48 <=? n)%nat && (n <=? 57)%nat).

(** [/^[A-Z0-9]{8,20}$/.test(refId)]. *)
Definition valid_refId (refId : string) : bool :=
  forallb upper_alnum (list_ascii_of_string refId)
  && (8 <=? String.length refId)%nat && (String.length refId <=? 20)%nat.

Section Routes.
Variable sqlMessage : string -> string.

(** What [POST /] answers with on success:
    [{ ref_id: result.refId, message: 'Booking created successfully' }]. *)
Record CreatedReply := { ref_id : string; message : string }.

(** [router.post('/', validate(createBookingSchema), ...)], on the validated
    data. *)
Definition post_booking (origin destination : string) (pieces weight_kg : Z)
    (flight_ids : list string) : M Booking (Response CreatedReply) :=
  if String.eqb origin destination
  then ret (reply_error 400 "Origin and destination cannot be the same")
  else
    try_catch
      (result <- createBooking
                   {| bd_origin := origin; bd_destination := destination;
                      bd_pieces := pieces; bd_weight_kg := weight_kg |}
                   flight_ids ;;
       ret (reply_data 201
              {| ref_id := cr_refId result; message := "Booking created successfully" |}))
      (fun error => ret (errorHandler (thrown sqlMessage error))).

(** [router.get('/:refId', ...)]. *)
Definition get_booking (refId : string) : M Booking (Response Booking) :=
  if negb (valid_refId refId)
  then ret (reply_error 400 "Invalid reference ID format")
  else
    try_catch
      (booking <- getBookingHistory refId ;;
       match booking with
       | None => ret (reply_error 404 "Booking not found")
       | Some b => ret (reply_data 200 b)
       end)
      (fun error => ret (errorHandler (thrown sqlMessage error))).

(** [router.patch('/:refId/status', validate(updateStatusSchema), ...)], on
    the validated data; [racing] is passed on to [updateBookingStatus]. *)
Definition patch_status (racing : DB -> DB) (refId : string) (status : Status)
    (location flight_id description : option string)
  : M Booking (Response StatusAck) :=
  if negb (valid_refId refId)
  then ret (reply_error 400 "Invalid reference ID format")
  else
    try_catch
      (result <- updateBookingStatus racing refId status location flight_id description ;;
       ret (reply_data 200 result))
      (fun error =>
         if includes (message_of sqlMessage error) "not found"
         then ret (reply_error 404 (message_of sqlMessage error))
         else if includes (message_of sqlMessage error) "Cannot cancel"
                 || includes (message_of sqlMessage error) "Concurrent update"
         then ret (reply_error 409 (message_of sqlMessage error))
         else ret (errorHandler (thrown sqlMessage error))).

(** The body shared by the convenience endpoints [POST /:refId/depart],
    [/arrive], [/deliver] and [/cancel]. *)
Definition convenience (racing : DB -> DB) (refId : string) (status : Status)
    (location flight_id : option string) (description : string)
  : M Booking (Response StatusAck) :=
  try_catch
    (result <- updateBookingStatus racing refId status location flight_id
                 (Some description) ;;
     ret (reply_data 200 result))
    (fun error => ret (errorHandler (thrown sqlMessage error))).

(** [router.post('/:refId/cancel', ...)]. *)
Definition post_cancel (racing : DB -> DB) (refId : string)
    (description : option string) :=
  convenience racing refId CANCELLED None None
    (or_else description "Booking cancelled").
End Routes.
End BookingRoutes.

(** ** The booking routes of the service of [unnamed/part_001]
    ([src/routes/bookings.js]), behind [authMiddleware] *)

Module AuthBookingRoutes.
Import BookingService ErrorHandler.

Section Routes.
Variable sqlMessage : string -> string.

(** [router.post('/', authMiddleware, validate(createBookingSchema), ...)],
    on the validated data, for the user [req.user.id]. *)
Definition post_booking (user_id : Z) (origin destination : string)
    (pieces weight_kg : Z) (flight_ids : list string)
  : M Booking (Response (option Booking)) :=
  if String.eqb origin destination
  then ret (reply_error 400 "Origin and destination cannot be the same.")
  else
    try_catch
      (newBooking <- createBooking
                       {| bd_userId := user_id; bd_origin := origin;
                          bd_destination := destination; bd_pieces := pieces;
                          bd_weight_kg := weight_kg |}
                       flight_ids ;;
       ret (reply_data 201 newBooking))
      (fun error => ret (errorHandler (thrown sqlMessage error))).

(** [router.patch('/:refId/status', authMiddleware,
    validate(updateStatusSchema), ...)]. *)
Definition patch_status (refId : string) (status : Status)
    (location description : option string)
  : M Booking (Response (option Booking)) :=
  try_catch
    (updatedBooking <- updateBookingStatus refId status
                         {| location := location; description := description |} ;;
     ret (reply_data 200 updatedBooking))
    (fun error => ret (errorHandler (thrown sqlMessage error))).

(** [router.get('/', authMiddleware, ...)]. *)
Definition get_bookings (user_id : Z) : M Booking (Response (list Listed)) :=
  try_catch
    (bookings <- getBookingsByUserId user_id ;;
     ret (reply_data 200 bookings))
    (fun error => ret (errorHandler (thrown sqlMessage error))).

(** [router.get('/:refId', authMiddleware, ...)]. *)
Definition get_booking (user_id : Z) (refId : string)
  : M Booking (Response Booking) :=
  try_catch
    (booking <- getBookingHistory refId false ;;
     match booking with
     | None => ret (reply_error 404 "Booking not found")
     | Some b =>
         if negb (bool_decide (bk_user_id (b_row b) = Some user_id))
         then ret (reply_error 403 "Forbidden")
         else ret (reply_data 200 b)
     end)
    (fun error => ret (errorHandler (thrown sqlMessage error))).
End Routes.
End AuthBookingRoutes.

(** ** Sample stores *)

Module Sample.
Definition flight (id number : string) (departure arrival : Z)
    (origin destination : string) : FlightRow :=
  {| fl_flight_id := id; fl_flight_number := number; fl_airline_name := "Air";
     fl_departure_datetime := departure; fl_arrival_datetime := arrival;
     fl_origin := origin; fl_destination := destination |}.

Definition booking (id : Z) (ref : string) (status : Status) (version : Z)
  : BookingRow :=
  {| bk_id := id; bk_user_id := Some 7; bk_ref_id := ref; bk_origin := "DEL";
     bk_destination := "BLR"; bk_pieces := 5; bk_weight_kg := 25;
     bk_status := status; bk_created_at := 1; bk_updated_at := 1;
     bk_version := version |}.

Definition event (id booking_id : Z) (type : Status) : TimelineRow :=
  {| te_id := id; te_booking_id := booking_id; te_event_type := type;
     te_location := Some "DEL"; te_flight_id := None;
     te_description := "Booking created successfully"; te_created_at := 1 |}.

(** Two flights DEL-HYD and HYD-BLR and no booking. *)
Definition empty_db : DB :=
  {| bookings := []; booking_flights := []; timeline_events := [];
     flights := [flight "F1" "AI1" 36000 43200 "DEL" "HYD";
                 flight "F2" "AI2" 50400 57600 "HYD" "BLR"];
     next_booking_id := 1; next_booking_flight_id := 1; next_timeline_id := 1 |}.

(** One booking [AC1] in the given status, at version 1. *)
Definition db_with (status : Status) : DB :=
  {| bookings := [booking 1 "AC1" status 1]; booking_flights := [];
     timeline_events := [event 1 1 BOOKED];
     flights := flights empty_db;
     next_booking_id := 2; next_booking_flight_id := 1; next_timeline_id := 2 |}.

Definition bookingData : BookingService.BookingData :=
  {| BookingService.bd_userId := 7; BookingService.bd_origin := "DEL";
     BookingService.bd_destination := "BLR"; BookingService.bd_pieces := 5;
     BookingService.bd_weight_kg := 25 |}.

Definition lockedBookingData : LockedBookingService.BookingData :=
  {| LockedBookingService.bd_origin := "DEL";
     LockedBookingService.bd_destination := "BLR";
     LockedBookingService.bd_pieces := 5;
     LockedBookingService.bd_weight_kg := 25 |}.

Definition world {J} (d : DB) (isConnected : bool) (s : gmap string (RedisValue J))
  : World J :=
  {| db := d; undo := None;
     redis := {| isConnected := isConnected; failing := false; store := s |};
     clock := 5000; entropy := ["7K2Q"; "M4XP"; "9ZT1"; "B6WD"; "Q3E8"; "H5RN"];
     trace := [] |}.
End Sample.

(** * Properties *)

(** ** The monad *)

Lemma bind_inv {J A B} (m : M J A) (k : A -> M J B) w r w' :
  bind m k w = (r, w') ->
  (exists a w1, m w = (Ok a, w1) /\ k a w1 = (r, w'))
  \/ (exists e, m w = (Throw e, w') /\ r = Throw e).
Proof.
  unfold bind. destruct (m w) as [[a|e] w1]; intros H.
  - left. eauto.
  - right. inversion H; subst. eauto.
Qed.

Lemma bind_ok {J A B} (m : M J A) (k : A -> M J B) w a w1 :
  m w = (Ok a, w1) -> bind m k w = k a w1.
Proof. unfold bind. intros ->. reflexivity. Qed.

Lemma bind_throw {J A B} (m : M J A) (k : A -> M J B) w e w1 :
  m w = (Throw e, w1) -> bind m k w = (Throw e, w1).
Proof. unfold bind. intros ->. reflexivity. Qed.

(** ** Strings *)

#[local] Arguments Ascii.ascii_dec : simpl never.

Lemma prefix_append (a b : string) : String.prefix a (a +:+ b) = true.
Proof.
  induction a as [|c a IH]; simpl.
  - destruct b; reflexivity.
  - destruct (Ascii.ascii_dec c c); [apply IH | congruence].
Qed.

Lemma prefix_append_more (a b c : string) :
  String.prefix (a +:+ b) (a +:+ b +:+ c) = true.
Proof.
  induction a as [|x a IH].
  - apply (prefix_append b c).
  - change (String.prefix (String x (a +:+ b)) (String x (a +:+ b +:+ c)) = true).
    simpl. destruct (Ascii.ascii_dec x x); [apply IH | congruence].
Qed.

Lemma prefix_colon_has_colon (i t : string) :
  String.prefix (i +:+ ":") t = true -> no_colon t = false.
Proof.
  revert t. induction i as [|c i IH]; intros [|d t]; simpl; try discriminate.
  - destruct (Ascii.ascii_dec _ _) as [<-|]; [|discriminate]. reflexivity.
  - destruct (Ascii.ascii_dec c d) as [<-|]; [|discriminate].
    intros H. rewrite (IH _ H). apply andb_false_r.
Qed.

Lemma prefix_holder (i h t : string) :
  no_colon h = true -> no_colon t = true ->
  String.prefix (i +:+ ":") (h +:+ ":" +:+ t) = true -> i = h.
Proof.
  revert h. induction i as [|c i IH]; intros [|d h]; simpl; intros Hh Ht.
  - reflexivity.
  - destruct (Ascii.ascii_dec _ _) as [<-|]; [|discriminate].
    simpl in Hh. discriminate.
  - destruct (Ascii.ascii_dec _ _) as [->|]; [|discriminate].
    intros H. apply prefix_colon_has_colon in H.
    change ("" +:+ t) with t in H. congruence.
  - destruct (Ascii.ascii_dec c d) as [<-|]; [|discriminate].
    apply andb_prop in Hh as [_ Hh]. intros H. f_equal. eauto.
Qed.

(** ** [RedisClient] *)

Import RedisClient.

#[local] Arguments truthy : simpl never.
#[local] Arguments toString36 : simpl never.

Ltac unfold_m :=
  unfold set, get, del, cacheBooking, getCachedBooking, invalidateBookingCache,
    luaScript, connected, rejects, lookup_key, write_store, Date_now, Math_random,
    emit, bind, ret, gets, modify, throw in *.

Lemma eqb_string_refl (s : string) : String.eqb s s = true.
Proof. apply String.eqb_refl. Qed.

(** [releaseLock] removes the entry under the lock key only when the stored
    value starts with the caller's token followed by [":"]; the boolean tells
    whether the entry was removed. A value written for another holder stays
    when neither that holder's identifier nor the timestamp contains [":"],
    as is the case of every identifier [acquireLock] generates itself. *)
Theorem releaseLock_removes_only_own_lock {J} (w : World J) (lockKey : string)
    (lockId : option string) :
  let key := "lock:" +:+ lockKey in
  let before := store (redis w) in
  let outcome := fst (releaseLock lockKey lockId w) in
  let after := store (redis (snd (releaseLock lockKey lockId w))) in
  (outcome = Ok true \/ outcome = Ok false)
  /\ (outcome = Ok true ->
      exists v, before !! key = Some (Plain v)
                /\ String.prefix (or_else lockId "" +:+ ":") v = true
                /\ after = delete key before)
  /\ (outcome = Ok false -> after = before)
  /\ (forall holder ts,
        before !! key = Some (Plain (holder +:+ ":" +:+ ts)) ->
        no_colon holder = true -> no_colon ts = true ->
        lockId <> Some holder ->
        outcome = Ok false /\ after = before)
  /\ (forall holder ts,
        isConnected (redis w) = true -> failing (redis w) = false ->
        truthy lockKey = true -> truthy holder = true ->
        lockId = Some holder ->
        before !! key = Some (Plain (holder +:+ ":" +:+ ts)) ->
        outcome = Ok true /\ after !! key = None).
Proof.
  intros key before outcome after.
  assert (Hcases :
    (outcome = Ok false /\ after = before)
    \/ (outcome = Ok true /\ isConnected (redis w) = true /\ failing (redis w) = false
        /\ truthy lockKey = true /\ truthy_opt lockId = true
        /\ exists v, before !! key = Some (Plain v)
             /\ String.prefix (or_else lockId "" +:+ ":") v = true
             /\ after = delete key before)).
  { subst outcome after before key. unfold releaseLock. unfold_m.
    destruct (isConnected (redis w)); cbn; [|by left].
    destruct (truthy lockKey); cbn; [|by left].
    destruct (truthy_opt lockId); cbn; [|by left].
    destruct (failing (redis w)); cbn; [by left|].
    destruct (store (redis w) !! ("lock:" +:+ lockKey)) as [[v|j]|] eqn:Hv; cbn;
      [|by left|by left].
    destruct (truthy v); cbn; [|by left].
    destruct (String.prefix _ v) eqn:Hp; cbn; [|by left].
    rewrite Hv, eqb_string_refl. cbn.
    right. repeat split; eauto. }
  split; [destruct Hcases as [[-> _]|[-> _]]; auto|].
  split.
  { intros Ho. destruct Hcases as [[Hf _]|(_ & _ & _ & _ & _ & Hv)]; [congruence|exact Hv]. }
  split.
  { intros Ho. destruct Hcases as [[_ Hs]|[Ht _]]; [exact Hs|congruence]. }
  split.
  - intros holder ts Hv Hh Hts Hne.
    destruct Hcases as [Hf|(_ & _ & _ & _ & Hid & v & Hv' & Hp & _)]; [exact Hf|].
    exfalso. rewrite Hv in Hv'. injection Hv' as <-.
    apply prefix_holder in Hp; [|assumption..].
    destruct lockId as [i|]; [|discriminate].
    cbn in Hp, Hid. rewrite Hid in Hp. congruence.
  - intros holder ts Hc Hf Hk Hh -> Hv.
    subst outcome after before key. unfold releaseLock. unfold_m.
    rewrite Hc, Hk. cbn. rewrite Hh. cbn. rewrite Hf. cbn. rewrite Hv. cbn.
    rewrite prefix_append_more.
    assert (Ht : truthy (holder +:+ ":" +:+ ts) = true).
    { destruct holder; [discriminate|reflexivity]. }
    rewrite Ht. cbn. rewrite Hv, eqb_string_refl. cbn.
    split; [reflexivity|apply lookup_delete_eq].
Qed.

Lemma truthy_dash (a b : string) : truthy (a +:+ "-" +:+ b) = true.
Proof. destruct a; reflexivity. Qed.

Lemma truthy_colon (a b : string) : truthy (a +:+ ":" +:+ b) = true.
Proof. destruct a; reflexivity. Qed.

Lemma acquireLock_disconnected {J} (w : World J) lockKey identifier :
  isConnected (redis w) = false ->
  acquireLock lockKey identifier w = (Ok None, w).
Proof. intros H. unfold acquireLock. unfold_m. rewrite H. reflexivity. Qed.

Lemma acquireLock_generated {J} (w : World J) lockKey :
  isConnected (redis w) = true ->
  acquireLock lockKey None w =
    if failing (redis w) || bool_decide (is_Some (store (redis w) !! ("lock:" +:+ lockKey)))
    then (Ok None,
          with_trace (trace w ++ [SET_NX ("lock:" +:+ lockKey)])
            (with_entropy (tail (entropy w)) w))
    else (Ok (Some (fresh_lockId w)),
          with_redis
            (with_store
               (<[ "lock:" +:+ lockKey := Plain (fresh_lockValue w) ]> (store (redis w)))
               (redis w))
            (with_trace (trace w ++ [SET_NX ("lock:" +:+ lockKey)])
               (with_entropy (tail (entropy w)) w))).
Proof.
  intros H. unfold acquireLock. unfold_m. rewrite H. cbn.
  destruct (failing (redis w)); cbn; [reflexivity|].
  destruct (store (redis w) !! _) as [v|]; cbn; reflexivity.
Qed.

Lemma releaseLock_held {J} (w : World J) lockKey lockId ts :
  isConnected (redis w) = true -> failing (redis w) = false ->
  truthy lockKey = true -> truthy lockId = true ->
  store (redis w) !! ("lock:" +:+ lockKey) = Some (Plain (lockId +:+ ":" +:+ ts)) ->
  exists w',
    releaseLock lockKey (Some lockId) w = (Ok true, w')
    /\ db w' = db w /\ undo w' = undo w /\ clock w' = clock w
    /\ entropy w' = entropy w
    /\ isConnected (redis w') = true /\ failing (redis w') = false
    /\ store (redis w') = delete ("lock:" +:+ lockKey) (store (redis w))
    /\ trace w' = (trace w ++ [GET ("lock:" +:+ lockKey); EVAL ("lock:" +:+ lockKey)])%list.
Proof.
  intros Hc Hf Hk Hi Hv. unfold releaseLock. unfold_m.
  rewrite Hc, Hk. cbn. rewrite Hi. cbn. rewrite Hf. cbn. rewrite Hv. cbn.
  rewrite prefix_append_more, truthy_colon. cbn. rewrite Hv, eqb_string_refl. cbn.
  eexists. split; [reflexivity|]. cbn.
  repeat split; try assumption. by rewrite <- app_assoc.
Qed.

(** ** The lock around a section *)

Lemma lock_key_not_booking_key (a b : string) : "lock:" +:+ a <> "booking:" +:+ b.
Proof. discriminate. Qed.

Lemma truthy_fresh_lockId {J} (w : World J) : truthy (fresh_lockId w) = true.
Proof. apply truthy_dash. Qed.

Lemma locked_section {J A} (lockKey : string) (err : Error) (body : M J A)
    (w : World J) :
  truthy lockKey = true ->
  (forall w0,
      isConnected (redis (snd (body w0))) = isConnected (redis w0)
      /\ failing (redis (snd (body w0))) = failing (redis w0)
      /\ store (redis (snd (body w0))) !! ("lock:" +:+ lockKey)
         = store (redis w0) !! ("lock:" +:+ lockKey)) ->
  let key := "lock:" +:+ lockKey in
  let res :=
    bind (acquireLock lockKey None)
      (fun lockId =>
         if negb (truthy_opt lockId) then throw err
         else try_finally body (releaseLock lockKey lockId)) w in
  let w1 :=
    with_redis
      (with_store (<[ key := Plain (fresh_lockValue w) ]> (store (redis w))) (redis w))
      (with_trace (trace w ++ [SET_NX key]) (with_entropy (tail (entropy w)) w)) in
  ((isConnected (redis w) = false \/ failing (redis w) = true
    \/ is_Some (store (redis w) !! key))
   /\ fst res = Throw err
   /\ db (snd res) = db w /\ undo (snd res) = undo w /\ redis (snd res) = redis w
   /\ clock (snd res) = clock w
   /\ trace (snd res)
      = (trace w ++ if isConnected (redis w) then [SET_NX key] else [])%list)
  \/ (isConnected (redis w) = true /\ failing (redis w) = false
      /\ store (redis w) !! key = None
      /\ fst res = fst (body w1)
      /\ db (snd res) = db (snd (body w1))
      /\ undo (snd res) = undo (snd (body w1))
      /\ clock (snd res) = clock (snd (body w1))
      /\ isConnected (redis (snd res)) = true
      /\ failing (redis (snd res)) = false
      /\ store (redis (snd res)) = delete key (store (redis (snd (body w1))))).
Proof.
  intros Hk Hbody key res w1.
  destruct (isConnected (redis w)) eqn:Hc.
  2:{ left. subst res. unfold bind. rewrite acquireLock_disconnected by assumption.
      cbn. rewrite app_nil_r. repeat split; auto. }
  subst res. unfold bind. rewrite acquireLock_generated by assumption.
  destruct (failing (redis w)) eqn:Hf; cbn.
  { left. repeat split; auto. }
  destruct (store (redis w) !! ("lock:" +:+ lockKey)) as [v|] eqn:Hv.
  { left. rewrite bool_decide_eq_true_2 by eauto. cbn. repeat split; eauto. }
  right. rewrite bool_decide_eq_false_2 by (intros [? ?]; discriminate).
  cbn. rewrite truthy_fresh_lockId. cbn.
  unfold try_finally. fold key. fold w1.
  destruct (Hbody w1) as (Hc1 & Hf1 & Hl1).
  destruct (body w1) as [r w2] eqn:Hb. cbn in Hc1, Hf1, Hl1.
  destruct (releaseLock_held w2 lockKey (fresh_lockId w) (pretty (clock w)))
    as (w3 & Hrel & Hdb & Hundo & Hclock & _ & Hc3 & Hf3 & Hs3 & _).
  - rewrite Hc1. exact Hc.
  - rewrite Hf1. exact Hf.
  - exact Hk.
  - apply truthy_fresh_lockId.
  - rewrite Hl1. subst w1. cbn. fold key. unfold fresh_lockValue. apply lookup_insert_eq.
  - rewrite Hrel. cbn. repeat split; auto.
Qed.

(** ** The lock-protected service: [updateBookingStatus] *)

Import Database LockedBookingService.

Ltac unfold_db :=
  unfold transaction, interleave, select_bookings, update_status_versioned,
    update_status, insert_timeline_event, insert_booking_flight, insert_booking,
    select_booking_flights, select_booking_flights_join, select_timeline,
    select_timeline_by_id, CURRENT_TIMESTAMP, read, write in *.

Lemma status_guard (a b x y : Status) :
  status_eqb a x && status_eqb b y = true <-> a = x /\ b = y.
Proof.
  unfold status_eqb. rewrite andb_true_iff, !bool_decide_eq_true. reflexivity.
Qed.

Lemma locked_update_txn (w : World Booking) racing refId status location
    flightId description :
  let res :=
    transaction
      (updateBookingStatus_callback racing refId status location flightId description) w in
  let now := clock w / 1000 in
  isConnected (redis (snd res)) = isConnected (redis w)
  /\ failing (redis (snd res)) = failing (redis w)
  /\ clock (snd res) = clock w
  /\ undo (snd res) = None
  /\ (forall k, k <> "booking:" +:+ refId ->
        store (redis (snd res)) !! k = store (redis w) !! k)
  /\ ((rows_by_ref refId (db w) = []
       /\ fst res = Throw (JsError "Booking not found")
       /\ db (snd res) = db w /\ store (redis (snd res)) = store (redis w))
      \/ exists row rest, rows_by_ref refId (db w) = row :: rest /\
         ((status = CANCELLED /\ bk_status row = ARRIVED
           /\ fst res = Throw (JsError "Cannot cancel booking that has already arrived")
           /\ db (snd res) = db w /\ store (redis (snd res)) = store (redis w))
          \/ (~ (status = CANCELLED /\ bk_status row = ARRIVED) /\
              ((List.filter (version_gate refId (bk_version row))
                  (bookings (racing (db w))) = []
                /\ fst res = Throw (JsError "Concurrent update detected. Please retry.")
                /\ db (snd res) = racing (db w)
                /\ store (redis (snd res)) = store (redis w))
               \/ (List.filter (version_gate refId (bk_version row))
                     (bookings (racing (db w))) <> [] /\
                   (((exists code, fst res = Throw (SqlError code))
                     /\ db (snd res) = racing (db w)
                     /\ store (redis (snd res)) = store (redis w))
                    \/ (fst res = Ok {| ack_success := true; ack_refId := refId;
                                        ack_status := status |}
                        /\ db (snd res)
                           = add_timeline_event (bk_id row) status location flightId
                               (or_else description
                                  ("Status updated to " +:+ status_name status))
                               now
                               (gated_update status refId (bk_version row) now
                                  (racing (db w)))
                        /\ store (redis (snd res))
                           = if isConnected (redis w) && negb (failing (redis w))
                             then delete ("booking:" +:+ refId) (store (redis w))
                             else store (redis w)))))))).
Proof.
  intros res now. subst res. unfold updateBookingStatus_callback.
  unfold_db. unfold_m. cbn.
  destruct (rows_by_ref refId (db w)) as [|row rest] eqn:Hrows; cbn.
  { repeat split; auto. }
  destruct (status_eqb status CANCELLED && status_eqb (bk_status row) ARRIVED) eqn:Hguard; cbn.
  { apply status_guard in Hguard. repeat split; auto.
    right. exists row, rest. split; [reflexivity|]. left. tauto. }
  assert (Hng : ~ (status = CANCELLED /\ bk_status row = ARRIVED)).
  { rewrite <- status_guard. congruence. }
  destruct (List.filter (version_gate refId (bk_version row)) (bookings (racing (db w))))
    as [|hit hits] eqn:Hgate; cbn.
  { repeat split; auto.
    right. exists row, rest. split; [reflexivity|]. right. split; [exact Hng|].
    left. auto. }
  assert (Hz : (Z.of_nat (S (length hits)) =? 0)%Z = false) by (apply Z.eqb_neq; lia).
  rewrite Hz. cbn.
  assert (Hne : List.filter (version_gate refId (bk_version row))
                  (bookings (racing (db w))) <> []) by (rewrite Hgate; discriminate).
  destruct (fits_opt 10 location && fits_opt 50 flightId); cbn.
  2:{ repeat split; auto.
      right. exists row, rest. split; [reflexivity|]. right. split; [exact Hng|].
      right. split; [exact Hne|]. left. eauto. }
  destruct (existsb _ _); cbn.
  2:{ repeat split; auto.
      right. exists row, rest. split; [reflexivity|]. right. split; [exact Hng|].
      right. split; [exact Hne|]. left. eauto. }
  destruct (isConnected (redis w)) eqn:Hc; cbn.
  2:{ repeat split; auto.
      right. exists row, rest. split; [reflexivity|]. right. split; [exact Hng|].
      right. split; [exact Hne|]. right. auto. }
  destruct (failing (redis w)) eqn:Hf; cbn.
  { repeat split; auto.
    right. exists row, rest. split; [reflexivity|]. right. split; [exact Hng|].
    right. split; [exact Hne|]. right. auto. }
  repeat split; auto.
  { intros k Hk. by rewrite lookup_delete_ne. }
  right. exists row, rest. split; [reflexivity|]. right. split; [exact Hng|].
  right. split; [exact Hne|]. right. auto.
Qed.

Lemma locked_update_cases (w : World Booking) racing refId status location
    flightId description :
  let res := updateBookingStatus racing refId status location flightId description w in
  let key := "lock:" +:+ "booking_" +:+ refId in
  let now := clock w / 1000 in
  ((isConnected (redis w) = false \/ failing (redis w) = true
    \/ is_Some (store (redis w) !! key))
   /\ fst res = Throw (JsError "Unable to acquire lock for booking update")
   /\ db (snd res) = db w /\ undo (snd res) = undo w /\ redis (snd res) = redis w
   /\ clock (snd res) = clock w
   /\ trace (snd res)
      = (trace w ++ if isConnected (redis w) then [SET_NX key] else [])%list)
  \/ (isConnected (redis w) = true /\ failing (redis w) = false
      /\ store (redis w) !! key = None
      /\ isConnected (redis (snd res)) = true
      /\ failing (redis (snd res)) = false
      /\ clock (snd res) = clock w
      /\ undo (snd res) = None
      /\ ((rows_by_ref refId (db w) = []
           /\ fst res = Throw (JsError "Booking not found")
           /\ db (snd res) = db w /\ store (redis (snd res)) = store (redis w))
          \/ exists row rest, rows_by_ref refId (db w) = row :: rest /\
             ((status = CANCELLED /\ bk_status row = ARRIVED
               /\ fst res = Throw (JsError "Cannot cancel booking that has already arrived")
               /\ db (snd res) = db w /\ store (redis (snd res)) = store (redis w))
              \/ (~ (status = CANCELLED /\ bk_status row = ARRIVED) /\
                  ((List.filter (version_gate refId (bk_version row))
                      (bookings (racing (db w))) = []
                    /\ fst res = Throw (JsError "Concurrent update detected. Please retry.")
                    /\ db (snd res) = racing (db w)
                    /\ store (redis (snd res)) = store (redis w))
                   \/ (List.filter (version_gate refId (bk_version row))
                         (bookings (racing (db w))) <> [] /\
                       (((exists code, fst res = Throw (SqlError code))
                         /\ db (snd res) = racing (db w)
                         /\ store (redis (snd res)) = store (redis w))
                        \/ (fst res = Ok {| ack_success := true; ack_refId := refId;
                                            ack_status := status |}
                            /\ db (snd res)
                               = add_timeline_event (bk_id row) status location flightId
                                   (or_else description
                                      ("Status updated to " +:+ status_name status))
                                   now
                                   (gated_update status refId (bk_version row) now
                                      (racing (db w)))
                            /\ store (redis (snd res))
                               = delete ("booking:" +:+ refId) (store (redis w)))))))))).
Proof.
  intros res key now. subst res. unfold updateBookingStatus.
  set (body := transaction _).
  destruct (locked_section ("booking_" +:+ refId)
              (JsError "Unable to acquire lock for booking update") body w)
    as [Hleft|(Hc & Hf & Hl & Hres & Hdb & Hundo & Hclock & Hc' & Hf' & Hstore)].
  - reflexivity.
  - intros w0. subst body.
    destruct (locked_update_txn w0 racing refId status location flightId description)
      as (H1 & H2 & _ & _ & H5 & _).
    repeat split; auto.
  - left. exact Hleft.
  - right. fold key in Hl, Hres, Hdb, Hundo, Hclock, Hstore.
    set (w1 := with_redis _ _) in *.
    subst body.
    destruct (locked_update_txn w1 racing refId status location flightId description)
      as (_ & _ & Tclock & Tundo & _ & Tcases).
    cbn zeta in Tcases.
    rewrite Hres, Hdb, Hundo, Hclock, Hstore.
    assert (Hd1 : db w1 = db w) by reflexivity.
    assert (Hs1 : store (redis w1) = <[key := Plain (fresh_lockValue w)]> (store (redis w)))
      by reflexivity.
    assert (Hc1 : isConnected (redis w1) = true) by exact Hc.
    assert (Hf1 : failing (redis w1) = false) by exact Hf.
    assert (Hk1 : clock w1 = clock w) by reflexivity.
    rewrite Hd1, Hs1, Hc1, Hf1, Hk1 in Tcases. cbn [andb negb] in Tcases.
    assert (Hback : delete key (<[key := Plain (fresh_lockValue w)]> (store (redis w)))
                    = store (redis w)) by (by apply delete_insert_id).
    assert (Hinv : delete key
                     (delete ("booking:" +:+ refId)
                        (<[key := Plain (fresh_lockValue w)]> (store (redis w))))
                   = delete ("booking:" +:+ refId) (store (redis w))).
    { rewrite delete_delete. by rewrite Hback. }
    repeat (split; [assumption || congruence|]).
    destruct Tcases as [(Hr & He & Hd & Hs)|(row & rest & Hr & Tcases)].
    { left. rewrite Hs, Hback. auto. }
    right. exists row, rest. split; [exact Hr|].
    destruct Tcases as [(? & ? & ? & ? & Hs)|(Hng & Tcases)].
    { left. rewrite Hs, Hback. auto. }
    right. split; [exact Hng|].
    destruct Tcases as [(? & ? & ? & Hs)|(Hne & Tcases)].
    { left. rewrite Hs, Hback. auto. }
    right. split; [exact Hne|].
    destruct Tcases as [(? & ? & Hs)|(? & ? & Hs)].
    { left. rewrite Hs, Hback. auto. }
    right. rewrite Hs, Hinv. auto.
Qed.

(** ** The lock-protected service: [getBookingHistory] *)

Lemma locked_get_cases (w : World Booking) refId :
  let res := getBookingHistory refId w in
  let key := "booking:" +:+ refId in
  db (snd res) = db w
  /\ undo (snd res) = undo w
  /\ clock (snd res) = clock w
  /\ isConnected (redis (snd res)) = isConnected (redis w)
  /\ failing (redis (snd res)) = failing (redis w)
  /\ (forall k, k <> key -> store (redis (snd res)) !! k = store (redis w) !! k)
  /\ ((isConnected (redis w) = true /\ failing (redis w) = false
       /\ exists b, store (redis w) !! key = Some (Json b)
                    /\ fst res = Ok (Some b)
                    /\ store (redis (snd res)) = store (redis w))
      \/ ((isConnected (redis w) = false \/ failing (redis w) = true
           \/ forall b, store (redis w) !! key <> Some (Json b))
          /\ fst res = Ok (fetch refId (db w))
          /\ store (redis (snd res))
             = match fetch refId (db w) with
               | Some b =>
                   if isConnected (redis w) && negb (failing (redis w))
                   then <[key := Json b]> (store (redis w))
                   else store (redis w)
               | None => store (redis w)
               end)).
Proof.
  intros res key. subst res key. unfold getBookingHistory, fetch.
  unfold_db. unfold_m. cbn.
  destruct (isConnected (redis w)) eqn:Hc; cbn.
  2:{ destruct (rows_by_ref refId (db w)) as [|row rest]; cbn; rewrite ?Hc; cbn;
        repeat split; auto. }
  destruct (failing (redis w)) eqn:Hf; cbn.
  { destruct (rows_by_ref refId (db w)) as [|row rest]; cbn; rewrite ?Hc; cbn;
      rewrite ?Hf; cbn; repeat split; auto. }
  destruct (store (redis w) !! ("booking:" +:+ refId)) as [[s|b]|] eqn:Hv; cbn.
  - destruct (rows_by_ref refId (db w)) as [|row rest]; cbn; rewrite ?Hc; cbn;
      rewrite ?Hf; cbn; repeat split; auto;
      try (intros k Hk; by rewrite lookup_insert_ne);
      right; (split; [right; right; intros ?; rewrite ?Hv; discriminate|]);
      repeat split; auto.
  - repeat split; auto. left. eauto 10.
  - destruct (rows_by_ref refId (db w)) as [|row rest]; cbn; rewrite ?Hc; cbn;
      rewrite ?Hf; cbn; repeat split; auto;
      try (intros k Hk; by rewrite lookup_insert_ne);
      right; (split; [right; right; intros ?; rewrite ?Hv; discriminate|]);
      repeat split; auto.
Qed.

Lemma acquireLock_unavailable {J} (w : World J) lockKey identifier :
  isConnected (redis w) = false \/ failing (redis w) = true ->
  fst (acquireLock lockKey identifier w) = Ok None
  /\ db (snd (acquireLock lockKey identifier w)) = db w
  /\ redis (snd (acquireLock lockKey identifier w)) = redis w.
Proof.
  intros H. unfold acquireLock. unfold_m.
  destruct (isConnected (redis w)); cbn; [|auto].
  destruct H as [H|H]; [discriminate|].
  destruct (truthy_opt identifier); cbn; rewrite H; cbn; auto.
Qed.

(** C10. While the cache client is disconnected or its commands fail,
    [acquireLock] returns [null] without throwing, every
    [updateBookingStatus] of the lock-protected service fails with the
    lock-acquisition error and leaves both stores as they are, and
    [getBookingHistory] still answers, from the relational store. *)
Theorem cache_outage_blocks_status_updates (w : World Booking) racing refId
    status location flightId description :
  isConnected (redis w) = false \/ failing (redis w) = true ->
  (forall lockKey identifier, fst (acquireLock lockKey identifier w) = Ok None)
  /\ fst (updateBookingStatus racing refId status location flightId description w)
     = Throw (JsError "Unable to acquire lock for booking update")
  /\ db (snd (updateBookingStatus racing refId status location flightId description w))
     = db w
  /\ redis (snd (updateBookingStatus racing refId status location flightId description w))
     = redis w
  /\ fst (getBookingHistory refId w) = Ok (fetch refId (db w))
  /\ db (snd (getBookingHistory refId w)) = db w.
Proof.
  intros Hout. split.
  { intros lockKey identifier. by apply acquireLock_unavailable. }
  destruct (locked_update_cases w racing refId status location flightId description)
    as [(_ & Hr & Hd & _ & Hre & _)|(Hc & Hf & _)].
  2:{ destruct Hout; congruence. }
  repeat (split; [assumption|]).
  destruct (locked_get_cases w refId) as (Hd' & _ & _ & _ & _ & _ & Hcases).
  split; [|exact Hd'].
  destruct Hcases as [(Hc & Hf & _)|(_ & Hr' & _)]; [destruct Hout; congruence|exact Hr'].
Qed.

Lemma cache_outage_blocks_status_updates_witness :
  fst (updateBookingStatus (fun d => d) "AC1" DEPARTED (Some "DEL") None None
         (Sample.world (Sample.db_with BOOKED) false ∅))
  = Throw (JsError "Unable to acquire lock for booking update")
  /\ exists b, fst (getBookingHistory "AC1" (Sample.world (Sample.db_with BOOKED) false ∅))
               = Ok (Some b) /\ b_status b = BOOKED.
Proof.
  destruct (cache_outage_blocks_status_updates
              (Sample.world (Sample.db_with BOOKED) false ∅) (fun d => d) "AC1"
              DEPARTED (Some "DEL") None None)
    as (_ & Hu & _ & _ & Hg & _).
  - left. reflexivity.
  - split; [exact Hu|]. eexists. split; [exact Hg|]. reflexivity.
Defined.

(** C4. When the lock of the booking is held, [updateBookingStatus] of the
    lock-protected service throws the lock error after one [SET ... NX]: no
    other command reaches either store, and both stores are unchanged. *)
Theorem updateBookingStatus_fails_fast_when_locked (w : World Booking) racing
    refId status location flightId description holder :
  isConnected (redis w) = true -> failing (redis w) = false ->
  store (redis w) !! ("lock:" +:+ "booking_" +:+ refId) = Some holder ->
  fst (updateBookingStatus racing refId status location flightId description w)
  = Throw (JsError "Unable to acquire lock for booking update")
  /\ trace (snd (updateBookingStatus racing refId status location flightId description w))
     = (trace w ++ [SET_NX ("lock:" +:+ "booking_" +:+ refId)])%list
  /\ db (snd (updateBookingStatus racing refId status location flightId description w))
     = db w
  /\ redis (snd (updateBookingStatus racing refId status location flightId description w))
     = redis w.
Proof.
  intros Hc Hf Hheld.
  destruct (locked_update_cases w racing refId status location flightId description)
    as [(_ & Hr & Hd & _ & Hre & _ & Ht)|(_ & _ & Hfree & _)].
  - rewrite Hc in Ht. auto.
  - congruence.
Qed.

Lemma updateBookingStatus_fails_fast_when_locked_witness :
  let w : World Booking :=
    Sample.world (Sample.db_with BOOKED) true
      {[ "lock:booking_AC1" := Plain "4000-0.1:4000" ]} in
  fst (updateBookingStatus (fun d => d) "AC1" DEPARTED (Some "DEL") None None w)
  = Throw (JsError "Unable to acquire lock for booking update")
  /\ trace (snd (updateBookingStatus (fun d => d) "AC1" DEPARTED (Some "DEL") None None w))
     = [SET_NX "lock:booking_AC1"].
Proof.
  intros w.
  destruct (updateBookingStatus_fails_fast_when_locked w (fun d => d) "AC1" DEPARTED
              (Some "DEL") None None (Plain "4000-0.1:4000"))
    as (Hr & Ht & _); try reflexivity.
  split; [exact Hr | exact Ht].
Defined.

Lemma stored_rows refId d row rest :
  rows_by_ref refId d = row :: rest -> stored refId d = Some row.
Proof. unfold stored. intros ->. reflexivity. Qed.

(** C3. In [updateBookingStatus] of the lock-protected service the [UPDATE]
    changes only rows that still carry the version read by the [SELECT] of
    the same transaction; when no row does, the call throws the
    concurrent-update error; a call that throws leaves in the store none of
    its writes (only what other sessions committed), and a call that returns
    has stored the new status, the incremented version and the timeline event
    together. *)
Theorem updateBookingStatus_version_gated_and_atomic (w : World Booking) racing
    refId status location flightId description :
  let res := updateBookingStatus racing refId status location flightId description w in
  let now := clock w / 1000 in
  (forall row,
      isConnected (redis w) = true -> failing (redis w) = false ->
      store (redis w) !! ("lock:" +:+ "booking_" +:+ refId) = None ->
      stored refId (db w) = Some row ->
      ~ (status = CANCELLED /\ bk_status row = ARRIVED) ->
      List.filter (version_gate refId (bk_version row)) (bookings (racing (db w))) = [] ->
      fst res = Throw (JsError "Concurrent update detected. Please retry.")
      /\ db (snd res) = racing (db w))
  /\ (forall e, fst res = Throw e ->
        db (snd res) = db w \/ db (snd res) = racing (db w))
  /\ (forall ack, fst res = Ok ack ->
        exists row,
          stored refId (db w) = Some row
          /\ List.filter (version_gate refId (bk_version row))
               (bookings (racing (db w))) <> []
          /\ db (snd res)
             = add_timeline_event (bk_id row) status location flightId
                 (or_else description ("Status updated to " +:+ status_name status))
                 now
                 (gated_update status refId (bk_version row) now (racing (db w)))).
Proof.
  intros res now.
  pose proof (locked_update_cases w racing refId status location flightId description)
    as Hcases.
  cbn zeta in Hcases. fold res in Hcases. fold now in Hcases.
  split; [|split].
  - intros row Hc Hf Hfree Hrow Hrule Hzero.
    destruct Hcases as [([?|[?|[? ?]]] & _)|(_ & _ & _ & _ & _ & _ & _ & Hcases)];
      try congruence.
    unfold stored in Hrow.
    destruct Hcases as [(Hr & _)|(row' & rest & Hr & Hcases)].
    { rewrite Hr in Hrow. discriminate. }
    rewrite Hr in Hrow. injection Hrow as ->.
    destruct Hcases as [(? & ? & _)|(_ & [(_ & ? & ? & _)|(Hne & _)])];
      [tauto|auto|contradiction].
  - intros e He.
    destruct Hcases as [(_ & _ & Hd & _)|(_ & _ & _ & _ & _ & _ & _ & Hcases)]; [auto|].
    destruct Hcases as [(_ & _ & ? & _)|(row & rest & _ & Hcases)]; [auto|].
    destruct Hcases as [(_ & _ & _ & ? & _)|(_ & [(_ & _ & ? & _)|(_ & Hcases)])];
      [auto|auto|].
    destruct Hcases as [(_ & ? & _)|(Hok & _)]; [auto|congruence].
  - intros ack Hack.
    destruct Hcases as [(_ & Hr & _)|(_ & _ & _ & _ & _ & _ & _ & Hcases)]; [congruence|].
    destruct Hcases as [(_ & ? & _)|(row & rest & Hrows & Hcases)]; [congruence|].
    exists row. split; [by eapply stored_rows|].
    destruct Hcases as [(_ & _ & ? & _)|(_ & [(_ & ? & _)|(Hne & Hcases)])];
      [congruence|congruence|].
    split; [exact Hne|].
    destruct Hcases as [([code ?] & _)|(_ & Hd & _)]; [congruence|exact Hd].
Qed.

(** A session that commits between the [SELECT] and the [UPDATE] of the call
    below: it marks [AC1] as delivered and increments the version. *)
Lemma updateBookingStatus_version_gated_and_atomic_witness :
  let w : World Booking := Sample.world (Sample.db_with BOOKED) true ∅ in
  let racing := gated_update DELIVERED "AC1" 1 5 in
  fst (updateBookingStatus racing "AC1" DEPARTED (Some "DEL") None None w)
  = Throw (JsError "Concurrent update detected. Please retry.")
  /\ db (snd (updateBookingStatus racing "AC1" DEPARTED (Some "DEL") None None w))
     = racing (db w).
Proof.
  intros w racing.
  destruct (updateBookingStatus_version_gated_and_atomic w racing "AC1" DEPARTED
              (Some "DEL") None None) as (Hgate & _ & _).
  apply (Hgate (Sample.booking 1 "AC1" BOOKED 1)); try reflexivity.
  intros [H _]. discriminate H.
Defined.

(** The [UPDATE] has run and the [INSERT] of the timeline event fails
    ([location] is too long for its column): the rollback undoes the update. *)
Example updateBookingStatus_rolls_back_the_update :
  let w : World Booking := Sample.world (Sample.db_with BOOKED) true ∅ in
  updateBookingStatus (fun d => d) "AC1" DEPARTED (Some "DEL-TERMINAL-3") None None w
  = (Throw (SqlError "ER_DATA_TOO_LONG"),
     snd (updateBookingStatus (fun d => d) "AC1" DEPARTED (Some "DEL-TERMINAL-3") None None w))
  /\ db (snd (updateBookingStatus (fun d => d) "AC1" DEPARTED (Some "DEL-TERMINAL-3")
                None None w))
     = Sample.db_with BOOKED
  /\ In (QUERY (UPDATE_bookings "AC1"))
       (trace (snd (updateBookingStatus (fun d => d) "AC1" DEPARTED (Some "DEL-TERMINAL-3")
                      None None w))).
Proof. vm_compute. repeat split; auto 10. Qed.

(** ** Rows of a reference code under the writes *)

Lemma filter_map_stable {A} (p : A -> bool) (g : A -> A) (l : list A) :
  (forall x, p (g x) = p x) ->
  List.filter p (map g l) = map g (List.filter p l).
Proof.
  intros Hp. induction l as [|x l IH]; cbn; [reflexivity|].
  rewrite Hp. destruct (p x); cbn; by rewrite IH.
Qed.

Lemma map_filter_id {A} (p : A -> bool) (g : A -> A) (l : list A) :
  (forall x, p x = true -> g x = x) ->
  map g (List.filter p l) = List.filter p l.
Proof.
  intros Hg. induction l as [|x l IH]; cbn; [reflexivity|].
  destruct (p x) eqn:Hx; cbn; [|exact IH]. by rewrite IH, Hg.
Qed.

Lemma map_filter_ext {A} (p : A -> bool) (g h : A -> A) (l : list A) :
  (forall x, p x = true -> g x = h x) ->
  map g (List.filter p l) = map h (List.filter p l).
Proof.
  intros Hg. induction l as [|x l IH]; cbn; [reflexivity|].
  destruct (p x) eqn:Hx; cbn; [|exact IH]. by rewrite IH, Hg.
Qed.

Lemma rows_by_ref_add_timeline_event refId booking_id event_type location
    flight_id description now d :
  rows_by_ref refId
    (add_timeline_event booking_id event_type location flight_id description now d)
  = rows_by_ref refId d.
Proof. reflexivity. Qed.

Lemma rows_by_ref_add_booking_flight refId booking_id flight_id seq now d :
  rows_by_ref refId (add_booking_flight booking_id flight_id seq now d)
  = rows_by_ref refId d.
Proof. reflexivity. Qed.

Lemma rows_by_ref_add_booking refId row d :
  rows_by_ref refId (add_booking row d)
  = (rows_by_ref refId d ++ if String.eqb (bk_ref_id row) refId then [row] else [])%list.
Proof.
  unfold rows_by_ref, add_booking. cbn. rewrite List.filter_app. cbn.
  by destruct (String.eqb _ _).
Qed.

Lemma rows_by_ref_plain_update refId status now d :
  rows_by_ref refId (plain_update status refId now d)
  = map (restate status now) (rows_by_ref refId d).
Proof.
  unfold rows_by_ref, plain_update. cbn.
  rewrite filter_map_stable.
  - apply map_filter_ext. intros x Hx. by rewrite Hx.
  - intros x. by destruct (String.eqb (bk_ref_id x) refId) eqn:Hx.
Qed.

Lemma rows_by_ref_plain_update_other refId other status now d :
  other <> refId ->
  rows_by_ref refId (plain_update status other now d) = rows_by_ref refId d.
Proof.
  intros Hne. unfold rows_by_ref, plain_update. cbn.
  rewrite filter_map_stable.
  - apply map_filter_id. intros x Hx. apply String.eqb_eq in Hx.
    destruct (String.eqb (bk_ref_id x) other) eqn:Ho; [|reflexivity].
    apply String.eqb_eq in Ho. congruence.
  - intros x. by destruct (String.eqb (bk_ref_id x) other).
Qed.

Lemma rows_by_ref_gated_update refId status version now d :
  rows_by_ref refId (gated_update status refId version now d)
  = map (fun b => if (bk_version b =? version)%Z then bump status now b else b)
      (rows_by_ref refId d).
Proof.
  unfold rows_by_ref, gated_update. cbn.
  rewrite filter_map_stable.
  - apply map_filter_ext. intros x Hx. unfold version_gate. by rewrite Hx.
  - intros x. by destruct (version_gate refId version x).
Qed.

Lemma rows_by_ref_gated_update_other refId other status version now d :
  other <> refId ->
  rows_by_ref refId (gated_update status other version now d) = rows_by_ref refId d.
Proof.
  intros Hne. unfold rows_by_ref, gated_update. cbn.
  rewrite filter_map_stable.
  - apply map_filter_id. intros x Hx. apply String.eqb_eq in Hx.
    unfold version_gate.
    destruct (String.eqb (bk_ref_id x) other) eqn:Ho; [|reflexivity].
    apply String.eqb_eq in Ho. congruence.
  - intros x. by destruct (version_gate other version x).
Qed.

(** ** The service of [unnamed/part_001]: [getBookingHistory] and
    [updateBookingStatus] *)

Lemma get_cases (w : World BookingService.Booking) refId forceDb :
  let res := BookingService.getBookingHistory refId forceDb w in
  let key := "booking:" +:+ refId in
  db (snd res) = db w
  /\ undo (snd res) = undo w
  /\ clock (snd res) = clock w
  /\ isConnected (redis (snd res)) = isConnected (redis w)
  /\ failing (redis (snd res)) = failing (redis w)
  /\ (forall k, k <> key -> store (redis (snd res)) !! k = store (redis w) !! k)
  /\ ((forceDb = false /\ isConnected (redis w) = true /\ failing (redis w) = false
       /\ exists b, store (redis w) !! key = Some (Json b)
                    /\ fst res = Ok (Some b)
                    /\ store (redis (snd res)) = store (redis w))
      \/ ((forceDb = true \/ isConnected (redis w) = false \/ failing (redis w) = true
           \/ forall b, store (redis w) !! key <> Some (Json b))
          /\ fst res = Ok (BookingService.fetch refId (db w))
          /\ store (redis (snd res))
             = match BookingService.fetch refId (db w) with
               | Some b =>
                   if isConnected (redis w) && negb (failing (redis w))
                   then <[key := Json b]> (store (redis w))
                   else store (redis w)
               | None => store (redis w)
               end)).
Proof.
  intros res key. subst res key.
  unfold BookingService.getBookingHistory, BookingService.fetch.
  unfold_db. unfold_m. cbn.
  destruct forceDb; cbn.
  { destruct (rows_by_ref refId (db w)) as [|row rest]; cbn;
      destruct (isConnected (redis w)) eqn:Hc; cbn;
      destruct (failing (redis w)) eqn:Hf; cbn;
      repeat split; auto;
      try (intros k Hk; by rewrite lookup_insert_ne);
      right; repeat split; auto. }
  destruct (isConnected (redis w)) eqn:Hc; cbn.
  2:{ destruct (rows_by_ref refId (db w)) as [|row rest]; cbn; rewrite ?Hc; cbn;
        repeat split; auto; right; repeat split; auto. }
  destruct (failing (redis w)) eqn:Hf; cbn.
  { destruct (rows_by_ref refId (db w)) as [|row rest]; cbn; rewrite ?Hc; cbn;
      rewrite ?Hf; cbn; repeat split; auto; right; repeat split; auto. }
  destruct (store (redis w) !! ("booking:" +:+ refId)) as [[s|b]|] eqn:Hv; cbn.
  - destruct (rows_by_ref refId (db w)) as [|row rest]; cbn; rewrite ?Hc; cbn;
      rewrite ?Hf; cbn; repeat split; auto;
      try (intros k Hk; by rewrite lookup_insert_ne);
      right; (split; [right; right; right; intros ?; rewrite ?Hv; discriminate|]);
      repeat split; auto.
  - repeat split; auto. left. eauto 10.
  - destruct (rows_by_ref refId (db w)) as [|row rest]; cbn; rewrite ?Hc; cbn;
      rewrite ?Hf; cbn; repeat split; auto;
      try (intros k Hk; by rewrite lookup_insert_ne);
      right; (split; [right; right; right; intros ?; rewrite ?Hv; discriminate|]);
      repeat split; auto.
Qed.

Lemma update_txn (w : World BookingService.Booking) refId status details :
  let res :=
    transaction (BookingService.updateBookingStatus_callback refId status details) w in
  let now := clock w / 1000 in
  redis (snd res) = redis w
  /\ clock (snd res) = clock w
  /\ undo (snd res) = None
  /\ ((rows_by_ref refId (db w) = []
       /\ fst res = Throw (JsError "Booking not found")
       /\ db (snd res) = db w)
      \/ exists row rest, rows_by_ref refId (db w) = row :: rest /\
         ((status = CANCELLED /\ bk_status row = DELIVERED
           /\ fst res = Throw (JsError "Cannot cancel a delivered booking.")
           /\ db (snd res) = db w)
          \/ (~ (status = CANCELLED /\ bk_status row = DELIVERED) /\
              (((exists code, fst res = Throw (SqlError code)) /\ db (snd res) = db w)
               \/ (fst res = Ok tt
                   /\ db (snd res)
                      = add_timeline_event (bk_id row) status
                          (BookingService.location details) None
                          (or_else (BookingService.description details)
                             ("Status updated to " +:+ status_name status))
                          now (plain_update status refId now (db w))))))).
Proof.
  intros res now. subst res. unfold BookingService.updateBookingStatus_callback.
  unfold_db. unfold_m. cbn.
  destruct (rows_by_ref refId (db w)) as [|row rest] eqn:Hrows; cbn.
  { repeat split; auto. }
  destruct (status_eqb status CANCELLED && status_eqb (bk_status row) DELIVERED)
    eqn:Hguard; cbn.
  { apply status_guard in Hguard. repeat split; auto.
    right. exists row, rest. split; [reflexivity|]. left. tauto. }
  assert (Hng : ~ (status = CANCELLED /\ bk_status row = DELIVERED)).
  { rewrite <- status_guard. congruence. }
  destruct (fits_opt 10 (BookingService.location details) && true); cbn.
  2:{ repeat split; auto.
      right. exists row, rest. split; [reflexivity|]. right. split; [exact Hng|].
      left. eauto. }
  destruct (existsb _ _); cbn.
  2:{ repeat split; auto.
      right. exists row, rest. split; [reflexivity|]. right. split; [exact Hng|].
      left. eauto. }
  repeat split; auto.
  right. exists row, rest. split; [reflexivity|]. right. split; [exact Hng|].
  right. auto.
Qed.

Lemma fetch_after_update refId status now row rest location description d :
  rows_by_ref refId d = row :: rest ->
  exists b,
    BookingService.fetch refId
      (add_timeline_event (bk_id row) status location None description now
         (plain_update status refId now d)) = Some b
    /\ BookingService.b_row b = restate status now row.
Proof.
  intros Hrows. unfold BookingService.fetch.
  rewrite rows_by_ref_add_timeline_event, rows_by_ref_plain_update, Hrows. cbn.
  eexists. split; reflexivity.
Qed.

Lemma update_cases (w : World BookingService.Booking) refId status details :
  let res := BookingService.updateBookingStatus refId status details w in
  let now := clock w / 1000 in
  let key := "booking:" +:+ refId in
  isConnected (redis (snd res)) = isConnected (redis w)
  /\ failing (redis (snd res)) = failing (redis w)
  /\ clock (snd res) = clock w
  /\ undo (snd res) = None
  /\ (forall k, k <> key -> store (redis (snd res)) !! k = store (redis w) !! k)
  /\ ((rows_by_ref refId (db w) = []
       /\ fst res = Throw (JsError "Booking not found")
       /\ db (snd res) = db w /\ redis (snd res) = redis w)
      \/ exists row rest, rows_by_ref refId (db w) = row :: rest /\
         ((status = CANCELLED /\ bk_status row = DELIVERED
           /\ fst res = Throw (JsError "Cannot cancel a delivered booking.")
           /\ db (snd res) = db w /\ redis (snd res) = redis w)
          \/ (~ (status = CANCELLED /\ bk_status row = DELIVERED) /\
              (((exists code, fst res = Throw (SqlError code))
                /\ db (snd res) = db w /\ redis (snd res) = redis w)
               \/ exists b,
                    fst res = Ok (Some b)
                    /\ db (snd res)
                       = add_timeline_event (bk_id row) status
                           (BookingService.location details) None
                           (or_else (BookingService.description details)
                              ("Status updated to " +:+ status_name status))
                           now (plain_update status refId now (db w))
                    /\ BookingService.fetch refId (db (snd res)) = Some b
                    /\ BookingService.b_row b = restate status now row
                    /\ store (redis (snd res))
                       = if isConnected (redis w) && negb (failing (redis w))
                         then <[key := Json b]> (store (redis w))
                         else store (redis w))))).
Proof.
  intros res now key. subst res. unfold BookingService.updateBookingStatus.
  destruct (update_txn w refId status details) as (Tr & Tc & Tu & Tcases).
  cbn zeta in Tcases. fold now in Tcases.
  unfold bind.
  destruct (transaction _ w) as [[[]|e] w1] eqn:Htxn; cbn in Tr, Tc, Tu, Tcases.
  2:{ cbn. rewrite Tr. repeat split; auto.
      destruct Tcases as [(? & ? & ?)|(row & rest & Hr & Tcases)];
        [left; repeat split; auto; congruence|].
      right. exists row, rest. split; [exact Hr|].
      destruct Tcases as [(? & ? & ? & ?)|(Hng & [([code Hcode] & ?)|(? & _)])];
        [left; repeat split; auto; congruence|right|congruence].
      split; [exact Hng|]. left. repeat split; auto.
      exists code. congruence. }
  destruct Tcases as [(_ & ? & _)|(row & rest & Hr & Tcases)]; [congruence|].
  destruct Tcases as [(_ & _ & ? & _)|(Hng & [([code ?] & _)|(_ & Hd)])];
    [congruence|congruence|].
  destruct (fetch_after_update refId status now row rest
              (BookingService.location details)
              (or_else (BookingService.description details)
                 ("Status updated to " +:+ status_name status)) (db w) Hr)
    as (b & Hfetch & Hrow).
  rewrite <- Hd in Hfetch.
  destruct (invalidateBookingCache refId w1) as [[ok|e] w2] eqn:Hinv.
  2:{ exfalso. revert Hinv. unfold invalidateBookingCache, del. unfold_m.
      destruct (isConnected (redis w1)); cbn; [|discriminate].
      destruct (failing (redis w1)); cbn; discriminate. }
  assert (Hw2 : db w2 = db w1 /\ undo w2 = undo w1 /\ clock w2 = clock w1
                /\ isConnected (redis w2) = isConnected (redis w1)
                /\ failing (redis w2) = failing (redis w1)
                /\ store (redis w2)
                   = if isConnected (redis w1) && negb (failing (redis w1))
                     then delete key (store (redis w1)) else store (redis w1)).
  { revert Hinv. unfold invalidateBookingCache, del. unfold_m.
    destruct (isConnected (redis w1)) eqn:Ec; cbn; [|intros [= <- <-]; auto 10].
    destruct (failing (redis w1)) eqn:Ef; cbn; intros [= <- <-]; cbn; auto 10. }
  destruct Hw2 as (Hd2 & Hu2 & Hk2 & Hc2 & Hf2 & Hs2).
  destruct (get_cases w2 refId true) as (Gd & Gu & Gk & Gc & Gf & Go & Gcases).
  destruct Gcases as [(? & _)|(_ & Gr & Gs)]; [discriminate|].
  rewrite Hd2, Hfetch in Gr, Gs. rewrite Hc2, Hf2, Hs2, Tr in Gs.
  rewrite Gc, Gf, Gk, Gu, Gd, Hc2, Hf2, Hk2, Hu2, Hd2, Tr, Tc, Tu.
  repeat split; auto.
  { intros k Hk. rewrite Go by exact Hk. rewrite Hs2, Tr.
    destruct (isConnected (redis w) && negb (failing (redis w))); [|reflexivity].
    apply lookup_delete_ne. congruence. }
  right. exists row, rest. split; [exact Hr|]. right. split; [exact Hng|]. right.
  exists b. repeat split; auto.
  rewrite Gs. destruct (isConnected (redis w) && negb (failing (redis w)));
    [|reflexivity]. apply insert_delete_eq.
Qed.

(** ** The cancellation rule *)




(** The lock of [AC1] was taken by holder [5000-0.5]; a release with that
    token removes it, a release with the token of an earlier holder does
    not. *)
Lemma releaseLock_removes_only_own_lock_witness :
  let w : World Booking :=
    Sample.world (Sample.db_with BOOKED) true
      {[ "lock:booking_AC1" := Plain "5000-0.5:5000" ]} in
  (fst (releaseLock "booking_AC1" (Some "4000-0.1") w) = Ok false
   /\ store (redis (snd (releaseLock "booking_AC1" (Some "4000-0.1") w))) = store (redis w))
  /\ (fst (releaseLock "booking_AC1" (Some "5000-0.5") w) = Ok true
      /\ store (redis (snd (releaseLock "booking_AC1" (Some "5000-0.5") w)))
         !! "lock:booking_AC1" = None).
Proof.
  intros w. split.
  - destruct (releaseLock_removes_only_own_lock w "booking_AC1" (Some "4000-0.1"))
      as (_ & _ & _ & Hother & _).
    apply (Hother "5000-0.5" "5000"); try reflexivity. discriminate.
  - destruct (releaseLock_removes_only_own_lock w "booking_AC1" (Some "5000-0.5"))
      as (_ & _ & _ & _ & Hown).
    apply (Hown "5000-0.5" "5000"); reflexivity.
Defined.

(** C5 fails when the caller chooses the identifiers: the match is on the
    prefix [token:], so the holder of token [job] releases the lock that
    [acquireLock] granted to the identifier [job:1], although the stored value
    belongs to the other holder; [releaseLock] returns [true]. *)
Theorem releaseLock_releases_lock_of_other_holder :
  let w : World Booking :=
    Sample.world (Sample.db_with BOOKED) true ∅ in
  let w1 := snd (acquireLock "booking_AC1" (Some "job:1") w) in
  fst (acquireLock "booking_AC1" (Some "job:1") w) = Ok (Some "job:1")
  /\ fst (releaseLock "booking_AC1" (Some "job") w1) = Ok true
  /\ store (redis (snd (releaseLock "booking_AC1" (Some "job") w1)))
     !! "lock:booking_AC1" = None.
Proof. vm_compute. repeat split. Qed.

(** ** What a status update returns *)

Lemma invalidate_total {J} (w : World J) refId :
  exists ok, fst (invalidateBookingCache refId w) = Ok ok.
Proof.
  unfold invalidateBookingCache, del. unfold_m.
  destruct (isConnected (redis w)); cbn; [|eauto].
  destruct (failing (redis w)); cbn; eauto.
Qed.

Lemma invalidate_effect {J} (w : World J) refId :
  let w' := snd (invalidateBookingCache refId w) in
  db w' = db w /\ undo w' = undo w /\ clock w' = clock w
  /\ isConnected (redis w') = isConnected (redis w)
  /\ failing (redis w') = failing (redis w)
  /\ store (redis w')
     = if isConnected (redis w) && negb (failing (redis w))
       then delete ("booking:" +:+ refId) (store (redis w)) else store (redis w).
Proof.
  unfold invalidateBookingCache, del. unfold_m.
  destruct (isConnected (redis w)) eqn:Ec; cbn; [|auto 10].
  destruct (failing (redis w)) eqn:Ef; cbn; auto 10.
Qed.

(** C9, as the code has it. In the service of [unnamed/part_001] a
    successful [updateBookingStatus] returns what [getBookingHistory(refId,
    true)] reads from the relational store after the transaction has
    committed and the cache entry has been invalidated: the booking with its
    new status, its flights and its timeline. The cached read
    [getBookingHistory(refId)] returns the same value at that point. *)
Theorem updateBookingStatus_returns_the_refetched_booking
    (w : World BookingService.Booking) refId status details r :
  fst (BookingService.updateBookingStatus refId status details w) = Ok r ->
  let committed :=
    snd (transaction (BookingService.updateBookingStatus_callback refId status details) w) in
  let invalidated := snd (invalidateBookingCache refId committed) in
  BookingService.updateBookingStatus refId status details w
  = BookingService.getBookingHistory refId true invalidated
  /\ fst (BookingService.getBookingHistory refId false invalidated) = Ok r
  /\ exists b,
       r = Some b
       /\ BookingService.fetch refId
            (db (snd (BookingService.updateBookingStatus refId status details w)))
          = Some b
       /\ bk_status (BookingService.b_row b) = status.
Proof.
  intros Hok committed invalidated.
  assert (Heq : BookingService.updateBookingStatus refId status details w
                = BookingService.getBookingHistory refId true invalidated).
  { revert Hok. subst invalidated committed.
    unfold BookingService.updateBookingStatus, bind.
    destruct (transaction _ w) as [[[]|e] w1]; [|discriminate]. cbv beta iota.
    cbn [fst snd].
    destruct (invalidateBookingCache refId w1) as [[ok'|e] w2]; [|discriminate].
    reflexivity. }
  split; [exact Heq|].
  destruct (update_cases w refId status details) as (_ & _ & _ & _ & _ & Hcases).
  cbn zeta in Hcases.
  assert (Hb : exists b,
             r = Some b
             /\ BookingService.fetch refId
                  (db (snd (BookingService.updateBookingStatus refId status details w)))
                = Some b
             /\ bk_status (BookingService.b_row b) = status).
  { destruct Hcases as [(_ & ? & _)|(row & rest & _ & Hcases)]; [congruence|].
    destruct Hcases as [(_ & _ & ? & _)|(_ & [([c ?] & _)|(b & Hr & _ & Hf & Hrow & _)])];
      try congruence.
    exists b. rewrite Hrow. split; [congruence|]. split; [exact Hf|reflexivity]. }
  split; [|exact Hb].
  destruct Hb as (b & -> & Hfetch & _).
  rewrite Heq in Hfetch.
  destruct (get_cases invalidated refId true) as (Gd & _ & _ & _ & _ & _ & _).
  rewrite Gd in Hfetch.
  destruct (get_cases invalidated refId false) as (_ & _ & _ & _ & _ & _ & Gcases).
  destruct Gcases as [(_ & Hc & Hf & b' & Hhit & _)|(_ & Hr & _)].
  - exfalso.
    pose proof (invalidate_effect committed refId) as He. cbv zeta in He.
    change (snd (invalidateBookingCache refId committed)) with invalidated in He.
    destruct He as (_ & _ & _ & Hc' & Hf' & Hs).
    rewrite <- Hc', <- Hf', Hc, Hf in Hs. cbn [andb negb] in Hs.
    rewrite Hs, lookup_delete_eq in Hhit. discriminate.
  - rewrite Hr, Hfetch. reflexivity.
Qed.

Lemma updateBookingStatus_returns_the_refetched_booking_witness :
  exists b,
    fst (BookingService.updateBookingStatus "AC1" DEPARTED
           {| BookingService.location := Some "DEL"; BookingService.description := None |}
           (Sample.world (Sample.db_with BOOKED) true ∅)) = Ok (Some b)
    /\ bk_status (BookingService.b_row b) = DEPARTED.
Proof.
  edestruct (updateBookingStatus_returns_the_refetched_booking
               (Sample.world (Sample.db_with BOOKED) true ∅) "AC1" DEPARTED
               {| BookingService.location := Some "DEL";
                  BookingService.description := None |})
    as (_ & _ & b & Hr & _ & Hst).
  - vm_compute. reflexivity.
  - exists b. split; [|exact Hst]. rewrite <- Hr. vm_compute. reflexivity.
Defined.

(** C9 fails on the lock-protected service: the call returns the
    acknowledgement [{ success, refId, status }], while the booking read back
    after it carries two timeline entries. *)
Lemma locked_service_returns_an_acknowledgement :
  let w : World Booking := Sample.world (Sample.db_with BOOKED) true ∅ in
  let res := updateBookingStatus (fun d => d) "AC1" DEPARTED (Some "DEL") None None w in
  fst res = Ok {| ack_success := true; ack_refId := "AC1"; ack_status := DEPARTED |}
  /\ exists b, fst (getBookingHistory "AC1" (snd res)) = Ok (Some b)
               /\ b_status b = DEPARTED
               /\ length (b_timeline b) = 2%nat.
Proof. vm_compute. split; [reflexivity|]. eexists. repeat split. Qed.

(** ** Creation *)

Lemma insert_flights_spec {J} bookingId flightIds i (w : World J) :
  let res := insert_flights bookingId flightIds i w in
  redis (snd res) = redis w
  /\ clock (snd res) = clock w
  /\ undo (snd res) = undo w
  /\ entropy (snd res) = entropy w
  /\ bookings (db (snd res)) = bookings (db w)
  /\ timeline_events (db (snd res)) = timeline_events (db w)
  /\ flights (db (snd res)) = flights (db w)
  /\ next_booking_id (db (snd res)) = next_booking_id (db w)
  /\ next_timeline_id (db (snd res)) = next_timeline_id (db w)
  /\ (forall u, fst res = Ok u ->
        booking_flights (db (snd res))
        = (booking_flights (db w)
           ++ leg_rows bookingId flightIds i (next_booking_flight_id (db w))
                (clock w / 1000))%list
        /\ next_booking_flight_id (db (snd res))
           = next_booking_flight_id (db w) + Z.of_nat (length flightIds)
        /\ Forall (flight_known (db w)) flightIds).
Proof.
  revert i w. induction flightIds as [|f rest IH]; intros i w; cbn.
  { repeat split; auto. - by rewrite app_nil_r. - lia. }
  unfold bind at 1. unfold insert_booking_flight at 1. unfold_db. unfold_m. cbn.
  destruct (fits 50 f); cbn; [|repeat split; auto; discriminate].
  destruct (existsb (fun b => (bk_id b =? bookingId)%Z) (bookings (db w))); cbn;
    [|repeat split; auto; discriminate].
  destruct (existsb (fun f0 => String.eqb (fl_flight_id f0) f) (flights (db w))) eqn:Hf;
    cbn; [|repeat split; auto; discriminate].
  destruct (existsb _ (booking_flights (db w))); cbn;
    [repeat split; auto; discriminate|].
  match goal with
  | |- context [insert_flights bookingId rest (i + 1) ?w1] =>
      specialize (IH (i + 1) w1);
      destruct (insert_flights bookingId rest (i + 1) w1) as [r w2]
  end.
  cbn in IH. destruct IH as (? & ? & ? & ? & ? & ? & ? & ? & ? & IH).
  cbn [fst snd]. repeat (split; [assumption|]).
  intros u Hu. destruct (IH u Hu) as (Hrows & Hn & Hk).
  split; [|split].
  - rewrite Hrows. by rewrite <- app_assoc.
  - rewrite Hn. lia.
  - constructor; [exact Hf|exact Hk].
Qed.

Lemma existsb_false_filter {A} (p : A -> bool) (l : list A) :
  existsb p l = false -> List.filter p l = [].
Proof.
  induction l as [|x l IH]; cbn; [reflexivity|].
  destruct (p x); cbn; [discriminate|exact IH].
Qed.

Lemma create_txn (w : World BookingService.Booking) bookingData flightIds :
  let res := transaction (BookingService.createBooking_callback bookingData flightIds) w in
  let ref := "AC" +:+ toString36 (clock w) +:+ next_random w in
  let now := clock w / 1000 in
  let row :=
    new_booking ref (Some (BookingService.bd_userId bookingData))
      (BookingService.bd_origin bookingData) (BookingService.bd_destination bookingData)
      (BookingService.bd_pieces bookingData) (BookingService.bd_weight_kg bookingData)
      now (db w) in
  redis (snd res) = redis w
  /\ clock (snd res) = clock w
  /\ undo (snd res) = None
  /\ (((exists e, fst res = Throw e) /\ db (snd res) = db w)
      \/ (fst res = Ok ref
          /\ rows_by_ref ref (db w) = []
          /\ Forall (flight_known (db w)) flightIds
          /\ bookings (db (snd res)) = (bookings (db w) ++ [row])%list
          /\ booking_flights (db (snd res))
             = (booking_flights (db w)
                ++ leg_rows (next_booking_id (db w)) flightIds 0
                     (next_booking_flight_id (db w)) now)%list
          /\ timeline_events (db (snd res))
             = (timeline_events (db w)
                ++ [{| te_id := next_timeline_id (db w);
                       te_booking_id := next_booking_id (db w);
                       te_event_type := BOOKED;
                       te_location := Some (BookingService.bd_origin bookingData);
                       te_flight_id := head flightIds;
                       te_description := "Booking created successfully";
                       te_created_at := now |}])%list
          /\ flights (db (snd res)) = flights (db w))).
Proof.
  intros res ref now row. subst res.
  unfold BookingService.createBooking_callback, BookingService.generateRefId.
  unfold insert_booking, insert_timeline_event. unfold_db. unfold_m. cbn.
  change (next_random (with_trace _ (with_undo _ w))) with (next_random w).
  fold ref. fold now.
  destruct (fits 20 ref && fits 10 (BookingService.bd_origin bookingData)
            && fits 10 (BookingService.bd_destination bookingData)); cbn.
  2:{ repeat split; auto. left. eauto. }
  destruct (existsb _ (bookings (db w))) eqn:Hdup; cbn.
  { repeat split; auto. left. eauto. }
  fold row.
  match goal with
  | |- context [insert_flights ?id flightIds 0 ?w1] =>
      pose proof (insert_flights_spec id flightIds 0 w1) as Hloop;
      destruct (insert_flights id flightIds 0 w1) as [[u|e] w2]
  end; cbn in Hloop;
    destruct Hloop as (Hr & Hc & Hu & _ & Hb & Ht & Hfl & Hnb & Hnt & Hok).
  2:{ cbn. rewrite Hr, Hc, Hu. cbn. repeat split; auto. left. eauto. }
  destruct (Hok u eq_refl) as (Hrows & _ & Hknown).
  cbn.
  destruct (_ && _); cbn.
  2:{ rewrite Hr, Hc, Hu. cbn. repeat split; auto. left. eauto. }
  destruct (existsb _ (bookings (db w2))); cbn.
  2:{ rewrite Hr, Hc, Hu. cbn. repeat split; auto. left. eauto. }
  rewrite ?Hr, ?Hc, ?Hb, ?Ht, ?Hfl, ?Hnb, ?Hnt, ?Hrows. cbn.
  repeat split; auto. right.
  repeat split; auto.
  apply existsb_false_filter. exact Hdup.
Qed.

Lemma cacheBooking_effect {J} (w : World J) refId (b : J) :
  let res := cacheBooking refId b w in
  (exists ok, fst res = Ok ok)
  /\ db (snd res) = db w /\ undo (snd res) = undo w /\ clock (snd res) = clock w
  /\ isConnected (redis (snd res)) = isConnected (redis w)
  /\ failing (redis (snd res)) = failing (redis w)
  /\ store (redis (snd res))
     = if isConnected (redis w) && negb (failing (redis w))
       then <["booking:" +:+ refId := Json b]> (store (redis w))
       else store (redis w).
Proof.
  unfold cacheBooking, set. unfold_m.
  destruct (isConnected (redis w)) eqn:Ec; cbn; [|eauto 10].
  destruct (failing (redis w)) eqn:Ef; cbn; eauto 10.
Qed.

Lemma create_cases (w : World BookingService.Booking) bookingData flightIds :
  let res := BookingService.createBooking bookingData flightIds w in
  let ref := "AC" +:+ toString36 (clock w) +:+ next_random w in
  let now := clock w / 1000 in
  let key := "booking:" +:+ ref in
  let row :=
    new_booking ref (Some (BookingService.bd_userId bookingData))
      (BookingService.bd_origin bookingData) (BookingService.bd_destination bookingData)
      (BookingService.bd_pieces bookingData) (BookingService.bd_weight_kg bookingData)
      now (db w) in
  isConnected (redis (snd res)) = isConnected (redis w)
  /\ failing (redis (snd res)) = failing (redis w)
  /\ clock (snd res) = clock w
  /\ undo (snd res) = None
  /\ (((exists e, fst res = Throw e) /\ db (snd res) = db w
       /\ redis (snd res) = redis w)
      \/ (rows_by_ref ref (db w) = []
          /\ Forall (flight_known (db w)) flightIds
          /\ bookings (db (snd res)) = (bookings (db w) ++ [row])%list
          /\ booking_flights (db (snd res))
             = (booking_flights (db w)
                ++ leg_rows (next_booking_id (db w)) flightIds 0
                     (next_booking_flight_id (db w)) now)%list
          /\ timeline_events (db (snd res))
             = (timeline_events (db w)
                ++ [{| te_id := next_timeline_id (db w);
                       te_booking_id := next_booking_id (db w);
                       te_event_type := BOOKED;
                       te_location := Some (BookingService.bd_origin bookingData);
                       te_flight_id := head flightIds;
                       te_description := "Booking created successfully";
                       te_created_at := now |}])%list
          /\ flights (db (snd res)) = flights (db w)
          /\ exists b,
               fst res = Ok (Some b)
               /\ BookingService.fetch ref (db (snd res)) = Some b
               /\ b = BookingService.assemble row
                        (joined_legs_of (next_booking_id (db w)) (db (snd res)))
                        (events_by_id_of (next_booking_id (db w)) (db (snd res)))
               /\ store (redis (snd res))
                  = if isConnected (redis w) && negb (failing (redis w))
                    then <[key := Json b]> (store (redis w))
                    else store (redis w))).
Proof.
  intros res ref now key row. subst res. unfold BookingService.createBooking.
  destruct (create_txn w bookingData flightIds) as (Tr & Tc & Tu & Tcases).
  cbn zeta in Tcases. fold ref now row in Tcases.
  unfold bind.
  destruct (transaction _ w) as [[r|e] w1] eqn:Htxn; cbn [fst snd] in *.
  2:{ rewrite Tr. repeat split; auto.
      destruct Tcases as [(_ & Hd)|(? & _)]; [|discriminate].
      left. repeat split; eauto. }
  destruct Tcases as [([e ?] & _)|(Href & Hfree & Hknown & Hb & Hbf & Hte & Hfl)];
    [discriminate|].
  injection Href as ->.
  assert (Hrows : rows_by_ref ref (db w1) = [row]).
  { unfold rows_by_ref in *. rewrite Hb, List.filter_app, Hfree. cbn.
    unfold row at 1. cbn. fold ref. by rewrite String.eqb_refl. }
  destruct (get_cases w1 ref true) as (Gd & Gu & Gk & Gc & Gf & _ & Gcases).
  destruct Gcases as [(? & _)|(_ & Gr & Gs)]; [discriminate|].
  unfold BookingService.fetch in Gr, Gs. rewrite Hrows in Gr, Gs.
  destruct (BookingService.getBookingHistory ref true w1) as [[[b|]|e] w2];
    cbn [fst snd] in *; try discriminate.
  injection Gr as ->.
  set (b := BookingService.assemble _ _ _) in *.
  pose proof (cacheBooking_effect w2 ref b) as Hcache. cbv zeta in Hcache.
  destruct (cacheBooking ref b w2) as [[ok|e] w3]; cbn [fst snd] in *;
    destruct Hcache as ([ok' Hok] & Cd & Cu & Ck & Cc & Cf & Cs); [|discriminate].
  unfold ret. cbn [fst snd].
  rewrite Cc, Cf, Ck, Cu, ?Cd, Gc, Gf, Gk, Gu, ?Gd, ?Tr, Tc, Tu.
  repeat split; auto. right.
  repeat split; auto.
  exists b. repeat split; auto.
  - unfold BookingService.fetch. rewrite Hrows. reflexivity.
  - rewrite Cs, Gc, Gf, Gs, Tr.
    destruct (isConnected (redis w) && negb (failing (redis w))); [|reflexivity].
    apply insert_insert_eq.
Qed.

(** ** The round trip of creation and read *)

Lemma order_by_consecutive {A} (key : A -> Z) (l : list A) i :
  map key l = consecutive i (length l) ->
  order_by (fun a b => (key a <=? key b)%Z) l = l.
Proof.
  revert i. induction l as [|x l IH]; intros i; cbn; [reflexivity|].
  intros [= Hx Hl]. unfold order_by in IH. rewrite (IH _ Hl).
  destruct l as [|y l']; cbn; [reflexivity|].
  cbn in Hl. injection Hl as Hy _.
  assert (Hle : (key x <=? key y)%Z = true) by (apply Z.leb_le; lia).
  by rewrite Hle.
Qed.

Lemma leg_rows_sequence bookingId flightIds i next now :
  map bf_sequence_order (leg_rows bookingId flightIds i next now)
  = consecutive i (length flightIds).
Proof.
  revert i next. induction flightIds as [|f rest IH]; intros i next; cbn;
    [reflexivity|]. by rewrite IH.
Qed.

Lemma leg_rows_flight_ids bookingId flightIds i next now :
  map bf_flight_id (leg_rows bookingId flightIds i next now) = flightIds.
Proof.
  revert i next. induction flightIds as [|f rest IH]; intros i next; cbn;
    [reflexivity|]. by rewrite IH.
Qed.

Lemma leg_rows_length bookingId flightIds i next now :
  length (leg_rows bookingId flightIds i next now) = length flightIds.
Proof.
  revert i next. induction flightIds as [|f rest IH]; intros i next; cbn;
    [reflexivity|]. by rewrite IH.
Qed.

Lemma leg_rows_own bookingId flightIds i next now :
  List.filter (fun r => (bf_booking_id r =? bookingId)%Z)
    (leg_rows bookingId flightIds i next now)
  = leg_rows bookingId flightIds i next now.
Proof.
  revert i next. induction flightIds as [|f rest IH]; intros i next; cbn;
    [reflexivity|]. rewrite Z.eqb_refl. by rewrite IH.
Qed.

Lemma known_flight_unique (fs : list FlightRow) flightId :
  NoDup (map fl_flight_id fs) ->
  existsb (fun f => String.eqb (fl_flight_id f) flightId) fs = true ->
  exists f, List.filter (fun f => String.eqb flightId (fl_flight_id f)) fs = [f].
Proof.
  induction fs as [|x fs IH]; cbn; [discriminate|].
  intros Hnd Hex. apply NoDup_cons in Hnd as [Hnotin Hnd].
  rewrite (String.eqb_sym flightId).
  destruct (String.eqb (fl_flight_id x) flightId) eqn:Hx; cbn.
  - exists x. f_equal. apply existsb_false_filter.
    apply String.eqb_eq in Hx. subst flightId.
    apply not_true_is_false. intros Hin. apply existsb_exists in Hin as (y & Hy & Heq).
    apply String.eqb_eq in Heq. apply Hnotin. rewrite Heq.
    apply list_elem_of_In. apply in_map. exact Hy.
  - cbn in Hex. apply IH; assumption.
Qed.

Lemma join_of_known_legs (fs : list FlightRow) (legs : list BookingFlightRow) :
  NoDup (map fl_flight_id fs) ->
  Forall (fun r => existsb (fun f => String.eqb (fl_flight_id f) (bf_flight_id r)) fs = true)
    legs ->
  map fst
    (flat_map
       (fun r =>
          map (fun f => (r, f))
            (List.filter (fun f => String.eqb (bf_flight_id r) (fl_flight_id f)) fs))
       legs)
  = legs.
Proof.
  intros Hpk. induction 1 as [|r legs Hr _ IH]; cbn; [reflexivity|].
  destruct (known_flight_unique fs (bf_flight_id r) Hpk Hr) as [f ->]. cbn.
  by rewrite IH.
Qed.

Lemma stale_rows_below_counter d :
  consistent d ->
  List.filter (fun r => (bf_booking_id r =? next_booking_id d)%Z) (booking_flights d) = []
  /\ List.filter (fun e => (te_booking_id e =? next_booking_id d)%Z) (timeline_events d) = [].
Proof.
  intros [_ Hfresh Hbf Hte].
  assert (Hid : forall id,
    existsb (fun b => (bk_id b =? id)%Z) (bookings d) = true -> id < next_booking_id d).
  { intros id Hex. apply existsb_exists in Hex as (b & Hb & Heq).
    apply Z.eqb_eq in Heq. subst id.
    rewrite Forall_forall in Hfresh. apply Hfresh. by apply list_elem_of_In. }
  split; apply existsb_false_filter; apply not_true_is_false; intros Hex;
    apply existsb_exists in Hex as (x & Hx & Heq); apply Z.eqb_eq in Heq.
  - rewrite Forall_forall in Hbf. apply list_elem_of_In in Hx.
    specialize (Hid _ (Hbf x Hx)). lia.
  - rewrite Forall_forall in Hte. apply list_elem_of_In in Hx.
    specialize (Hid _ (Hte x Hx)). lia.
Qed.

(** C8. After [createBooking] of the service of [unnamed/part_001] has
    returned a booking for the flight ids [F1..Fk], [getBookingHistory] on
    its reference code returns that booking: its flights are [F1..Fk] in
    this order at the sequence positions [1..k], and its timeline is one
    BOOKED event. The store is assumed to satisfy its schema constraints. *)
Theorem createBooking_then_getBookingHistory (w : World BookingService.Booking)
    bookingData flightIds r :
  consistent (db w) ->
  fst (BookingService.createBooking bookingData flightIds w) = Ok r ->
  exists b,
    r = Some b
    /\ fst (BookingService.getBookingHistory (bk_ref_id (BookingService.b_row b)) false
              (snd (BookingService.createBooking bookingData flightIds w)))
       = Ok (Some b)
    /\ map BookingService.fi_flight_id (BookingService.b_flights b) = flightIds
    /\ map BookingService.fi_sequence_order (BookingService.b_flights b)
       = consecutive 0 (length flightIds)
    /\ (exists ev, BookingService.b_timeline b = [ev] /\ te_event_type ev = BOOKED)
    /\ length (List.filter (fun e => status_eqb (te_event_type e) BOOKED)
                 (BookingService.b_timeline b)) = 1%nat.
Proof.
  intros Hcons Hok.
  destruct (create_cases w bookingData flightIds) as (_ & _ & _ & _ & Hcases).
  cbn zeta in Hcases.
  destruct Hcases as [([e He] & _)|
    (Hfree & Hknown & Hb & Hbf & Hte & Hfl & b & Hres & Hfetch & Hbdef & Hstore)];
    [congruence|].
  set (w' := snd (BookingService.createBooking bookingData flightIds w)) in *.
  set (ref := "AC" +:+ toString36 (clock w) +:+ next_random w) in *.
  set (id := next_booking_id (db w)) in *.
  destruct (stale_rows_below_counter (db w) Hcons) as [Hold_bf Hold_te].
  fold id in Hold_bf, Hold_te.
  set (legs := leg_rows id flightIds 0 (next_booking_flight_id (db w)) (clock w / 1000)) in *.
  (* the joined legs *)
  assert (Hjoin : exists J, joined_legs_of id (db w') = J /\ map fst J = legs).
  { unfold joined_legs_of. rewrite Hbf, Hfl, List.filter_app, Hold_bf. cbn.
    unfold legs at 1. rewrite leg_rows_own. fold legs.
    set (J := flat_map _ legs).
    assert (HJ : map fst J = legs).
    { apply join_of_known_legs; [apply Hcons|].
      apply Forall_forall. intros x Hx.
      rewrite Forall_forall in Hknown. apply Hknown.
      unfold legs in Hx. rewrite <- (leg_rows_flight_ids id flightIds 0
        (next_booking_flight_id (db w)) (clock w / 1000)).
      apply list_elem_of_fmap. exists x. split; [reflexivity|exact Hx]. }
    exists J. split; [|exact HJ].
    apply (order_by_consecutive (fun p => bf_sequence_order (fst p)) J 0).
    rewrite <- (length_map fst J), HJ. unfold legs. rewrite leg_rows_length.
    rewrite <- (leg_rows_sequence id flightIds 0 (next_booking_flight_id (db w))
                  (clock w / 1000)). fold legs. rewrite <- HJ.
    by rewrite map_map. }
  destruct Hjoin as (J & HJ & Hfst).
  (* the timeline *)
  assert (Hev : exists ev, events_by_id_of id (db w') = [ev] /\ te_event_type ev = BOOKED).
  { unfold events_by_id_of. rewrite Hte, List.filter_app, Hold_te. cbn.
    rewrite Z.eqb_refl. cbn. eexists. split; reflexivity. }
  destruct Hev as (ev & Hev & Htype).
  rewrite HJ, Hev in Hbdef.
  exists b. split; [congruence|].
  assert (Href : bk_ref_id (BookingService.b_row b) = ref) by (subst b; reflexivity).
  rewrite Href.
  split.
  { destruct (get_cases w' ref false) as (_ & _ & _ & _ & _ & _ & Gcases).
    destruct Gcases as [(_ & Hc & Hf & b' & Hhit & Hr & _)|(_ & Hr & _)].
    - rewrite Hr. do 2 f_equal.
      destruct (create_cases w bookingData flightIds) as (Hc' & Hf' & _).
      cbn zeta in Hc', Hf'. fold w' in Hc', Hf'.
      rewrite <- Hc', <- Hf', Hc, Hf in Hstore. cbn [andb negb] in Hstore.
      rewrite Hstore, lookup_insert_eq in Hhit. congruence.
    - rewrite Hr, Hfetch. reflexivity. }
  subst b. cbn.
  split.
  { rewrite map_map. change (fun x => BookingService.fi_flight_id (BookingService.info_of x))
      with (fun x : BookingFlightRow * FlightRow => bf_flight_id (fst x)).
    rewrite <- (map_map fst bf_flight_id), Hfst. apply leg_rows_flight_ids. }
  split.
  { rewrite map_map. change (fun x => BookingService.fi_sequence_order (BookingService.info_of x))
      with (fun x : BookingFlightRow * FlightRow => bf_sequence_order (fst x)).
    rewrite <- (map_map fst bf_sequence_order), Hfst. apply leg_rows_sequence. }
  split; [eauto|].
  rewrite Htype. reflexivity.
Qed.

Lemma empty_db_consistent : consistent Sample.empty_db.
Proof.
  split; cbn; try constructor.
  - intros Hin. apply list_elem_of_In in Hin. cbn in Hin.
    destruct Hin as [Hin|[]]. discriminate Hin.
  - constructor; [|constructor]. intros Hin. apply list_elem_of_In in Hin. destruct Hin.
Qed.

Lemma createBooking_then_getBookingHistory_witness :
  exists b,
    fst (BookingService.createBooking Sample.bookingData ["F1"; "F2"]
           (Sample.world Sample.empty_db true ∅)) = Ok (Some b)
    /\ map BookingService.fi_flight_id (BookingService.b_flights b) = ["F1"; "F2"]
    /\ map BookingService.fi_sequence_order (BookingService.b_flights b) = [1; 2].
Proof.
  edestruct (createBooking_then_getBookingHistory
               (Sample.world Sample.empty_db true ∅) Sample.bookingData ["F1"; "F2"])
    as (b & Hr & _ & Hids & Hseq & _).
  - exact empty_db_consistent.
  - vm_compute. reflexivity.
  - exists b. split; [|split; [exact Hids|exact Hseq]].
    rewrite <- Hr. vm_compute. reflexivity.
Defined.

(** ** Creation in the lock-protected service *)

Lemma locked_create_txn (w : World Booking) bookingData flightIds :
  let res := transaction (createBooking_callback bookingData flightIds) w in
  let ref := "AC" +:+ toString36 (clock w) +:+ next_random w in
  let row :=
    new_booking ref None (bd_origin bookingData) (bd_destination bookingData)
      (bd_pieces bookingData) (bd_weight_kg bookingData) (clock w / 1000) (db w) in
  redis (snd res) = redis w
  /\ clock (snd res) = clock w
  /\ undo (snd res) = None
  /\ (((exists e, fst res = Throw e) /\ db (snd res) = db w)
      \/ (fst res = Ok {| cr_refId := ref; cr_bookingId := next_booking_id (db w) |}
          /\ rows_by_ref ref (db w) = []
          /\ bookings (db (snd res)) = (bookings (db w) ++ [row])%list)).
Proof.
  intros res ref row. subst res.
  unfold createBooking_callback, generateRefId.
  unfold insert_booking, insert_timeline_event. unfold_db. unfold_m. cbn.
  change (next_random (with_trace _ (with_undo _ w))) with (next_random w).
  fold ref.
  destruct (fits 20 ref && fits 10 (bd_origin bookingData)
            && fits 10 (bd_destination bookingData)); cbn.
  2:{ repeat split; auto. left. eauto. }
  destruct (existsb _ (bookings (db w))) eqn:Hdup; cbn.
  { repeat split; auto. left. eauto. }
  fold row.
  match goal with
  | |- context [insert_flights ?id flightIds 0 ?w1] =>
      pose proof (insert_flights_spec id flightIds 0 w1) as Hloop;
      destruct (insert_flights id flightIds 0 w1) as [[u|e] w2]
  end; cbn in Hloop;
    destruct Hloop as (Hr & Hc & Hu & _ & Hb & _).
  2:{ cbn. rewrite Hr, Hc, Hu. cbn. repeat split; auto. left. eauto. }
  cbn.
  destruct (_ && _); cbn.
  2:{ rewrite Hr, Hc, Hu. cbn. repeat split; auto. left. eauto. }
  destruct (existsb _ (bookings (db w2))); cbn.
  2:{ rewrite Hr, Hc, Hu. cbn. repeat split; auto. left. eauto. }
  rewrite ?Hr, ?Hc, ?Hb. cbn.
  repeat split; auto. right.
  repeat split; auto.
  apply existsb_false_filter. exact Hdup.
Qed.

Lemma locked_create_cases (w : World Booking) bookingData flightIds :
  let res := createBooking bookingData flightIds w in
  (fst res = Throw (JsError "Unable to acquire lock for booking creation")
   /\ db (snd res) = db w /\ redis (snd res) = redis w)
  \/ (isConnected (redis (snd res)) = isConnected (redis w)
      /\ failing (redis (snd res)) = failing (redis w)
      /\ store (redis (snd res)) = store (redis w)
      /\ (((exists e, fst res = Throw e) /\ db (snd res) = db w)
          \/ exists ref row,
               fst res = Ok {| cr_refId := ref; cr_bookingId := next_booking_id (db w) |}
               /\ rows_by_ref ref (db w) = []
               /\ bk_ref_id row = ref /\ bk_version row = 1 /\ bk_status row = BOOKED
               /\ bookings (db (snd res)) = (bookings (db w) ++ [row])%list)).
Proof.
  intros res. subst res.
  set (lockKey := "create_booking_" +:+ pretty (clock w)).
  set (body := transaction (createBooking_callback bookingData flightIds)).
  assert (Heq : createBooking bookingData flightIds w
                = bind (acquireLock lockKey None)
                    (fun lockId =>
                       if negb (truthy_opt lockId)
                       then throw (JsError "Unable to acquire lock for booking creation")
                       else try_finally body (releaseLock lockKey lockId)) w)
    by reflexivity.
  rewrite Heq. clear Heq.
  destruct (locked_section lockKey
              (JsError "Unable to acquire lock for booking creation") body w)
    as [(_ & Hr & Hd & _ & Hre & _)
       |(Hc & Hf & Hl & Hres & Hdb & Hundo & Hclock & Hc' & Hf' & Hstore)].
  - reflexivity.
  - intros w0. subst body.
    destruct (locked_create_txn w0 bookingData flightIds) as (Hr & _).
    rewrite Hr. auto.
  - left. auto.
  - right.
    set (w1 := with_redis _ _) in *.
    subst body.
    destruct (locked_create_txn w1 bookingData flightIds) as (Tr & _ & _ & Tcases).
    cbn zeta in Tcases.
    rewrite Hres, Hdb, Hstore, Hc', Hf', Hc, Hf, Tr.
    repeat split; auto.
    { subst w1. cbn. by apply delete_insert_id. }
    destruct Tcases as [(He & Hd)|(Hok & Hfree & Hb)]; [left; auto|].
    right.
    exists ("AC" +:+ toString36 (clock w1) +:+ next_random w1),
      (new_booking ("AC" +:+ toString36 (clock w1) +:+ next_random w1) None
         (bd_origin bookingData) (bd_destination bookingData)
         (bd_pieces bookingData) (bd_weight_kg bookingData) (clock w1 / 1000) (db w1)).
    split; [exact Hok|]. split; [exact Hfree|].
    split; [reflexivity|]. split; [reflexivity|]. split; [reflexivity|]. exact Hb.
Qed.

(** ** The version counter *)

Lemma stored_after_append refId d d' row x :
  stored refId d = Some row ->
  bookings d' = (bookings d ++ [x])%list ->
  stored refId d' = Some row.
Proof.
  unfold stored, rows_by_ref. intros Hrow Hb. rewrite Hb, List.filter_app.
  destruct (List.filter _ (bookings d)); [discriminate|exact Hrow].
Qed.

Lemma stored_fresh refId d d' row :
  rows_by_ref refId d = [] ->
  bk_ref_id row = refId ->
  bookings d' = (bookings d ++ [row])%list ->
  stored refId d' = Some row.
Proof.
  unfold stored, rows_by_ref. intros Hfree Href Hb.
  rewrite Hb, List.filter_app, Hfree. cbn. rewrite Href, String.eqb_refl. reflexivity.
Qed.

Lemma env_step_db {J} (e : EnvEvent) (w : World J) : db (env_step e w) = db w.
Proof. destruct e; reflexivity. Qed.

Lemma stored_gated_update_same refId status now d row :
  stored refId d = Some row ->
  stored refId (gated_update status refId (bk_version row) now d)
  = Some (bump status now row).
Proof.
  unfold stored. rewrite rows_by_ref_gated_update.
  destruct (rows_by_ref refId d) as [|x rest]; [discriminate|].
  intros [= ->]. cbn. by rewrite Z.eqb_refl.
Qed.

Lemma locked_step_version refId (s : Step) (w : World Booking) v :
  stored_version refId (db w) = Some v ->
  stored_version refId (db (step s w))
  = Some (v + if updates refId s w then 1 else 0).
Proof.
  intros Hv.
  assert (Hsame : forall d, d = db w -> stored_version refId d = Some (v + 0)).
  { intros d ->. by rewrite Z.add_0_r. }
  destruct s as [[bookingData flightIds|r status location flightId description|r]|e];
    cbn [step updates].
  - destruct (locked_create_cases w bookingData flightIds)
      as [(_ & Hd & _)|(_ & _ & _ & [(_ & Hd)|(ref & row & _ & _ & _ & _ & _ & Hb)])];
      try (by apply Hsame).
    rewrite Z.add_0_r. unfold stored_version in *.
    destruct (stored refId (db w)) as [old|] eqn:Hold; [|discriminate].
    by rewrite (stored_after_append _ _ _ _ _ Hold Hb).
  - pose proof (locked_update_cases w (fun d => d) r status location flightId description)
      as Hcases. cbn zeta in Hcases.
    set (res := updateBookingStatus _ r status location flightId description w) in *.
    assert (Hfail : forall e, fst res = Throw e -> db (snd res) = db w ->
              stored_version refId (db (snd res))
              = Some (v + if String.eqb r refId && is_ok (fst res) then 1 else 0)).
    { intros e He Hd. rewrite He, Hd, andb_false_r. by apply Hsame. }
    destruct Hcases as [(_ & He & Hd & _)|(_ & _ & _ & _ & _ & _ & _ & Hcases)];
      [by eapply Hfail|].
    destruct Hcases as [(_ & He & Hd & _)|(row & rest & Hrows & Hcases)];
      [by eapply Hfail|].
    destruct Hcases as [(_ & _ & He & Hd & _)|(_ & Hcases)]; [by eapply Hfail|].
    destruct Hcases as [(_ & He & Hd & _)|(_ & Hcases)]; [by eapply Hfail|].
    destruct Hcases as [([c He] & Hd & _)|(Hok & Hd & _)]; [by eapply Hfail|].
    rewrite Hok, Hd. cbn [is_ok]. rewrite andb_true_r.
    unfold stored_version, stored. rewrite rows_by_ref_add_timeline_event.
    destruct (String.eqb r refId) eqn:Hr.
    + apply String.eqb_eq in Hr. subst r.
      pose proof (stored_gated_update_same refId status (clock w / 1000) (db w) row
                    (stored_rows _ _ _ _ Hrows)) as Hs.
      unfold stored in Hs. rewrite Hs. cbn.
      unfold stored_version in Hv. rewrite (stored_rows _ _ _ _ Hrows) in Hv.
      cbn in Hv. congruence.
    + apply String.eqb_neq in Hr.
      rewrite rows_by_ref_gated_update_other by exact Hr.
      rewrite Z.add_0_r. exact Hv.
  - destruct (locked_get_cases w r) as (Hd & _). by apply Hsame.
  - apply Hsame. apply env_step_db.
Qed.

Lemma locked_run_version refId (steps : list Step) (w : World Booking) v :
  stored_version refId (db w) = Some v ->
  stored_version refId (db (run steps w))
  = Some (v + successful_updates refId steps w).
Proof.
  revert w v. induction steps as [|s steps IH]; intros w v Hv; cbn.
  - by rewrite Z.add_0_r.
  - unfold run in IH. rewrite (IH _ _ (locked_step_version refId s w v Hv)).
    f_equal. lia.
Qed.

Lemma plain_step_version refId (s : BookingService.Step)
    (w : World BookingService.Booking) v :
  stored_version refId (db w) = Some v ->
  stored_version refId (db (BookingService.step s w)) = Some v.
Proof.
  intros Hv.
  destruct s as [[bookingData flightIds|r status details|r]|e]; cbn [BookingService.step].
  - destruct (create_cases w bookingData flightIds)
      as (_ & _ & _ & _ & [(_ & Hd & _)|(_ & _ & Hb & _)]); [by rewrite Hd|].
    unfold stored_version in *.
    destruct (stored refId (db w)) as [old|] eqn:Hold; [|discriminate].
    by rewrite (stored_after_append _ _ _ _ _ Hold Hb).
  - destruct (update_cases w r status details) as (_ & _ & _ & _ & _ & Hcases).
    cbn zeta in Hcases.
    destruct Hcases as [(_ & _ & Hd & _)|(row & rest & Hrows & Hcases)]; [by rewrite Hd|].
    destruct Hcases as [(_ & _ & _ & Hd & _)|(_ & [(_ & Hd & _)|(b & _ & Hd & _)])];
      try (by rewrite Hd).
    rewrite Hd. unfold stored_version, stored in *.
    rewrite rows_by_ref_add_timeline_event.
    destruct (String.eqb r refId) eqn:Hr.
    + apply String.eqb_eq in Hr. subst r.
      rewrite rows_by_ref_plain_update.
      destruct (rows_by_ref refId (db w)); [discriminate|exact Hv].
    + apply String.eqb_neq in Hr. by rewrite rows_by_ref_plain_update_other.
  - destruct (get_cases w r false) as (Hd & _). by rewrite Hd.
  - by rewrite env_step_db.
Qed.

Lemma plain_run_version refId (steps : list BookingService.Step)
    (w : World BookingService.Booking) v :
  stored_version refId (db w) = Some v ->
  stored_version refId (db (BookingService.run steps w)) = Some v.
Proof.
  revert w. induction steps as [|s steps IH]; intros w Hv; cbn; [exact Hv|].
  apply IH. by apply plain_step_version.
Qed.

(** C1, as the code has it. In the lock-protected service every
    [updateBookingStatus] call on a reference code that returns adds one to
    the stored version of its booking, and no failed call, no other request
    and no event changes it: after any sequence of requests and events the
    version is what it was plus the number of those calls, so 1 + N for a
    booking stored at version 1, the default that [INSERT] gives the column.
    The service of [unnamed/part_001] never writes the column: the version
    of a booking it has created stays 1. *)
Theorem version_counts_successful_updates :
  (forall (w : World Booking) refId v steps,
      stored_version refId (db w) = Some v ->
      stored_version refId (db (run steps w))
      = Some (v + successful_updates refId steps w))
  /\ (forall (w : World BookingService.Booking) bookingData flightIds b steps,
        fst (BookingService.createBooking bookingData flightIds w) = Ok (Some b) ->
        stored_version (bk_ref_id (BookingService.b_row b))
          (db (BookingService.run steps
                 (snd (BookingService.createBooking bookingData flightIds w))))
        = Some 1).
Proof.
  split.
  - intros w refId v steps Hv. by apply locked_run_version.
  - intros w bookingData flightIds b steps Hok.
    apply plain_run_version.
    destruct (create_cases w bookingData flightIds)
      as (_ & _ & _ & _ & [([e He] & _)|
            (Hfree & _ & Hb & _ & _ & _ & b' & Hres & _ & Hbdef & _)]); [congruence|].
    rewrite Hres in Hok. injection Hok as <-. rewrite Hbdef.
    cbn [BookingService.b_row BookingService.assemble bk_ref_id new_booking].
    unfold stored_version.
    rewrite (stored_fresh _ _ _ _ Hfree (eq_refl : bk_ref_id (new_booking _ _ _ _ _ _ _ _) = _) Hb).
    reflexivity.
Qed.

Lemma version_counts_successful_updates_witness :
  let w : World Booking := Sample.world (Sample.db_with BOOKED) true ∅ in
  let steps :=
    [Call (UpdateBookingStatus "AC1" DEPARTED (Some "DEL") None None);
     Call (GetBookingHistory "AC1");
     Env EvError;
     Call (UpdateBookingStatus "AC1" ARRIVED (Some "HYD") None None);
     Env EvConnect;
     Call (UpdateBookingStatus "AC1" CANCELLED None None None);
     Call (UpdateBookingStatus "AC1" ARRIVED (Some "A-VERY-LONG-LOCATION") None None)] in
  stored_version "AC1" (db w) = Some 1
  /\ successful_updates "AC1" steps w = 2
  /\ stored_version "AC1" (db (run steps w)) = Some 3.
Proof.
  intros w steps.
  split; [reflexivity|]. split; [vm_compute; reflexivity|].
  rewrite (proj1 version_counts_successful_updates w "AC1" 1 steps eq_refl).
  vm_compute. reflexivity.
Defined.

(** C1 fails on the service of [unnamed/part_001]: the status update of a
    new booking succeeds and the stored version is still 1. *)
Lemma plain_service_keeps_version_at_one :
  let w : World BookingService.Booking := Sample.world Sample.empty_db true ∅ in
  let w1 := snd (BookingService.createBooking Sample.bookingData ["F1"] w) in
  let res :=
    BookingService.updateBookingStatus "AC3UW7K2Q" DEPARTED
      {| BookingService.location := Some "DEL"; BookingService.description := None |}
      w1 in
  stored_version "AC3UW7K2Q" (db w1) = Some 1
  /\ is_ok (fst res) = true
  /\ stored_status "AC3UW7K2Q" (db (snd res)) = Some DEPARTED
  /\ stored_version "AC3UW7K2Q" (db (snd res)) = Some 1.
Proof. vm_compute. repeat split. Qed.

(** ** Cache coherence *)


Lemma env_step_store {J} (e : EnvEvent) (w : World J) key :
  store (redis (env_step e w)) !! key = store (redis w) !! key
  \/ store (redis (env_step e w)) !! key = None.
Proof.
  destruct e as [| | b | k | ms]; cbn; auto.
  destruct (decide (k = key)) as [->|Hne].
  - right. apply lookup_delete_eq.
  - left. by apply lookup_delete_ne.
Qed.









(** ** Events while a call is suspended *)

Lemma env_run_cons {J} (e : EnvEvent) (events : list EnvEvent) (w : World J) :
  env_run (e :: events) w = env_run events (env_step e w).
Proof. reflexivity. Qed.

Lemma env_run_db {J} (events : list EnvEvent) (w : World J) :
  db (env_run events w) = db w.
Proof.
  revert w. induction events as [|e events IH]; intros w; [reflexivity|].
  rewrite env_run_cons, IH. apply env_step_db.
Qed.

Lemma env_run_undo {J} (events : list EnvEvent) (w : World J) :
  undo (env_run events w) = undo w.
Proof.
  revert w. induction events as [|e events IH]; intros w; [reflexivity|].
  rewrite env_run_cons, IH. by destruct e.
Qed.

Lemma env_run_flags {J} (events : list EnvEvent) (w w' : World J) :
  isConnected (redis w) = isConnected (redis w') ->
  failing (redis w) = failing (redis w') ->
  isConnected (redis (env_run events w)) = isConnected (redis (env_run events w'))
  /\ failing (redis (env_run events w)) = failing (redis (env_run events w')).
Proof.
  revert w w'. induction events as [|e events IH]; intros w w' Hc Hf; [auto|].
  rewrite !env_run_cons. apply IH; destruct e; cbn; auto.
Qed.

Lemma env_run_store {J} (events : list EnvEvent) (w : World J) key :
  store (redis (env_run events w)) !! key = store (redis w) !! key
  \/ store (redis (env_run events w)) !! key = None.
Proof.
  revert w. induction events as [|e events IH]; intros w; [by left|].
  rewrite env_run_cons. destruct (IH (env_step e w)) as [H|H]; [|by right].
  rewrite H. apply env_step_store.
Qed.

Lemma env_run_store_kept {J} (events : list EnvEvent) (w : World J) key :
  Forall (fun e => e <> EvExpire key) events ->
  store (redis (env_run events w)) !! key = store (redis w) !! key.
Proof.
  revert w. induction events as [|e events IH]; intros w Hno; [reflexivity|].
  apply Forall_cons in Hno as [He Hno]. rewrite env_run_cons, (IH _ Hno).
  destruct e as [| | b | k | ms]; cbn; try reflexivity.
  apply lookup_delete_ne. congruence.
Qed.

Lemma env_run_store_ext {J} (events : list EnvEvent) (w w' : World J) key :
  store (redis w) !! key = store (redis w') !! key ->
  store (redis (env_run events w)) !! key = store (redis (env_run events w')) !! key.
Proof.
  revert w w'. induction events as [|e events IH]; intros w w' H; [exact H|].
  rewrite !env_run_cons. apply IH.
  destruct e as [| | b | k | ms]; cbn; try exact H.
  destruct (decide (k = key)) as [->|Hne].
  - by rewrite !lookup_delete_eq.
  - by rewrite !lookup_delete_ne.
Qed.

Lemma env_run_app {J} (a b : list EnvEvent) (w : World J) :
  env_run (a ++ b) w = env_run b (env_run a w).
Proof. unfold env_run. apply fold_left_app. Qed.

Lemma releaseLock_outcome {J} (w : World J) lockKey lockId :
  exists b w',
    releaseLock lockKey lockId w = (Ok b, w')
    /\ db w' = db w /\ undo w' = undo w
    /\ isConnected (redis w') = isConnected (redis w)
    /\ failing (redis w') = failing (redis w)
    /\ store (redis w')
       = (if b then delete ("lock:" +:+ lockKey) (store (redis w)) else store (redis w))
    /\ (isConnected (redis w) = false \/ failing (redis w) = true -> b = false).
Proof.
  unfold releaseLock. unfold_m.
  destruct (isConnected (redis w)) eqn:Hc; cbn.
  2:{ exists false, w. repeat split; auto. }
  destruct (truthy lockKey); cbn.
  2:{ exists false, w. repeat split; auto; intros [?|?]; congruence. }
  destruct (truthy_opt lockId); cbn.
  2:{ exists false, w. repeat split; auto; intros [?|?]; congruence. }
  destruct (failing (redis w)) eqn:Hf; cbn.
  { eexists false, _. split; [reflexivity|]. cbn. repeat split; auto. }
  destruct (store (redis w) !! ("lock:" +:+ lockKey)) as [[v|j]|] eqn:Hv; cbn;
    try (eexists false, _; split; [reflexivity|]; cbn; repeat split; auto;
         intros [?|?]; congruence).
  destruct (truthy v); cbn;
    try (eexists false, _; split; [reflexivity|]; cbn; repeat split; auto;
         intros [?|?]; congruence).
  destruct (String.prefix _ v) eqn:Hp; cbn;
    try (eexists false, _; split; [reflexivity|]; cbn; repeat split; auto;
         intros [?|?]; congruence).
  rewrite Hv, eqb_string_refl. cbn.
  eexists true, _. split; [reflexivity|]. cbn. repeat split; auto;
    intros [?|?]; congruence.
Qed.

Lemma locked_section_amid {J A} (lockKey : string) (err : Error) (body : M J A)
    (later : list EnvEvent) (w : World J) :
  truthy lockKey = true ->
  let key := "lock:" +:+ lockKey in
  let res :=
    bind (acquireLock lockKey None)
      (fun lockId =>
         if negb (truthy_opt lockId) then throw err
         else try_finally body (meanwhile later ;;; releaseLock lockKey lockId)) w in
  let w1 :=
    with_redis
      (with_store (<[ key := Plain (fresh_lockValue w) ]> (store (redis w))) (redis w))
      (with_trace (trace w ++ [SET_NX key]) (with_entropy (tail (entropy w)) w)) in
  let w3 := env_run later (snd (body w1)) in
  ((isConnected (redis w) = false \/ failing (redis w) = true
    \/ is_Some (store (redis w) !! key))
   /\ fst res = Throw err
   /\ db (snd res) = db w /\ undo (snd res) = undo w /\ redis (snd res) = redis w)
  \/ (isConnected (redis w) = true /\ failing (redis w) = false
      /\ store (redis w) !! key = None
      /\ fst res = fst (body w1)
      /\ db (snd res) = db (snd (body w1))
      /\ undo (snd res) = undo (snd (body w1))
      /\ isConnected (redis (snd res)) = isConnected (redis w3)
      /\ failing (redis (snd res)) = failing (redis w3)
      /\ (forall k, k <> key -> store (redis (snd res)) !! k = store (redis w3) !! k)
      /\ (store (redis (snd res)) !! key = None
          \/ store (redis (snd res)) !! key = store (redis w3) !! key)
      /\ (isConnected (redis w3) = true -> failing (redis w3) = false ->
          store (redis w3) !! key = Some (Plain (fresh_lockValue w)) ->
          store (redis (snd res)) !! key = None)
      /\ (isConnected (redis w3) = false \/ failing (redis w3) = true ->
          store (redis (snd res)) = store (redis w3))).
Proof.
  intros Hk key res w1 w3.
  destruct (isConnected (redis w)) eqn:Hc.
  2:{ left. subst res. unfold bind. rewrite acquireLock_disconnected by assumption.
      cbn. repeat split; auto. }
  subst res. unfold bind. rewrite acquireLock_generated by assumption.
  destruct (failing (redis w)) eqn:Hf.
  { cbn. left. repeat split; auto. }
  destruct (store (redis w) !! ("lock:" +:+ lockKey)) as [v|] eqn:Hv.
  { left. rewrite bool_decide_eq_true_2 by eauto. cbn. repeat split; eauto. }
  right. rewrite bool_decide_eq_false_2 by (intros [? ?]; discriminate).
  cbn [orb]. cbn beta iota. cbn [truthy_opt]. rewrite truthy_fresh_lockId. cbn [negb].
  unfold try_finally. fold key. fold w1.
  subst w3. destruct (body w1) as [r w2] eqn:Hb. cbn [fst snd].
  unfold meanwhile, modify.
  destruct (releaseLock_outcome (env_run later w2) lockKey (Some (fresh_lockId w)))
    as (b & w' & Hrel & Hdb & Hundo & Hc' & Hf' & Hs & Hdown).
  rewrite Hrel. cbn [fst snd].
  rewrite Hdb, Hundo, Hc', Hf', Hs, env_run_db, env_run_undo. fold key.
  repeat split; auto.
  - intros k Hne. destruct b; [by apply lookup_delete_ne|reflexivity].
  - destruct b; [left; apply lookup_delete_eq|by right].
  - intros Hup Hnf Hheld.
    destruct (releaseLock_held (env_run later w2) lockKey (fresh_lockId w)
                (pretty (clock w)) Hup Hnf Hk (truthy_fresh_lockId w) Hheld)
      as (w'' & Hrel' & _).
    rewrite Hrel in Hrel'. injection Hrel' as -> _. apply lookup_delete_eq.
  - intros Hd. by rewrite (Hdown Hd).
Qed.

Lemma updateBookingStatus_amid_alone (w : World Booking) racing refId status location
    flightId description :
  updateBookingStatus_amid [] [] racing refId status location flightId description w
  = updateBookingStatus racing refId status location flightId description w.
Proof.
  unfold updateBookingStatus_amid, updateBookingStatus, bind.
  destruct (acquireLock _ None w) as [[lockId|e] w1]; [|reflexivity].
  destruct (negb (truthy_opt lockId)); [reflexivity|].
  unfold try_finally, meanwhile, modify, bind. cbn [env_run fold_left].
  reflexivity.
Qed.

(** What a call of [updateBookingStatus_amid] that has taken the lock leaves
    in the two stores. [at_del] is the world in which the transaction runs. *)
Lemma locked_update_amid_cases (w : World Booking) outage later racing refId status
    location flightId description :
  let res :=
    updateBookingStatus_amid outage later racing refId status location flightId
      description w in
  let key := "lock:" +:+ "booking_" +:+ refId in
  let own := Plain (fresh_lockValue w) in
  ((isConnected (redis w) = false \/ failing (redis w) = true
    \/ is_Some (store (redis w) !! key))
   /\ fst res = Throw (JsError "Unable to acquire lock for booking update")
   /\ db (snd res) = db w /\ redis (snd res) = redis w)
  \/ (isConnected (redis w) = true /\ failing (redis w) = false
      /\ store (redis w) !! key = None
      /\ (store (redis (snd res)) !! key = None
          \/ store (redis (snd res)) !! key = Some own)
      /\ (isConnected (redis (snd res)) = true -> failing (redis (snd res)) = false ->
          store (redis (snd res)) !! key = None)
      /\ ((isConnected (redis (snd res)) = false \/ failing (redis (snd res)) = true) ->
          Forall (fun e => e <> EvExpire key) (outage ++ later) ->
          store (redis (snd res)) !! key = Some own)
      /\ (forall k, k <> key -> k <> "booking:" +:+ refId ->
          store (redis (snd res)) !! k
          = store (redis (env_run (outage ++ later) w)) !! k)
      /\ (forall ack, (forall d, racing d = d) -> fst res = Ok ack ->
          exists row now,
            stored refId (db w) = Some row
            /\ stored refId (db (snd res)) = Some (bump status now row)
            /\ (isConnected (redis (env_run outage w)) = true ->
                failing (redis (env_run outage w)) = false ->
                store (redis (snd res)) !! ("booking:" +:+ refId) = None))).
Proof.
  intros res key own. subst res. unfold updateBookingStatus_amid.
  set (body := bind (meanwhile outage) _).
  destruct (locked_section_amid ("booking_" +:+ refId)
              (JsError "Unable to acquire lock for booking update") body later w
              eq_refl)
    as [(Hcond & Hr & Hd & _ & Hre)
       |(Hc & Hf & Hl & Hres & Hdb & Hundo & Hc' & Hf' & Hother & Hkey & Hrel & Hdown)].
  { left. auto. }
  right. fold key in Hl, Hkey, Hrel, Hother.
  set (w1 := with_redis _ _) in *.
  set (w2 := env_run outage w1).
  assert (Hbody : body w1
                  = transaction
                      (updateBookingStatus_callback racing refId status location
                         flightId description) w2) by reflexivity.
  rewrite Hbody in *. clear Hbody.
  destruct (locked_update_txn w2 racing refId status location flightId description)
    as (Tc & Tf & _ & _ & Tother & Tcases).
  cbn zeta in Tcases.
  set (txn := transaction _ w2) in *.
  set (w3 := env_run later (snd txn)) in *.
  assert (Hne : key <> "booking:" +:+ refId) by apply lock_key_not_booking_key.
  assert (H1 : store (redis w1) !! key = Some own) by apply lookup_insert_eq.
  assert (H2 : store (redis (snd txn)) !! key = store (redis w2) !! key)
    by (apply Tother; exact Hne).
  assert (H3 : store (redis w3) !! key = None \/ store (redis w3) !! key = Some own).
  { destruct (env_run_store later (snd txn) key) as [E|E]; [|by left].
    fold w3 in E. rewrite E, H2.
    destruct (env_run_store outage w1 key) as [E'|E']; [|by left].
    fold w2 in E'. rewrite E', H1. by right. }
  repeat (split; [assumption|]).
  split.
  { destruct Hkey as [E|E]; [by left|]. by rewrite E. }
  split.
  { rewrite Hc', Hf'. intros Hup Hnf.
    destruct H3 as [E|E]; [|by apply Hrel].
    destruct Hkey as [E'|E']; congruence. }
  split.
  { rewrite Hc', Hf'. intros Hd Hno. rewrite (Hdown Hd).
    apply Forall_app in Hno as [Hno1 Hno2].
    unfold w3. rewrite (env_run_store_kept later _ key Hno2), H2.
    unfold w2. by rewrite (env_run_store_kept outage _ key Hno1). }
  split.
  { intros k Hk Hb. rewrite (Hother k Hk). unfold w3.
    rewrite env_run_app. apply env_run_store_ext.
    rewrite (Tother k Hb). unfold w2. apply env_run_store_ext.
    by apply lookup_insert_ne. }
  intros ack Hrac Hok. rewrite Hres in Hok.
  assert (Hd2 : db w2 = db w) by (unfold w2; by rewrite env_run_db).
  rewrite Hd2 in Tcases. rewrite !Hrac in Tcases.
  destruct Tcases as [(_ & ? & _)|(row & rest & Hrows & Tcases)]; [congruence|].
  destruct Tcases as [(_ & _ & ? & _)|(_ & Tcases)]; [congruence|].
  destruct Tcases as [(_ & ? & _)|(_ & Tcases)]; [congruence|].
  destruct Tcases as [([c ?] & _)|(_ & Td & Ts)]; [congruence|].
  exists row, (clock w2 / 1000). split; [by eapply stored_rows|]. split.
  { rewrite Hdb, Td. unfold stored. rewrite rows_by_ref_add_timeline_event.
    apply (stored_gated_update_same refId status (clock w2 / 1000) (db w) row).
    by eapply stored_rows. }
  intros Hup Hnf.
  destruct (env_run_flags outage w1 w eq_refl eq_refl) as [Ec Ef].
  fold w2 in Ec, Ef. rewrite Ec, Hup, Ef, Hnf in Ts. cbn [andb negb] in Ts.
  rewrite Hother by (intros E; apply Hne; by rewrite E).
  destruct (env_run_store later (snd txn) ("booking:" +:+ refId)) as [E|E];
    [|exact E].
  fold w3 in E. rewrite E, Ts. apply lookup_delete_eq.
Qed.



(** In the lock-protected service, too, the old status is served when the
    [DEL] is lost: the client fails after the lock has been taken, [del]
    returns [false], the transaction commits, and once the client is
    connected again [getBookingHistory] returns the entry cached before the
    update. *)
Example locked_service_serves_the_old_status_after_an_outage :
  let w0 : World Booking := Sample.world (Sample.db_with BOOKED) true ∅ in
  let cached := run [Call (GetBookingHistory "AC1")] w0 in
  let res :=
    updateBookingStatus_amid [EvError] [EvConnect] (fun d => d) "AC1" DEPARTED
      (Some "DEL") None None cached in
  fst res = Ok {| ack_success := true; ack_refId := "AC1"; ack_status := DEPARTED |}
  /\ stored_status "AC1" (db (snd res)) = Some DEPARTED
  /\ store (redis (snd res)) !! "lock:booking_AC1" = None
  /\ exists b, fst (getBookingHistory "AC1" (snd res)) = Ok (Some b)
               /\ b_status b = BOOKED.
Proof. vm_compute. repeat split. eexists. split; reflexivity. Qed.


(** ** [ORDER BY] *)

Section OrderBy.
Context {A : Type} (leb : A -> A -> bool).
Hypothesis leb_total : forall a b, leb a b = false -> leb b a = true.

Let R (a b : A) : Prop := leb a b = true.

Lemma insert_by_In x y l : In y (insert_by leb x l) <-> y = x \/ In y l.
Proof.
  induction l as [|z l IH]; cbn; [intuition congruence|].
  destruct (leb x z); cbn; [intuition congruence|]. rewrite IH. intuition congruence.
Qed.

Lemma order_by_In y l : In y (order_by leb l) <-> In y l.
Proof.
  unfold order_by. induction l as [|x l IH]; cbn; [reflexivity|].
  rewrite insert_by_In, IH. intuition congruence.
Qed.

Lemma insert_by_HdRel a x l :
  R a x -> HdRel R a l -> HdRel R a (insert_by leb x l).
Proof.
  intros Hax Hal. destruct l as [|z l]; cbn; [by constructor|].
  destruct (leb x z); constructor; [exact Hax|by inversion Hal].
Qed.

Lemma insert_by_Sorted x l : Sorted R l -> Sorted R (insert_by leb x l).
Proof.
  induction 1 as [|z l Hl IH Hz]; cbn; [by repeat constructor|].
  destruct (leb x z) eqn:Hxz.
  - constructor; [by constructor|by constructor].
  - constructor; [exact IH|]. apply insert_by_HdRel; [|exact Hz].
    by apply leb_total.
Qed.

Lemma order_by_Sorted l : Sorted R (order_by leb l).
Proof.
  unfold order_by. induction l as [|x l IH]; cbn; [constructor|].
  by apply insert_by_Sorted.
Qed.

Lemma order_by_length l : length (order_by leb l) = length l.
Proof.
  unfold order_by. induction l as [|x l IH]; cbn; [reflexivity|].
  rewrite <- IH. clear IH. generalize (foldr (insert_by leb) [] l) as s.
  induction s as [|z s IHs]; cbn; [reflexivity|].
  destruct (leb x z); cbn; [reflexivity|]. by rewrite IHs.
Qed.
End OrderBy.


(** ** The transit query *)

Import FlightService.

Lemma order_leb_total (a b : TransitRow) :
  order_leb a b = false -> order_leb b a = true.
Proof.
  unfold order_leb. intros H.
  apply orb_false_iff in H as [Hlt Hrest].
  apply Z.ltb_ge in Hlt.
  destruct (total_duration b <? total_duration a)%Z eqn:Hba; [reflexivity|].
  apply Z.ltb_ge in Hba. cbn.
  assert (Heq : total_duration a = total_duration b) by lia.
  rewrite Heq, Z.eqb_refl in Hrest. cbn in Hrest.
  rewrite Heq, Z.eqb_refl. cbn. apply Z.leb_le. apply Z.leb_gt in Hrest. lia.
Qed.

Lemma order_leb_ordered (a b : TransitRow) :
  order_leb a b = true -> ordered (route_of a) (route_of b).
Proof.
  unfold order_leb, ordered, leg1_departure. cbn. intros H.
  apply orb_true_iff in H as [H|H].
  - left. by apply Z.ltb_lt.
  - right. apply andb_true_iff in H as [H1 H2].
    split; [by apply Z.eqb_eq|by apply Z.leb_le].
Qed.

#[local] Instance ordered_transitive : Transitive ordered.
Proof.
  intros a b c. unfold ordered. intros [H1|[H1 H1']] [H2|[H2 H2']]; [left|left|left|right]; lia.
Qed.





(** The routes of the test in [tests/flight.test.js]: DEL to BLR through
    HYD, searched on the day of the flights. *)
Example getTransitRoutes_finds_the_route_through_the_hub :
  exists route,
    fst (getTransitRoutes utc_startOf_day utc_endOf_day "DEL" "BLR" 40000
           (Sample.world Sample.empty_db true (∅ : gmap string (RedisValue unit))))
    = Ok [route]
    /\ transit_hub route = "HYD"
    /\ layover_minutes route = 120
    /\ total_duration_minutes route = 360.
Proof. eexists. vm_compute. repeat split. Qed.

(** ** The cache commands and the lock protocol of [RedisClient] *)

(** X1. [set] answers [true] exactly when the client is connected and the
    command does not reject, and a [get] of the key then returns the value
    that was set; a [del] that follows answers [true] as well and the next
    [get] returns [null]. A [set] that answers [false] leaves the store as it
    was, and no [set] touches another key. *)
Theorem set_get_del_round_trip {J} (w : World J) (key : string) (value : J) :
  let up := isConnected (redis w) && negb (failing (redis w)) in
  let w1 := snd (set key value w) in
  let w2 := snd (del key w1) in
  fst (set key value w) = Ok up
  /\ (up = true ->
      fst (get key w1) = Ok (Some value)
      /\ fst (del key w1) = Ok true
      /\ fst (get key w2) = Ok None
      /\ store (redis w2) = delete key (store (redis w)))
  /\ (up = false -> store (redis w1) = store (redis w))
  /\ (forall k, k <> key -> store (redis w1) !! k = store (redis w) !! k).
Proof.
  intros up w1 w2. subst up w1 w2. unfold set, get, del. unfold_m.
  destruct (isConnected (redis w)) eqn:Hc; cbn.
  2:{ repeat split; auto; discriminate. }
  destruct (failing (redis w)) eqn:Hf; cbn.
  { rewrite Hc. cbn. rewrite Hf. cbn. repeat split; auto; discriminate. }
  rewrite Hc. cbn. rewrite Hf. cbn. rewrite Hc. cbn. rewrite Hf. cbn.
  rewrite lookup_insert_eq, lookup_delete_eq. cbn.
  repeat split; auto.
  - apply delete_insert_eq.
  - discriminate.
  - intros k Hk. by apply lookup_insert_ne.
Qed.

(** X2. While a lock is held nobody else gets it: after [acquireLock] has
    returned a lock id, every further [acquireLock] of the key returns [null]
    and changes nothing in the store, whatever identifier it passes.
    [releaseLock] with the returned id answers [true] and puts the store back
    as it was before the lock was taken, after which the key can be acquired
    again. *)
Theorem lock_is_exclusive_until_released {J} (w : World J) (lockKey : string)
    (identifier : option string) (lockId : string) :
  truthy lockKey = true ->
  fst (acquireLock lockKey identifier w) = Ok (Some lockId) ->
  let w1 := snd (acquireLock lockKey identifier w) in
  let w2 := snd (releaseLock lockKey (Some lockId) w1) in
  store (redis w) !! ("lock:" +:+ lockKey) = None
  /\ store (redis w1) !! ("lock:" +:+ lockKey)
     = Some (Plain (lockId +:+ ":" +:+ pretty (clock w)))
  /\ (forall other,
        fst (acquireLock lockKey other w1) = Ok None
        /\ store (redis (snd (acquireLock lockKey other w1))) = store (redis w1))
  /\ fst (releaseLock lockKey (Some lockId) w1) = Ok true
  /\ store (redis w2) = store (redis w)
  /\ (forall other, exists again, fst (acquireLock lockKey other w2) = Ok (Some again)).
Proof.
  intros Hk Hacq w1 w2.
  assert (Hshape :
    isConnected (redis w) = true /\ failing (redis w) = false
    /\ store (redis w) !! ("lock:" +:+ lockKey) = None
    /\ truthy lockId = true
    /\ isConnected (redis w1) = true /\ failing (redis w1) = false
    /\ store (redis w1)
       = <["lock:" +:+ lockKey := Plain (lockId +:+ ":" +:+ pretty (clock w))]>
           (store (redis w))).
  { subst w1. revert Hacq. unfold acquireLock. unfold_m.
    destruct (isConnected (redis w)) eqn:Hc; cbn; [|discriminate].
    destruct (truthy_opt identifier) eqn:Hi; cbn.
    - destruct (failing (redis w)) eqn:Hf; cbn; [discriminate|].
      destruct (store (redis w) !! _) as [v|] eqn:Hv; cbn; [discriminate|].
      intros [= <-]. cbn.
      destruct identifier as [i|]; [|discriminate]. cbn in Hi. cbn. rewrite Hi.
      repeat split; auto.
    - destruct (failing (redis w)) eqn:Hf; cbn; [discriminate|].
      destruct (store (redis w) !! _) as [v|] eqn:Hv; cbn; [discriminate|].
      intros [= <-]. cbn.
      repeat split; auto. apply truthy_dash. }
  destruct Hshape as (Hc & Hf & Hfree & Hid & Hc1 & Hf1 & Hs1).
  assert (Hheld : store (redis w1) !! ("lock:" +:+ lockKey)
                  = Some (Plain (lockId +:+ ":" +:+ pretty (clock w)))).
  { rewrite Hs1. apply lookup_insert_eq. }
  destruct (releaseLock_held w1 lockKey lockId (pretty (clock w)) Hc1 Hf1 Hk Hid Hheld)
    as (w' & Hrel & _ & _ & _ & _ & Hc2 & Hf2 & Hs2 & _).
  assert (Hback : store (redis w2) = store (redis w)).
  { subst w2. rewrite Hrel. cbn. rewrite Hs2, Hs1. by apply delete_insert_id. }
  split; [exact Hfree|]. split; [exact Hheld|]. split.
  { intros other. unfold acquireLock. unfold_m. rewrite Hc1. cbn.
    destruct (truthy_opt other); cbn; rewrite Hf1; cbn; rewrite Hheld; cbn; auto. }
  split; [by rewrite Hrel|]. split; [exact Hback|].
  intros other. subst w2. rewrite Hrel. cbn. unfold acquireLock. unfold_m.
  rewrite Hc2. cbn.
  destruct (truthy_opt other); cbn; rewrite Hf2; cbn; rewrite Hs2, Hs1,
    lookup_delete_eq; cbn; eauto.
Qed.

Lemma lock_is_exclusive_until_released_witness :
  let w : World unit := Sample.world Sample.empty_db true ∅ in
  let w1 := snd (acquireLock "booking_AC1" None w) in
  fst (acquireLock "booking_AC1" (Some "job") w1) = Ok None
  /\ fst (releaseLock "booking_AC1" (Some "5000-7K2Q") w1) = Ok true.
Proof.
  intros w w1.
  destruct (lock_is_exclusive_until_released w "booking_AC1" None "5000-7K2Q")
    as (_ & _ & Hother & Hrel & _); [reflexivity|reflexivity|].
  split; [apply Hother|exact Hrel].
Defined.

(** ** The services and their locks *)

(** ** The lock of a status update *)

(** X3. [updateBookingStatus] of the lock-protected service gives its lock
    back whenever it can and writes no lock but its own. When the lock
    cannot be taken it throws and leaves the cache as it is. When it has
    taken the lock then, whether it returns or throws and whatever happens
    to the cache client meanwhile, the entry under the lock key is
    afterwards absent or the call's own: absent if the client is connected
    and working at the end of the call, and still there, until it expires,
    if the client is not, because [releaseLock] then returns [false] without
    a word. Every key other than the lock and the cache entry of the booking
    holds what the events of the meantime have left of it. *)
Theorem updateBookingStatus_releases_its_lock_when_it_can (w : World Booking)
    (outage later : list EnvEvent) (racing : DB -> DB) (refId : string)
    (status : Status) (location flightId description : option string) :
  let res :=
    updateBookingStatus_amid outage later racing refId status location flightId
      description w in
  let key := "lock:" +:+ "booking_" +:+ refId in
  let own := Plain (fresh_lockValue w) in
  ((isConnected (redis w) = false \/ failing (redis w) = true
    \/ is_Some (store (redis w) !! key)) ->
   fst res = Throw (JsError "Unable to acquire lock for booking update")
   /\ redis (snd res) = redis w)
  /\ (isConnected (redis w) = true -> failing (redis w) = false ->
      store (redis w) !! key = None ->
      (store (redis (snd res)) !! key = None
       \/ store (redis (snd res)) !! key = Some own)
      /\ (isConnected (redis (snd res)) = true -> failing (redis (snd res)) = false ->
          store (redis (snd res)) !! key = None)
      /\ ((isConnected (redis (snd res)) = false \/ failing (redis (snd res)) = true) ->
          Forall (fun e => e <> EvExpire key) (outage ++ later) ->
          store (redis (snd res)) !! key = Some own)
      /\ (forall k, k <> key -> k <> "booking:" +:+ refId ->
          store (redis (snd res)) !! k
          = store (redis (env_run (outage ++ later) w)) !! k)).
Proof.
  intros res key own. subst res key own.
  destruct (locked_update_amid_cases w outage later racing refId status location
              flightId description)
    as [(Hcond & He & _ & Hre)|(Hc & Hf & Hfree & Hkey & Hup & Hdown & Hrest & _)].
  - split; [auto|]. intros Hc Hf Hfree.
    destruct Hcond as [?|[?|[v Hv]]]; congruence.
  - split; [|auto].
    intros [?|[?|[v Hv]]]; congruence.
Qed.

(** A call whose client fails after the transaction has committed leaves its
    lock behind: the next update of the booking is refused, and goes through
    once the entry has expired. *)
Example updateBookingStatus_leaves_its_lock_after_an_outage :
  let w : World Booking := Sample.world (Sample.db_with BOOKED) true ∅ in
  let res :=
    updateBookingStatus_amid [] [EvError] (fun d => d) "AC1" DEPARTED (Some "DEL") None
      None w in
  let online := env_step EvConnect (snd res) in
  let next := updateBookingStatus (fun d => d) "AC1" ARRIVED (Some "BLR") None None in
  is_ok (fst res) = true
  /\ stored_status "AC1" (db (snd res)) = Some DEPARTED
  /\ store (redis online) !! "lock:booking_AC1" = Some (Plain "5000-7K2Q:5000")
  /\ fst (next online) = Throw (JsError "Unable to acquire lock for booking update")
  /\ is_ok (fst (next (env_step (EvExpire "lock:booking_AC1") online))) = true.
Proof. vm_compute. repeat split. Qed.

(** ** Properties of the relational store that the statements keep *)

Section Keeps.
Context {J : Type} (I : DB -> Prop).

Lemma keeps_unchanged {A} (m : M J A) :
  (forall w, db (snd (m w)) = db w /\ undo (snd (m w)) = undo w) -> keeps I m.
Proof. intros H w Hd Hu. destruct (H w) as [-> ->]. auto. Qed.

Lemma keeps_ret {A} (a : A) : keeps I (ret a : M J A).
Proof. apply keeps_unchanged. auto. Qed.

Lemma keeps_throw {A} (e : Error) : keeps I (throw e : M J A).
Proof. apply keeps_unchanged. auto. Qed.

Lemma keeps_gets {A} (f : World J -> A) : keeps I (gets f).
Proof. apply keeps_unchanged. auto. Qed.

Lemma keeps_emit (c : Cmd) : keeps I (emit c : M J unit).
Proof. apply keeps_unchanged. auto. Qed.

Lemma keeps_bind {A B} (m : M J A) (k : A -> M J B) :
  keeps I m -> (forall a, keeps I (k a)) -> keeps I (bind m k).
Proof.
  intros Hm Hk w Hd Hu. unfold bind.
  destruct (Hm w Hd Hu) as [Hd1 Hu1].
  destruct (m w) as [[a|e] w1]; cbn in *; [|auto].
  by apply Hk.
Qed.

Lemma keeps_try_finally {A B} (body : M J A) (cleanup : M J B) :
  keeps I body -> keeps I cleanup -> keeps I (try_finally body cleanup).
Proof.
  intros Hb Hc w Hd Hu. unfold try_finally.
  destruct (Hb w Hd Hu) as [Hd1 Hu1].
  destruct (body w) as [r w1]; cbn in *.
  destruct (Hc w1 Hd1 Hu1) as [Hd2 Hu2].
  destruct (cleanup w1) as [[b|e] w2]; cbn in *; auto.
Qed.

Lemma keeps_write (f : DB -> DB) :
  (forall d, I d -> I (f d)) -> keeps I (Database.write f : M J unit).
Proof. intros Hf w Hd Hu. cbn. auto. Qed.

Lemma keeps_interleave (others : DB -> DB) :
  (forall d, I d -> I (others d)) -> keeps I (interleave others : M J unit).
Proof.
  intros Hf w Hd Hu. cbn. split; [auto|].
  intros u. destruct (undo w) as [u0|]; cbn; [|discriminate].
  intros [= <-]. auto.
Qed.

(** A transaction whose callback keeps [I] keeps it, closed or rolled back,
    and leaves no transaction open. *)
Lemma transaction_keeps {A} (callback : M J A) (w : World J) :
  keeps I callback -> I (db w) ->
  I (db (snd (transaction callback w))) /\ undo (snd (transaction callback w)) = None.
Proof.
  intros Hc Hd. unfold transaction.
  match goal with
  | |- context [callback ?w0] =>
      destruct (Hc w0) as [Hd1 Hu1]; [exact Hd|by intros u [= <-]|];
      destruct (callback w0) as [[a|e] w1]
  end; cbn in *; [auto|].
  split; [|reflexivity].
  destruct (undo w1) as [u|]; cbn; auto.
Qed.
End Keeps.

Section RedisKeeps.
Context {J : Type} (I : DB -> Prop).

Lemma set_keeps key (value : J) : keeps I (set key value).
Proof.
  apply keeps_unchanged. intros w. unfold set. unfold_m.
  destruct (isConnected (redis w)); cbn; [|auto].
  destruct (failing (redis w)); cbn; auto.
Qed.

Lemma get_keeps key : keeps I (get key : M J (option J)).
Proof.
  apply keeps_unchanged. intros w. unfold get. unfold_m.
  destruct (isConnected (redis w)); cbn; [|auto].
  destruct (failing (redis w)); cbn; [auto|].
  destruct (store (redis w) !! key) as [[?|?]|]; auto.
Qed.

Lemma del_keeps key : keeps I (del key : M J bool).
Proof.
  apply keeps_unchanged. intros w. unfold del. unfold_m.
  destruct (isConnected (redis w)); cbn; [|auto].
  destruct (failing (redis w)); cbn; auto.
Qed.

Lemma acquireLock_keeps lockKey identifier :
  keeps I (acquireLock lockKey identifier : M J (option string)).
Proof.
  apply keeps_unchanged. intros w. unfold acquireLock. unfold_m.
  destruct (isConnected (redis w)); cbn; [|auto].
  destruct (truthy_opt identifier); cbn;
    (destruct (failing (redis w)); cbn; [auto|]);
    destruct (store (redis w) !! _); auto.
Qed.

Lemma releaseLock_keeps lockKey lockId : keeps I (releaseLock lockKey lockId : M J bool).
Proof.
  apply keeps_unchanged. intros w. unfold releaseLock. unfold_m.
  destruct (isConnected (redis w)); cbn; [|auto].
  destruct (truthy lockKey); cbn; [|auto].
  destruct (truthy_opt lockId); cbn; [|auto].
  destruct (failing (redis w)); cbn; [auto|].
  destruct (store (redis w) !! _) as [[v|?]|] eqn:Hv; cbn; auto.
  destruct (truthy v && _); cbn; [|auto].
  rewrite Hv. cbn. destruct (String.eqb v v); auto.
Qed.

Lemma Math_random_keeps : keeps I (Math_random : M J string).
Proof. apply keeps_unchanged. intros w. split; reflexivity. Qed.
End RedisKeeps.

(** ** The statements keep the constraints of the schema *)

Lemma existsb_map_key {A} (key : A -> bool) (g : A -> A) (l : list A) :
  (forall x, key (g x) = key x) -> existsb key (map g l) = existsb key l.
Proof.
  intros Hg. induction l as [|x l IH]; cbn; [reflexivity|]. by rewrite Hg, IH.
Qed.

Lemma existsb_snoc {A} (p : A -> bool) (l : list A) (x : A) :
  existsb p l = true -> existsb p (l ++ [x]) = true.
Proof. intros H. rewrite existsb_app, H. reflexivity. Qed.

Lemma map_key_map {A K} (key : A -> K) (g : A -> A) (l : list A) :
  (forall x, key (g x) = key x) -> map key (map g l) = map key l.
Proof.
  intros Hg. rewrite List.map_map. apply map_ext. exact Hg.
Qed.

Lemma NoDup_snoc {A} (l : list A) (x : A) : NoDup l -> x ∉ l -> NoDup (l ++ [x]).
Proof.
  intros Hl Hx. apply NoDup_app. split; [exact Hl|]. split.
  - intros y Hy Hin. apply list_elem_of_singleton in Hin. by subst y.
  - apply NoDup_singleton.
Qed.

Lemma NoDup_map_inj {A K} (key : A -> K) (l : list A) (a b : A) :
  NoDup (map key l) -> In a l -> In b l -> key a = key b -> a = b.
Proof.
  induction l as [|x l IH]; cbn; [tauto|].
  intros Hnd Ha Hb Hk. apply NoDup_cons in Hnd as [Hx Hnd].
  destruct Ha as [->|Ha], Hb as [->|Hb]; auto.
  - exfalso. apply Hx. rewrite Hk. apply list_elem_of_fmap. exists b.
    split; [reflexivity|by apply list_elem_of_In].
  - exfalso. apply Hx. rewrite <- Hk. apply list_elem_of_fmap. exists a.
    split; [reflexivity|by apply list_elem_of_In].
Qed.

Lemma schema_add_booking (d : DB) (row : BookingRow) :
  schema_holds d ->
  bk_id row = next_booking_id d ->
  existsb (fun b => String.eqb (bk_ref_id b) (bk_ref_id row)) (bookings d) = false ->
  schema_holds (add_booking row d).
Proof.
  intros [[Hfl Hbelow Hbf Hte] [Hpk Hrefs Hffk Huq]] Hid Hfresh.
  split; split; cbn; try assumption.
  - apply Forall_app. split.
    + eapply Forall_impl; [exact Hbelow|]. cbn. intros b Hb. lia.
    + constructor; [lia|constructor].
  - eapply Forall_impl; [exact Hbf|]. cbn. intros r Hr. by apply existsb_snoc.
  - eapply Forall_impl; [exact Hte|]. cbn. intros e He. by apply existsb_snoc.
  - rewrite map_app. cbn. apply NoDup_snoc; [exact Hpk|].
    intros Hin. apply list_elem_of_fmap in Hin as (b & Hb & Hin).
    rewrite Forall_forall in Hbelow. specialize (Hbelow b Hin). lia.
  - rewrite map_app. cbn. apply NoDup_snoc; [exact Hrefs|].
    intros Hin. apply list_elem_of_fmap in Hin as (b & Hb & Hin).
    apply not_true_iff_false in Hfresh. apply Hfresh.
    apply existsb_exists. exists b. split; [by apply list_elem_of_In|].
    rewrite Hb. apply String.eqb_refl.
Qed.

Lemma schema_add_booking_flight (d : DB) booking_id flight_id sequence_order now :
  schema_holds d ->
  existsb (fun b => (bk_id b =? booking_id)%Z) (bookings d) = true ->
  existsb (fun f => String.eqb (fl_flight_id f) flight_id) (flights d) = true ->
  existsb (fun r => (bf_booking_id r =? booking_id)%Z
                    && String.eqb (bf_flight_id r) flight_id)
    (booking_flights d) = false ->
  schema_holds (add_booking_flight booking_id flight_id sequence_order now d).
Proof.
  intros [[Hfl Hbelow Hbf Hte] [Hpk Hrefs Hffk Huq]] Hb Hf Hdup.
  split; split; cbn; try assumption.
  - apply Forall_app. split; [exact Hbf|]. constructor; [exact Hb|constructor].
  - apply Forall_app. split; [exact Hffk|]. constructor; [exact Hf|constructor].
  - rewrite map_app. cbn. apply NoDup_snoc; [exact Huq|].
    intros Hin. apply list_elem_of_fmap in Hin as (r & [= Hr1 Hr2] & Hin).
    apply not_true_iff_false in Hdup. apply Hdup.
    apply existsb_exists. exists r. split; [by apply list_elem_of_In|].
    rewrite <- Hr1, <- Hr2, Z.eqb_refl. apply String.eqb_refl.
Qed.

Lemma schema_add_timeline_event (d : DB) booking_id event_type location flight_id
    description now :
  schema_holds d ->
  existsb (fun b => (bk_id b =? booking_id)%Z) (bookings d) = true ->
  schema_holds
    (add_timeline_event booking_id event_type location flight_id description now d).
Proof.
  intros [[Hfl Hbelow Hbf Hte] [Hpk Hrefs Hffk Huq]] Hb.
  split; split; cbn; try assumption.
  apply Forall_app. split; [exact Hte|]. constructor; [exact Hb|constructor].
Qed.

Lemma schema_set_bookings (d : DB) (g : BookingRow -> BookingRow) :
  (forall b, bk_id (g b) = bk_id b) -> (forall b, bk_ref_id (g b) = bk_ref_id b) ->
  schema_holds d -> schema_holds (set_bookings (map g (bookings d)) d).
Proof.
  intros Hid Href [[Hfl Hbelow Hbf Hte] [Hpk Hrefs Hffk Huq]].
  assert (Hex : forall x,
    existsb (fun b => (bk_id b =? x)%Z) (map g (bookings d))
    = existsb (fun b => (bk_id b =? x)%Z) (bookings d)).
  { intros x. apply existsb_map_key. intros b. by rewrite Hid. }
  split; split; cbn; try assumption.
  - apply Forall_forall. intros b Hin. apply list_elem_of_fmap in Hin as (b0 & -> & Hin).
    rewrite Hid. rewrite Forall_forall in Hbelow. by apply Hbelow.
  - eapply Forall_impl; [exact Hbf|]. cbn. intros r Hr. by rewrite Hex.
  - eapply Forall_impl; [exact Hte|]. cbn. intros e He. by rewrite Hex.
  - by rewrite map_key_map.
  - by rewrite map_key_map.
Qed.

Lemma schema_gated_update (d : DB) status ref_id version now :
  schema_holds d -> schema_holds (gated_update status ref_id version now d).
Proof.
  unfold gated_update. apply schema_set_bookings; intros b;
    destruct (version_gate ref_id version b); reflexivity.
Qed.

Lemma schema_plain_update (d : DB) status ref_id now :
  schema_holds d -> schema_holds (plain_update status ref_id now d).
Proof.
  unfold plain_update. apply schema_set_bookings; intros b;
    destruct (String.eqb (bk_ref_id b) ref_id); reflexivity.
Qed.

Section StatementsKeepSchema.
Context {J : Type}.

Lemma insert_booking_keeps ref_id user_id origin destination pieces weight_kg :
  keeps schema_holds
    (insert_booking ref_id user_id origin destination pieces weight_kg : M J Z).
Proof.
  intros w Hd Hu. unfold insert_booking. unfold_db. unfold_m. cbn.
  destruct (fits 20 ref_id && fits 10 origin && fits 10 destination); cbn; [|auto].
  destruct (existsb _ (bookings (db w))) eqn:Hdup; cbn; [auto|].
  split; [|exact Hu]. by apply schema_add_booking.
Qed.

Lemma insert_booking_flight_keeps booking_id flight_id sequence_order :
  keeps schema_holds
    (insert_booking_flight booking_id flight_id sequence_order : M J unit).
Proof.
  intros w Hd Hu. unfold insert_booking_flight. unfold_db. unfold_m. cbn.
  destruct (fits 50 flight_id); cbn; [|auto].
  destruct (existsb _ (bookings (db w))) eqn:Hb; cbn; [|auto].
  destruct (existsb _ (flights (db w))) eqn:Hf; cbn; [|auto].
  destruct (existsb _ (booking_flights (db w))) eqn:Hdup; cbn; [auto|].
  split; [|exact Hu]. by apply schema_add_booking_flight.
Qed.

Lemma insert_flights_keeps bookingId flightIds i :
  keeps schema_holds (insert_flights bookingId flightIds i : M J unit).
Proof.
  revert i. induction flightIds as [|f rest IH]; intros i; cbn.
  - apply keeps_ret.
  - apply keeps_bind; [apply insert_booking_flight_keeps|]. intros _. apply IH.
Qed.

Lemma insert_timeline_event_keeps booking_id event_type location flight_id description :
  keeps schema_holds
    (insert_timeline_event booking_id event_type location flight_id description
     : M J unit).
Proof.
  intros w Hd Hu. unfold insert_timeline_event. unfold_db. unfold_m. cbn.
  destruct (fits_opt 10 location && fits_opt 50 flight_id); cbn; [|auto].
  destruct (existsb _ (bookings (db w))) eqn:Hb; cbn; [|auto].
  split; [|exact Hu]. by apply schema_add_timeline_event.
Qed.

Lemma update_status_versioned_keeps status ref_id version :
  keeps schema_holds (update_status_versioned status ref_id version : M J Z).
Proof.
  intros w Hd Hu. unfold update_status_versioned. unfold_db. unfold_m. cbn.
  split; [|exact Hu]. by apply schema_gated_update.
Qed.

Lemma update_status_keeps status ref_id :
  keeps schema_holds (update_status status ref_id : M J unit).
Proof.
  intros w Hd Hu. unfold update_status. unfold_db. unfold_m. cbn.
  split; [|exact Hu]. by apply schema_plain_update.
Qed.

Lemma transaction_keeps_open {A} (I : DB -> Prop) (callback : M J A) :
  keeps I callback -> keeps I (transaction callback).
Proof.
  intros Hc w Hd _. destruct (transaction_keeps I callback w Hc Hd) as [H1 H2].
  split; [exact H1|]. rewrite H2. discriminate.
Qed.
End StatementsKeepSchema.

Ltac keeps_step :=
  first
    [ apply keeps_ret
    | apply keeps_throw
    | apply keeps_gets
    | apply keeps_emit
    | apply Math_random_keeps
    | apply set_keeps
    | apply get_keeps
    | apply del_keeps
    | apply acquireLock_keeps
    | apply releaseLock_keeps
    | apply insert_booking_keeps
    | apply insert_flights_keeps
    | apply insert_timeline_event_keeps
    | apply update_status_versioned_keeps
    | apply update_status_keeps
    | apply keeps_try_finally
    | apply transaction_keeps_open
    | apply keeps_interleave; solve [auto]
    | apply keeps_bind; [|intros ?]
    | match goal with
      | |- keeps _ (match ?x with _ => _ end) => destruct x
      end ].

Lemma locked_createBooking_keeps bookingData flightIds :
  keeps schema_holds (createBooking bookingData flightIds).
Proof.
  unfold createBooking, createBooking_callback, generateRefId, Date_now.
  repeat keeps_step.
Qed.

Lemma locked_updateBookingStatus_keeps racing refId status location flightId description :
  (forall d, schema_holds d -> schema_holds (racing d)) ->
  keeps schema_holds
    (updateBookingStatus racing refId status location flightId description).
Proof.
  intros Hracing.
  unfold updateBookingStatus, updateBookingStatus_callback, invalidateBookingCache,
    select_bookings, Database.read.
  repeat keeps_step.
Qed.

Lemma locked_getBookingHistory_keeps (I : DB -> Prop) refId :
  keeps I (getBookingHistory refId).
Proof.
  unfold getBookingHistory, getCachedBooking, cacheBooking, select_bookings,
    select_booking_flights, select_timeline, Database.read.
  repeat keeps_step.
Qed.

Lemma plain_getBookingHistory_keeps (I : DB -> Prop) refId forceDb :
  keeps I (BookingService.getBookingHistory refId forceDb).
Proof.
  unfold BookingService.getBookingHistory, getCachedBooking, cacheBooking,
    select_bookings, select_booking_flights_join, select_timeline_by_id, Database.read.
  repeat keeps_step.
Qed.

Lemma plain_createBooking_keeps bookingData flightIds :
  keeps schema_holds (BookingService.createBooking bookingData flightIds).
Proof.
  unfold BookingService.createBooking, BookingService.createBooking_callback,
    BookingService.generateRefId, Date_now, cacheBooking.
  repeat keeps_step.
Qed.

Lemma plain_updateBookingStatus_keeps refId status details :
  keeps schema_holds (BookingService.updateBookingStatus refId status details).
Proof.
  unfold BookingService.updateBookingStatus, BookingService.updateBookingStatus_callback,
    invalidateBookingCache, select_bookings, Database.read.
  repeat keeps_step.
Qed.

Lemma env_step_keeps {J} (e : EnvEvent) (w : World J) :
  db (env_step e w) = db w /\ undo (env_step e w) = undo w.
Proof. destruct e; split; reflexivity. Qed.

Lemma locked_run_keeps (steps : list Step) (w : World Booking) :
  schema_holds (db w) -> (forall u, undo w = Some u -> schema_holds u) ->
  schema_holds (db (run steps w)).
Proof.
  revert w. induction steps as [|s steps IH]; intros w Hd Hu; cbn; [exact Hd|].
  assert (Hstep : schema_holds (db (step s w))
                  /\ (forall u, undo (step s w) = Some u -> schema_holds u)).
  { destruct s as [[bookingData flightIds|r status location flightId description|r]|e];
      cbn [step].
    - by apply locked_createBooking_keeps.
    - by apply locked_updateBookingStatus_keeps.
    - by apply locked_getBookingHistory_keeps.
    - destruct (env_step_keeps e w) as [-> ->]. auto. }
  destruct Hstep. by apply IH.
Qed.

Lemma plain_run_keeps (steps : list BookingService.Step)
    (w : World BookingService.Booking) :
  schema_holds (db w) -> (forall u, undo w = Some u -> schema_holds u) ->
  schema_holds (db (BookingService.run steps w)).
Proof.
  revert w. induction steps as [|s steps IH]; intros w Hd Hu; cbn; [exact Hd|].
  assert (Hstep : schema_holds (db (BookingService.step s w))
                  /\ (forall u, undo (BookingService.step s w) = Some u -> schema_holds u)).
  { destruct s as [[bookingData flightIds|r status details|r]|e];
      cbn [BookingService.step].
    - by apply plain_createBooking_keeps.
    - by apply plain_updateBookingStatus_keeps.
    - by apply plain_getBookingHistory_keeps.
    - destruct (env_step_keeps e w) as [-> ->]. auto. }
  destruct Hstep. by apply IH.
Qed.

(** X4. The services keep the constraints of [schema.sql]: from a store
    that satisfies the primary and unique keys, the foreign keys and the
    auto-increment counters, with no transaction open, every sequence of
    [createBooking], [updateBookingStatus] and [getBookingHistory] calls and
    of cache events, failed calls included, ends in a store that satisfies
    them; so a reference code never names two bookings. *)
Theorem services_keep_the_schema_constraints :
  (forall (steps : list Step) (w : World Booking),
      schema_holds (db w) -> undo w = None ->
      schema_holds (db (run steps w))
      /\ forall refId, (length (rows_by_ref refId (db (run steps w))) <= 1)%nat)
  /\ (forall (steps : list BookingService.Step) (w : World BookingService.Booking),
        schema_holds (db w) -> undo w = None ->
        schema_holds (db (BookingService.run steps w))
        /\ forall refId,
             (length (rows_by_ref refId (db (BookingService.run steps w))) <= 1)%nat).
Proof.
  assert (Hone : forall d refId, schema_holds d -> (length (rows_by_ref refId d) <= 1)%nat).
  { intros d refId [_ [_ Hrefs _ _]]. unfold rows_by_ref.
    induction (bookings d) as [|b l IH]; cbn; [lia|].
    cbn in Hrefs. apply NoDup_cons in Hrefs as [Hb Hrefs].
    destruct (String.eqb (bk_ref_id b) refId) eqn:Hr; [|by apply IH].
    apply String.eqb_eq in Hr. cbn.
    rewrite (existsb_false_filter (fun b0 => String.eqb (bk_ref_id b0) refId) l); [cbn; lia|].
    apply not_true_is_false. intros Hex. apply existsb_exists in Hex as (x & Hx & Hxr).
    apply String.eqb_eq in Hxr. apply Hb. rewrite Hr, <- Hxr.
    apply list_elem_of_fmap. exists x. split; [reflexivity|by apply list_elem_of_In]. }
  split; intros steps w Hd Hu.
  - assert (H : schema_holds (db (run steps w))).
    { apply locked_run_keeps; [exact Hd|]. rewrite Hu. discriminate. }
    split; [exact H|]. intros refId. by apply Hone.
  - assert (H : schema_holds (db (BookingService.run steps w))).
    { apply plain_run_keeps; [exact Hd|]. rewrite Hu. discriminate. }
    split; [exact H|]. intros refId. by apply Hone.
Qed.


Lemma empty_db_keyed : keyed Sample.empty_db.
Proof. split; cbn; constructor. Qed.

Lemma services_keep_the_schema_constraints_witness :
  schema_holds
    (db (run [Call (CreateBooking Sample.lockedBookingData ["F1"]);
              Call (UpdateBookingStatus "AC3UWM4XP" DEPARTED None None None)]
           (Sample.world Sample.empty_db true ∅)))
  /\ schema_holds
       (db (BookingService.run
              [BookingService.Call
                 (BookingService.CreateBooking Sample.bookingData ["F1"; "F2"])]
              (Sample.world Sample.empty_db true ∅))).
Proof.
  destruct services_keep_the_schema_constraints as [Hlocked Hplain].
  split.
  - apply Hlocked; [split; [apply empty_db_consistent|apply empty_db_keyed]|reflexivity].
  - apply Hplain; [split; [apply empty_db_consistent|apply empty_db_keyed]|reflexivity].
Defined.

(** ** The timeline and the version *)

Lemma locked_create_rows (w : World Booking) bookingData flightIds :
  let res := transaction (createBooking_callback bookingData flightIds) w in
  let ref := "AC" +:+ toString36 (clock w) +:+ next_random w in
  let now := clock w / 1000 in
  let row :=
    new_booking ref None (bd_origin bookingData) (bd_destination bookingData)
      (bd_pieces bookingData) (bd_weight_kg bookingData) now (db w) in
  ((exists e, fst res = Throw e) /\ db (snd res) = db w)
  \/ (fst res = Ok {| cr_refId := ref; cr_bookingId := next_booking_id (db w) |}
      /\ rows_by_ref ref (db w) = []
      /\ Forall (flight_known (db w)) flightIds
      /\ bookings (db (snd res)) = (bookings (db w) ++ [row])%list
      /\ booking_flights (db (snd res))
         = (booking_flights (db w)
            ++ leg_rows (next_booking_id (db w)) flightIds 0
                 (next_booking_flight_id (db w)) now)%list
      /\ timeline_events (db (snd res))
         = (timeline_events (db w)
            ++ [{| te_id := next_timeline_id (db w);
                   te_booking_id := next_booking_id (db w);
                   te_event_type := BOOKED;
                   te_location := Some (bd_origin bookingData);
                   te_flight_id := None;
                   te_description := "Booking created successfully";
                   te_created_at := now |}])%list
      /\ flights (db (snd res)) = flights (db w)).
Proof.
  intros res ref now row. subst res.
  unfold createBooking_callback, generateRefId.
  unfold insert_booking, insert_timeline_event. unfold_db. unfold_m. cbn.
  change (next_random (with_trace _ (with_undo _ w))) with (next_random w).
  fold ref. fold now.
  destruct (fits 20 ref && fits 10 (bd_origin bookingData)
            && fits 10 (bd_destination bookingData)); cbn.
  2:{ left. eauto. }
  destruct (existsb _ (bookings (db w))) eqn:Hdup; cbn.
  { left. eauto. }
  fold row.
  match goal with
  | |- context [insert_flights ?id flightIds 0 ?w1] =>
      pose proof (insert_flights_spec id flightIds 0 w1) as Hloop;
      destruct (insert_flights id flightIds 0 w1) as [[u|e] w2]
  end; cbn in Hloop;
    destruct Hloop as (Hr & Hc & Hu & _ & Hb & Ht & Hfl & Hnb & Hnt & Hok).
  2:{ cbn. rewrite Hu. cbn. left. eauto. }
  destruct (Hok u eq_refl) as (Hrows & _ & Hknown).
  cbn.
  destruct (_ && _); cbn.
  2:{ rewrite Hu. cbn. left. eauto. }
  destruct (existsb _ (bookings (db w2))); cbn.
  2:{ rewrite Hu. cbn. left. eauto. }
  rewrite ?Hr, ?Hc, ?Hb, ?Ht, ?Hfl, ?Hnb, ?Hnt, ?Hrows. cbn.
  right. repeat split; auto.
  apply existsb_false_filter. exact Hdup.
Qed.

Lemma locked_create_full (w : World Booking) bookingData flightIds :
  let res := createBooking bookingData flightIds w in
  ((exists e, fst res = Throw e) /\ db (snd res) = db w)
  \/ exists ref row ev,
       fst res = Ok {| cr_refId := ref; cr_bookingId := next_booking_id (db w) |}
       /\ rows_by_ref ref (db w) = []
       /\ Forall (flight_known (db w)) flightIds
       /\ bk_id row = next_booking_id (db w)
       /\ bk_ref_id row = ref /\ bk_version row = 1 /\ bk_status row = BOOKED
       /\ te_booking_id ev = next_booking_id (db w) /\ te_event_type ev = BOOKED
       /\ bookings (db (snd res)) = (bookings (db w) ++ [row])%list
       /\ booking_flights (db (snd res))
          = (booking_flights (db w)
             ++ leg_rows (next_booking_id (db w)) flightIds 0
                  (next_booking_flight_id (db w)) (clock w / 1000))%list
       /\ timeline_events (db (snd res)) = (timeline_events (db w) ++ [ev])%list
       /\ flights (db (snd res)) = flights (db w).
Proof.
  intros res. subst res.
  set (lockKey := "create_booking_" +:+ pretty (clock w)).
  set (body := transaction (createBooking_callback bookingData flightIds)).
  assert (Heq : createBooking bookingData flightIds w
                = bind (acquireLock lockKey None)
                    (fun lockId =>
                       if negb (truthy_opt lockId)
                       then throw (JsError "Unable to acquire lock for booking creation")
                       else try_finally body (releaseLock lockKey lockId)) w)
    by reflexivity.
  rewrite Heq. clear Heq.
  destruct (locked_section lockKey
              (JsError "Unable to acquire lock for booking creation") body w)
    as [(_ & Hr & Hd & _)
       |(Hc & Hf & Hl & Hres & Hdb & Hundo & Hclock & Hc' & Hf' & Hstore)].
  - reflexivity.
  - intros w0. subst body.
    destruct (locked_create_txn w0 bookingData flightIds) as (Hr & _).
    rewrite Hr. auto.
  - left. eauto.
  - set (w1 := with_redis _ _) in *.
    subst body.
    pose proof (locked_create_rows w1 bookingData flightIds) as Tcases.
    cbn zeta in Tcases. rewrite Hres, Hdb.
    destruct Tcases as [(He & Hd)|(Hok & Hfree & Hknown & Hb & Hbf & Hte & Hfl)];
      [left; auto|].
    right.
    match type of Hb with
    | _ = (_ ++ [?r])%list =>
        match type of Hte with
        | _ = (_ ++ [?e])%list => exists (bk_ref_id r), r, e
        end
    end.
    split; [exact Hok|]. split; [exact Hfree|]. split; [exact Hknown|].
    do 6 (split; [reflexivity|]).
    split; [exact Hb|]. split; [exact Hbf|]. split; [exact Hte|exact Hfl].
Qed.

Lemma events_count_snoc (d d' : DB) (ev : TimelineRow) (id : Z) :
  timeline_events d' = (timeline_events d ++ [ev])%list ->
  events_count d' id
  = events_count d id + if (te_booking_id ev =? id)%Z then 1 else 0.
Proof.
  intros Ht. unfold events_count. rewrite Ht, List.filter_app, length_app. cbn.
  destruct (te_booking_id ev =? id)%Z; cbn; lia.
Qed.

Lemma audited_after_create (d d' : DB) (row : BookingRow) (ev : TimelineRow) :
  schema_holds d -> audited d ->
  bk_id row = next_booking_id d -> bk_version row = 1 ->
  te_booking_id ev = next_booking_id d ->
  bookings d' = (bookings d ++ [row])%list ->
  timeline_events d' = (timeline_events d ++ [ev])%list ->
  audited d'.
Proof.
  intros [Hc Hk] Ha Hid Hv Hev Hb Ht. unfold audited. rewrite Hb.
  apply Forall_app. split.
  - pose proof (bookings_below_counter d Hc) as Hbelow.
    unfold audited in Ha. rewrite Forall_forall in Ha, Hbelow |- *.
    intros b Hin. rewrite (events_count_snoc d d' ev _ Ht), Hev.
    specialize (Hbelow b Hin).
    destruct (Z.eqb_spec (next_booking_id d) (bk_id b)); [lia|].
    rewrite Z.add_0_r. by apply Ha.
  - constructor; [|constructor].
    rewrite (events_count_snoc d d' ev _ Ht), Hev, Hid, Z.eqb_refl, Hv.
    destruct (stale_rows_below_counter d Hc) as [_ Hstale].
    unfold events_count. rewrite Hstale. reflexivity.
Qed.

Lemma audited_after_update (d : DB) refId row rest status location flightId
    description now :
  schema_holds d -> audited d ->
  rows_by_ref refId d = row :: rest ->
  audited
    (add_timeline_event (bk_id row) status location flightId description now
       (gated_update status refId (bk_version row) now d)).
Proof.
  intros [Hc Hk] Ha Hrows.
  assert (Hrow : In row (bookings d) /\ bk_ref_id row = refId).
  { assert (Hin : In row (rows_by_ref refId d)) by (rewrite Hrows; by left).
    unfold rows_by_ref in Hin. apply List.filter_In in Hin as [Hin Hr].
    split; [exact Hin|by apply String.eqb_eq]. }
  destruct Hrow as [Hin Href].
  unfold audited. cbn [bookings add_timeline_event gated_update set_bookings].
  apply Forall_forall. intros b' Hb'.
  apply list_elem_of_fmap in Hb' as (b & -> & Hb). apply list_elem_of_In in Hb.
  match goal with
  | |- events_count ?d' _ = _ =>
      rewrite (events_count_snoc (gated_update status refId (bk_version row) now d) d'
                 _ _ eq_refl)
  end.
  cbn [te_booking_id].
  assert (Hcount : forall id,
    events_count (gated_update status refId (bk_version row) now d) id
    = events_count d id) by reflexivity.
  unfold audited in Ha. rewrite Forall_forall in Ha.
  pose proof (Ha b ltac:(by apply list_elem_of_In)) as Hab.
  destruct (version_gate refId (bk_version row) b) eqn:Hgate.
  - apply andb_prop in Hgate as [Hr Hv]. apply String.eqb_eq in Hr.
    assert (b = row).
    { apply (NoDup_map_inj bk_ref_id (bookings d)); auto.
      - apply (bookings_ref_unique d Hk).
      - congruence. }
    subst b. cbn [bk_id bk_version bump]. rewrite Hcount, Z.eqb_refl. lia.
  - destruct (Z.eqb_spec (bk_id row) (bk_id b)) as [Hid|Hid].
    + assert (b = row).
      { apply (NoDup_map_inj bk_id (bookings d)); auto.
        apply (bookings_pk d Hk). }
      subst b. unfold version_gate in Hgate.
      rewrite Href, String.eqb_refl, Z.eqb_refl in Hgate. discriminate.
    + rewrite Hcount, Z.add_0_r. exact Hab.
Qed.

Lemma locked_step_audited (s : Step) (w : World Booking) :
  schema_holds (db w) -> audited (db w) -> audited (db (step s w)).
Proof.
  intros Hs Ha.
  destruct s as [[bookingData flightIds|r status location flightId description|r]|e];
    cbn [step].
  - destruct (locked_create_full w bookingData flightIds)
      as [(_ & ->)|(ref & row & ev & _ & _ & _ & Hid & _ & Hv & _ & Hev & _ & Hb & _ & Ht & _)];
      [exact Ha|].
    by eapply audited_after_create.
  - pose proof (locked_update_cases w (fun d => d) r status location flightId description)
      as Hcases. cbn zeta in Hcases.
    destruct Hcases as [(_ & _ & -> & _)|(_ & _ & _ & _ & _ & _ & _ & Hcases)];
      [exact Ha|].
    destruct Hcases as [(_ & _ & -> & _)|(row & rest & Hrows & Hcases)]; [exact Ha|].
    destruct Hcases as [(_ & _ & _ & -> & _)|(_ & Hcases)]; [exact Ha|].
    destruct Hcases as [(_ & _ & -> & _)|(_ & Hcases)]; [exact Ha|].
    destruct Hcases as [(_ & -> & _)|(_ & -> & _)]; [exact Ha|].
    by eapply audited_after_update.
  - destruct (locked_get_cases w r) as (-> & _). exact Ha.
  - by rewrite env_step_db.
Qed.

Lemma locked_run_audited (steps : list Step) (w : World Booking) :
  schema_holds (db w) -> (forall u, undo w = Some u -> schema_holds u) ->
  audited (db w) -> audited (db (run steps w)).
Proof.
  revert w. induction steps as [|s steps IH]; intros w Hd Hu Ha; cbn; [exact Ha|].
  apply IH.
  - apply (locked_run_keeps [s] w Hd Hu).
  - destruct s as [[bookingData flightIds|r status location flightId description|r]|e];
      cbn [step].
    + by apply locked_createBooking_keeps.
    + by apply locked_updateBookingStatus_keeps.
    + by apply locked_getBookingHistory_keeps.
    + destruct (env_step_keeps e w) as [_ ->]. exact Hu.
  - by apply locked_step_audited.
Qed.

(** X5. In the lock-protected service the timeline is a complete record of
    the status changes: from a store in which every booking has as many
    timeline events as its version says (an empty [bookings] table, for one),
    every sequence of calls and cache events ends in such a store, and the
    timeline that [getBookingHistory] reads for a reference code has exactly
    [version] entries. *)
Theorem timeline_has_one_event_per_version (steps : list Step) (w : World Booking)
    (refId : string) (b : Booking) (row : BookingRow) :
  schema_holds (db w) -> audited (db w) -> undo w = None ->
  fetch refId (db (run steps w)) = Some b ->
  stored refId (db (run steps w)) = Some row ->
  audited (db (run steps w))
  /\ Z.of_nat (length (b_timeline b)) = bk_version row.
Proof.
  intros Hs Ha Hu Hfetch Hstored.
  assert (Haud : audited (db (run steps w))).
  { apply locked_run_audited; auto. rewrite Hu. discriminate. }
  split; [exact Haud|].
  unfold fetch, stored in *.
  destruct (rows_by_ref refId (db (run steps w))) as [|r rest] eqn:Hrows; [discriminate|].
  cbn in Hstored. injection Hstored as ->. injection Hfetch as <-.
  cbn [b_timeline assemble]. rewrite length_map. unfold events_of.
  rewrite order_by_length.
  unfold audited in Haud. rewrite Forall_forall in Haud.
  apply Haud. apply list_elem_of_In.
  assert (Hin : In row (rows_by_ref refId (db (run steps w)))) by (rewrite Hrows; by left).
  unfold rows_by_ref in Hin. by apply List.filter_In in Hin as [Hin _].
Qed.

Lemma timeline_has_one_event_per_version_witness :
  let w : World Booking := Sample.world Sample.empty_db true ∅ in
  let steps :=
    [Call (CreateBooking Sample.lockedBookingData ["F1"]);
     Call (UpdateBookingStatus "AC3UWM4XP" DEPARTED (Some "DEL") None None);
     Call (UpdateBookingStatus "AC3UWM4XP" ARRIVED (Some "HYD") None None)] in
  exists b row,
    fetch "AC3UWM4XP" (db (run steps w)) = Some b
    /\ stored "AC3UWM4XP" (db (run steps w)) = Some row
    /\ bk_version row = 3
    /\ Z.of_nat (length (b_timeline b)) = bk_version row.
Proof.
  intros w steps. eexists _, _.
  split; [vm_compute; reflexivity|]. split; [vm_compute; reflexivity|].
  split; [reflexivity|].
  eapply (timeline_has_one_event_per_version steps w "AC3UWM4XP").
  - split; [apply empty_db_consistent|apply empty_db_keyed].
  - constructor.
  - reflexivity.
  - vm_compute. reflexivity.
  - vm_compute. reflexivity.
Defined.

(** ** The routes of the lock-protected service *)

Import ErrorHandler.

Lemma locked_update_outcomes (w : World Booking) racing refId status location
    flightId description :
  let res := updateBookingStatus racing refId status location flightId description w in
  (~ lock_free w refId
   /\ fst res = Throw (JsError "Unable to acquire lock for booking update")
   /\ db (snd res) = db w)
  \/ (lock_free w refId /\
      ((rows_by_ref refId (db w) = []
        /\ fst res = Throw (JsError "Booking not found")
        /\ db (snd res) = db w)
       \/ exists row rest, rows_by_ref refId (db w) = row :: rest /\
          ((status = CANCELLED /\ bk_status row = ARRIVED
            /\ fst res = Throw (JsError "Cannot cancel booking that has already arrived")
            /\ db (snd res) = db w)
           \/ (~ (status = CANCELLED /\ bk_status row = ARRIVED) /\
               ((List.filter (version_gate refId (bk_version row))
                   (bookings (racing (db w))) = []
                 /\ fst res = Throw (JsError "Concurrent update detected. Please retry.")
                 /\ db (snd res) = racing (db w))
                \/ (List.filter (version_gate refId (bk_version row))
                      (bookings (racing (db w))) <> []
                    /\ (exists code, fst res = Throw (SqlError code))
                    /\ db (snd res) = racing (db w))
                \/ (List.filter (version_gate refId (bk_version row))
                      (bookings (racing (db w))) <> []
                    /\ fst res = Ok {| ack_success := true; ack_refId := refId;
                                       ack_status := status |}
                    /\ db (snd res)
                       = add_timeline_event (bk_id row) status location flightId
                           (or_else description
                              ("Status updated to " +:+ status_name status))
                           (clock w / 1000)
                           (gated_update status refId (bk_version row) (clock w / 1000)
                              (racing (db w))))))))).
Proof.
  intros res. subst res. unfold lock_free.
  destruct (locked_update_cases w racing refId status location flightId description)
    as [(Hun & He & Hd & _)|(Hc & Hf & Hl & _ & _ & _ & _ & Hcases)].
  - left. split; [|auto]. intros (Hc & Hf & Hl).
    destruct Hun as [Hun|[Hun|[v Hun]]]; congruence.
  - right. split; [auto|].
    destruct Hcases as [(Hr & He & Hd & _)|(row & rest & Hrows & Hcases)]; [left; auto|].
    right. exists row, rest. split; [exact Hrows|].
    destruct Hcases as [(Hs & Hst & He & Hd & _)|(Hn & Hcases)]; [left; auto|].
    right. split; [exact Hn|].
    destruct Hcases as [(Hg & He & Hd & _)|(Hg & Hcases)]; [left; auto|].
    right. destruct Hcases as [(He & Hd & _)|(Hok & Hd & _)]; [left; auto|right; auto].
Qed.

Lemma errorHandler_status {A} (err : Err) :
  res_data (errorHandler err : Response A) = None
  /\ res_status (errorHandler err : Response A) <> 200.
Proof.
  unfold errorHandler.
  repeat match goal with
         | |- context [if ?c then _ else _] => destruct c
         end; cbn; split; auto; lia.
Qed.

Lemma patch_status_run (sqlMessage : string -> string) (w : World Booking) racing refId
    status location flight_id description :
  BookingRoutes.valid_refId refId = true ->
  BookingRoutes.patch_status sqlMessage racing refId status location flight_id
    description w
  = (Ok match fst (updateBookingStatus racing refId status location flight_id
                     description w) with
        | Ok ack => reply_data 200 ack
        | Throw error =>
            if includes (message_of sqlMessage error) "not found"
            then reply_error 404 (message_of sqlMessage error)
            else if includes (message_of sqlMessage error) "Cannot cancel"
                    || includes (message_of sqlMessage error) "Concurrent update"
            then reply_error 409 (message_of sqlMessage error)
            else errorHandler (thrown sqlMessage error)
        end,
     snd (updateBookingStatus racing refId status location flight_id description w)).
Proof.
  intros Hvalid. unfold BookingRoutes.patch_status. rewrite Hvalid. cbn [negb].
  unfold try_catch, bind, ret.
  destruct (updateBookingStatus racing refId status location flight_id description w)
    as [[ack|error] w1]; cbn [fst snd]; [reflexivity|].
  destruct (includes (message_of sqlMessage error) "not found"); [reflexivity|].
  destruct (_ || _); reflexivity.
Qed.

(** X7. [PATCH /:refId/status] of the lock-protected service answers
    400 to a reference code that is not 8 to 20 capitals and digits, without
    going to the service; 423 when the lock cannot be taken; 404 when there
    is no such booking; 409, with the message of the service, when an
    arrived booking is to be cancelled or when the version has moved under
    the update; and 200 with [{ success, refId, status }] exactly when
    [updateBookingStatus] has returned. In the first four cases the
    relational store is left as it was. *)
Theorem patch_status_replies (sqlMessage : string -> string) (w : World Booking)
    (racing : DB -> DB) (refId : string) (status : Status)
    (location flight_id description : option string) :
  let res :=
    BookingRoutes.patch_status sqlMessage racing refId status location flight_id
      description w in
  let served := updateBookingStatus racing refId status location flight_id description w in
  exists reply,
    fst res = Ok reply
    /\ (BookingRoutes.valid_refId refId = false ->
        reply = reply_error 400 "Invalid reference ID format" /\ snd res = w)
    /\ (BookingRoutes.valid_refId refId = true ->
        snd res = snd served
        /\ (res_status reply = 200 <-> is_ok (fst served) = true)
        /\ (forall ack, fst served = Ok ack -> reply = reply_data 200 ack)
        /\ (~ lock_free w refId ->
            reply = reply_error 423 "Resource locked, please try again"
            /\ db (snd res) = db w)
        /\ (lock_free w refId -> rows_by_ref refId (db w) = [] ->
            reply = reply_error 404 "Booking not found" /\ db (snd res) = db w)
        /\ (lock_free w refId ->
            forall row, stored refId (db w) = Some row ->
            (status = CANCELLED -> bk_status row = ARRIVED ->
             reply = reply_error 409 "Cannot cancel booking that has already arrived"
             /\ db (snd res) = db w)
            /\ (~ (status = CANCELLED /\ bk_status row = ARRIVED) ->
                List.filter (version_gate refId (bk_version row))
                  (bookings (racing (db w))) = [] ->
                reply = reply_error 409 "Concurrent update detected. Please retry."))).
Proof.
  intros res served. subst res.
  destruct (BookingRoutes.valid_refId refId) eqn:Hvalid.
  2:{ unfold BookingRoutes.patch_status. rewrite Hvalid. cbn [negb]. unfold ret.
      eexists. split; [reflexivity|]. split; [auto|discriminate]. }
  rewrite (patch_status_run sqlMessage w racing refId status location flight_id
             description Hvalid).
  fold served. cbn [fst snd].
  eexists. split; [reflexivity|]. split; [discriminate|]. intros _.
  split; [reflexivity|].
  pose proof (locked_update_outcomes w racing refId status location flight_id description)
    as Hout. cbn zeta in Hout. fold served in Hout.
  split.
  { destruct (fst served) as [ack|error]; cbn; [tauto|].
    split; [|discriminate]. intros H. exfalso. revert H.
    destruct (includes _ "not found"); [cbn; lia|].
    destruct (_ || _); [cbn; lia|]. apply errorHandler_status. }
  split.
  { intros ack ->. reflexivity. }
  split.
  { intros Hlock. destruct Hout as [(_ & -> & Hd)|(Hfree & _)]; [|contradiction].
    split; [reflexivity|exact Hd]. }
  split.
  { intros Hfree Hrows.
    destruct Hout as [(Hlock & _)|(_ & [(_ & -> & Hd)|(row & rest & Hr & _)])];
      [contradiction| |congruence].
    split; [reflexivity|exact Hd]. }
  intros Hfree row Hstored.
  destruct Hout as [(Hlock & _)|(_ & [(Hr & _)|(row' & rest & Hr & Hcases)])];
    [contradiction|unfold stored in Hstored; rewrite Hr in Hstored; discriminate|].
  assert (row' = row).
  { unfold stored in Hstored. rewrite Hr in Hstored. cbn in Hstored. congruence. }
  subst row'.
  split.
  - intros Hs Ha.
    destruct Hcases as [(_ & _ & -> & Hd)|(Hn & _)]; [|tauto].
    split; [reflexivity|exact Hd].
  - intros Hn Hgate.
    destruct Hcases as [(Hs & Ha & _)|(_ & [(_ & -> & _)|[(Hg & _)|(Hg & _)]])];
      [tauto|reflexivity|contradiction|contradiction].
Qed.

Lemma convenience_run (sqlMessage : string -> string) (w : World Booking) racing refId
    status location flight_id description :
  BookingRoutes.convenience sqlMessage racing refId status location flight_id
    description w
  = (Ok match fst (updateBookingStatus racing refId status location flight_id
                     (Some description) w) with
        | Ok ack => reply_data 200 ack
        | Throw error => errorHandler (thrown sqlMessage error)
        end,
     snd (updateBookingStatus racing refId status location flight_id
            (Some description) w)).
Proof.
  unfold BookingRoutes.convenience, try_catch, bind, ret.
  destruct (updateBookingStatus racing refId status location flight_id
              (Some description) w) as [[ack|error] w1]; reflexivity.
Qed.

(** X8. [POST /:refId/cancel] runs the same update as [PATCH] with status
    CANCELLED but leaves every error to [errorHandler]: it answers 423 when
    the lock cannot be taken, 404 when there is no such booking, 409 when the
    version has moved under the update, and 500 with
    ['Internal server error'] when the booking has arrived, the store being
    left as it was; it answers 200 exactly when the update has returned, and
    the timeline event then carries the description given or
    ['Booking cancelled']. *)
Theorem post_cancel_replies (sqlMessage : string -> string) (w : World Booking)
    (racing : DB -> DB) (refId : string) (description : option string) :
  let res := BookingRoutes.post_cancel sqlMessage racing refId description w in
  let text := or_else description "Booking cancelled" in
  let served := updateBookingStatus racing refId CANCELLED None None (Some text) w in
  exists reply,
    fst res = Ok reply
    /\ snd res = snd served
    /\ (res_status reply = 200 <-> is_ok (fst served) = true)
    /\ (~ lock_free w refId ->
        reply = reply_error 423 "Resource locked, please try again"
        /\ db (snd res) = db w)
    /\ (lock_free w refId -> rows_by_ref refId (db w) = [] ->
        reply = reply_error 404 "Booking not found" /\ db (snd res) = db w)
    /\ (lock_free w refId ->
        forall row, stored refId (db w) = Some row ->
        (bk_status row = ARRIVED ->
         reply = reply_error 500 "Internal server error" /\ db (snd res) = db w)
        /\ (bk_status row <> ARRIVED ->
            List.filter (version_gate refId (bk_version row))
              (bookings (racing (db w))) = [] ->
            reply = reply_error 409 "Concurrent modification detected, please retry")
        /\ (res_status reply = 200 ->
            reply = reply_data 200
                      {| ack_success := true; ack_refId := refId;
                         ack_status := CANCELLED |}
            /\ exists ev,
                 last (timeline_events (db (snd res))) = Some ev
                 /\ te_booking_id ev = bk_id row
                 /\ te_event_type ev = CANCELLED
                 /\ te_description ev = text)).
Proof.
  intros res text served. subst res. unfold BookingRoutes.post_cancel.
  rewrite convenience_run. fold text. fold served. cbn [fst snd].
  eexists. split; [reflexivity|]. split; [reflexivity|].
  pose proof (locked_update_outcomes w racing refId CANCELLED None None (Some text))
    as Hout. cbn zeta in Hout. fold served in Hout.
  assert (Htext : or_else (Some text) ("Status updated to " +:+ status_name CANCELLED)
                  = text).
  { subst text. destruct description as [d|]; cbn; [|reflexivity].
    destruct (truthy d) eqn:Hd; cbn; [by rewrite Hd|reflexivity]. }
  split.
  { destruct (fst served) as [ack|error]; cbn; [tauto|].
    split; [|discriminate]. intros H. exfalso. revert H. apply errorHandler_status. }
  split.
  { intros Hlock. destruct Hout as [(_ & -> & Hd)|(Hfree & _)]; [|contradiction].
    split; [reflexivity|exact Hd]. }
  split.
  { intros Hfree Hrows.
    destruct Hout as [(Hlock & _)|(_ & [(_ & -> & Hd)|(row & rest & Hr & _)])];
      [contradiction| |congruence].
    split; [reflexivity|exact Hd]. }
  intros Hfree row Hstored.
  destruct Hout as [(Hlock & _)|(_ & [(Hr & _)|(row' & rest & Hr & Hcases)])];
    [contradiction|unfold stored in Hstored; rewrite Hr in Hstored; discriminate|].
  assert (row' = row).
  { unfold stored in Hstored. rewrite Hr in Hstored. cbn in Hstored. congruence. }
  subst row'.
  split; [|split].
  - intros Ha.
    destruct Hcases as [(_ & _ & -> & Hd)|(Hn & _)]; [|tauto].
    split; [reflexivity|exact Hd].
  - intros Hn Hgate.
    destruct Hcases as [(Hs & Ha & _)|(_ & [(_ & -> & _)|[(Hg & _)|(Hg & _)]])];
      [tauto|reflexivity|contradiction|contradiction].
  - intros H200.
    destruct Hcases as [(_ & _ & He & _)|(_ & [(_ & He & _)|[(_ & [c He] & _)|(_ & Hok & Hd)]])].
    1-3: exfalso; rewrite He in H200; revert H200; apply errorHandler_status.
    rewrite Hok. split; [reflexivity|]. rewrite Hd. cbn [timeline_events add_timeline_event].
    rewrite last_snoc. eexists. split; [reflexivity|]. cbn. auto.
Qed.

(** ** The reference codes *)

Lemma digit36_char (d : Z) :
  0 <= d < 36 ->
  exists c, digit36 d = String c "" /\ BookingRoutes.upper_alnum c = true.
Proof.
  intros Hd. assert (Hk : exists k, (k < 36)%nat /\ d = Z.of_nat k).
  { exists (Z.to_nat d). split; lia. }
  destruct Hk as (k & Hk & ->).
  do 36 (destruct k as [|k]; [vm_compute; eauto|]). lia.
Qed.

Lemma append_assoc3 (a b c : string) : (a +:+ b) +:+ c = a +:+ (b +:+ c).
Proof.
  induction a as [|x a IH]; [reflexivity|].
  change (String x ((a +:+ b) +:+ c) = String x (a +:+ (b +:+ c))). by rewrite IH.
Qed.

Lemma append_empty_r (s : string) : s +:+ "" = s.
Proof.
  induction s as [|c s IH]; [reflexivity|].
  change (String c (s +:+ "") = String c s). by rewrite IH.
Qed.

Lemma length_append (a b : string) :
  String.length (a +:+ b) = (String.length a + String.length b)%nat.
Proof.
  induction a as [|x a IH]; [reflexivity|].
  change (S (String.length (a +:+ b)) = S (String.length a + String.length b)).
  by rewrite IH.
Qed.

Lemma chars_append (a b : string) :
  list_ascii_of_string (a +:+ b)
  = (list_ascii_of_string a ++ list_ascii_of_string b)%list.
Proof.
  induction a as [|x a IH]; [reflexivity|].
  change (x :: list_ascii_of_string (a +:+ b)
          = x :: (list_ascii_of_string a ++ list_ascii_of_string b)%list).
  by rewrite IH.
Qed.

Lemma to_base36_digits (k : nat) :
  forall fuel n acc,
    (S k <= fuel)%nat ->
    0 <= n -> 36 ^ Z.of_nat k <= Z.max n 1 -> n < 36 ^ Z.of_nat (S k) ->
    exists s,
      to_base36 fuel n acc = s +:+ acc
      /\ String.length s = S k
      /\ forallb BookingRoutes.upper_alnum (list_ascii_of_string s) = true.
Proof.
  induction k as [|k IH]; intros fuel n acc Hfuel Hn Hlo Hhi.
  - destruct fuel as [|fuel]; [lia|]. cbn [to_base36].
    change (36 ^ Z.of_nat 1) with 36 in Hhi.
    rewrite (Z.div_small n 36) by lia. cbn [Z.eqb].
    rewrite Z.mod_small by lia.
    destruct (digit36_char n ltac:(lia)) as (c & -> & Hc).
    exists (String c ""). cbn. rewrite Hc. auto.
  - destruct fuel as [|fuel]; [lia|]. cbn [to_base36].
    assert (H36 : 36 ^ Z.of_nat (S k) = 36 * 36 ^ Z.of_nat k).
    { rewrite Nat2Z.inj_succ, Z.pow_succ_r by lia. reflexivity. }
    assert (H36' : 36 ^ Z.of_nat (S (S k)) = 36 * 36 ^ Z.of_nat (S k)).
    { rewrite (Nat2Z.inj_succ (S k)), Z.pow_succ_r by lia. reflexivity. }
    assert (Hpos : 0 < 36 ^ Z.of_nat k) by (apply Z.pow_pos_nonneg; lia).
    assert (Hbig : 36 <= n) by lia.
    assert (Hq : 36 ^ Z.of_nat k <= n / 36 < 36 ^ Z.of_nat (S k)).
    { split.
      - apply Z.div_le_lower_bound; lia.
      - apply Z.div_lt_upper_bound; lia. }
    destruct (Z.eqb_spec (n / 36) 0) as [H0|_]; [lia|].
    destruct (IH fuel (n / 36) (digit36 (n mod 36) +:+ acc)) as (s & Hs & Hlen & Hchars);
      [lia|lia|lia|lia|].
    destruct (digit36_char (n mod 36)) as (c & Hc & Hcc).
    { apply Z.mod_pos_bound. lia. }
    exists (s +:+ String c "").
    rewrite Hs, Hc, append_assoc3. split; [reflexivity|].
    rewrite length_append, chars_append, forallb_app, Hlen, Hchars. cbn.
    rewrite Hcc. split; [lia|reflexivity].
Qed.

Lemma toString36_digits (k : nat) (n : Z) :
  36 ^ Z.of_nat k <= n < 36 ^ Z.of_nat (S k) ->
  exists s,
    toString36 n = s
    /\ String.length s = S k
    /\ forallb BookingRoutes.upper_alnum (list_ascii_of_string s) = true.
Proof.
  intros [Hlo Hhi].
  assert (Hpos : 0 < 36 ^ Z.of_nat k) by (apply Z.pow_pos_nonneg; lia).
  unfold toString36.
  destruct (to_base36_digits k (S (Z.to_nat (Z.log2 n))) n "") as (s & Hs & Hlen & Hc);
    try lia.
  - assert (Hpow : 2 ^ Z.of_nat k <= n).
    { etransitivity; [|exact Hlo]. apply Z.pow_le_mono_l. lia. }
    assert (Z.of_nat k <= Z.log2 n).
    { apply Z.log2_le_pow2; lia. }
    lia.
  - exists s. split; [|auto]. rewrite Hs. apply append_empty_r.
Qed.

Lemma toString36_timestamp (n : Z) :
  36 ^ 5 <= n < 36 ^ 14 ->
  (6 <= String.length (toString36 n) <= 14)%nat
  /\ forallb BookingRoutes.upper_alnum (list_ascii_of_string (toString36 n)) = true.
Proof.
  intros [Hlo Hhi].
  assert (Hk : exists k, (5 <= k <= 13)%nat
                         /\ 36 ^ Z.of_nat k <= n < 36 ^ Z.of_nat (S k)).
  { destruct (Z_lt_dec n (36 ^ 6)); [exists 5%nat; cbn; lia|].
    destruct (Z_lt_dec n (36 ^ 7)); [exists 6%nat; cbn; lia|].
    destruct (Z_lt_dec n (36 ^ 8)); [exists 7%nat; cbn; lia|].
    destruct (Z_lt_dec n (36 ^ 9)); [exists 8%nat; cbn; lia|].
    destruct (Z_lt_dec n (36 ^ 10)); [exists 9%nat; cbn; lia|].
    destruct (Z_lt_dec n (36 ^ 11)); [exists 10%nat; cbn; lia|].
    destruct (Z_lt_dec n (36 ^ 12)); [exists 11%nat; cbn; lia|].
    destruct (Z_lt_dec n (36 ^ 13)); [exists 12%nat; cbn; lia|].
    exists 13%nat; cbn; lia. }
  destruct Hk as (k & Hk & Hrange).
  destruct (toString36_digits k n Hrange) as (s & -> & Hlen & Hc).
  split; [lia|exact Hc].
Qed.

(** X9. Every reference code that [generateRefId] of the lock-protected
    service makes starts with [AC] and is accepted by the format check of
    its routes ([/^[A-Z0-9]{8,20}$/]), when the clock reads between [36^5]
    and [36^14] milliseconds and the draw of [Math.random] gives up to four
    capitals and digits, which is what
    [toString(36).substr(2, 4).toUpperCase()] makes of it. *)
Theorem generated_reference_codes_pass_the_format_check (w : World Booking) :
  36 ^ 5 <= clock w < 36 ^ 14 ->
  (String.length (next_random w) <= 4)%nat ->
  forallb BookingRoutes.upper_alnum (list_ascii_of_string (next_random w)) = true ->
  exists refId,
    generateRefId w = (Ok refId, with_entropy (tail (entropy w)) w)
    /\ refId = "AC" +:+ toString36 (clock w) +:+ next_random w
    /\ BookingRoutes.valid_refId refId = true
    /\ String.prefix "AC" refId = true.
Proof.
  intros Hclock Hrlen Hrchars.
  exists ("AC" +:+ toString36 (clock w) +:+ next_random w).
  split; [reflexivity|]. split; [reflexivity|].
  destruct (toString36_timestamp (clock w) Hclock) as [Hlen Hchars].
  set (t := toString36 (clock w)) in *.
  set (r := next_random w) in *.
  split; [|apply (prefix_append "AC")].
  unfold BookingRoutes.valid_refId.
  rewrite !chars_append, !forallb_app, Hchars, Hrchars, !length_append.
  change (String.length "AC") with 2%nat.
  apply andb_true_iff. split; [apply andb_true_iff; split|].
  - reflexivity.
  - apply Nat.leb_le. lia.
  - apply Nat.leb_le. lia.
Qed.

Lemma generated_reference_codes_pass_the_format_check_witness :
  let w : World Booking :=
    with_clock 1700000000000 (Sample.world Sample.empty_db true ∅) in
  fst (generateRefId w) = Ok "ACLOYW3V287K2Q"
  /\ BookingRoutes.valid_refId "ACLOYW3V287K2Q" = true.
Proof.
  intros w.
  destruct (generated_reference_codes_pass_the_format_check w)
    as (refId & Hrun & Hdef & Hvalid & _).
  - vm_compute. split; [discriminate|reflexivity].
  - vm_compute. lia.
  - reflexivity.
  - assert (Hval : refId = "ACLOYW3V287K2Q") by (rewrite Hdef; vm_compute; reflexivity).
    rewrite Hval in *. split; [by rewrite Hrun|exact Hvalid].
Defined.

(** ** The route finder *)

Lemma departure_leb_total (a b : FlightRow) :
  (fl_departure_datetime a <=? fl_departure_datetime b)%Z = false ->
  (fl_departure_datetime b <=? fl_departure_datetime a)%Z = true.
Proof. intros H. apply Z.leb_gt in H. apply Z.leb_le. lia. Qed.

(** X10. [getDirectFlights] returns exactly the flights from [origin] to
    [destination] that depart within the queried day and not before
    [NOW()], each once for each row of the table, as a route of type
    [direct] with no stop whose total duration is the flight's duration in
    whole minutes, ordered by departure; it changes nothing in the store. *)
Theorem getDirectFlights_sound_complete_ordered {J} (startOf_day endOf_day : Z -> Z)
    (w : World J) (origin destination : string) (departureDate : Z) :
  exists routes,
    fst (getDirectFlights startOf_day endOf_day origin destination departureDate w)
    = Ok routes
    /\ (forall r,
          In r routes <->
          exists f,
            In f (flights (db w))
            /\ fl_origin f = origin /\ fl_destination f = destination
            /\ startOf_day departureDate <= fl_departure_datetime f
               <= endOf_day departureDate
            /\ NOW w <= fl_departure_datetime f
            /\ r = {| dr_flight :=
                        {| fd_flight := f;
                           duration_minutes :=
                             TIMESTAMPDIFF_MINUTE (fl_departure_datetime f)
                               (fl_arrival_datetime f) |};
                      dr_route_type := "direct";
                      dr_total_duration_minutes :=
                        TIMESTAMPDIFF_MINUTE (fl_departure_datetime f)
                          (fl_arrival_datetime f);
                      dr_stops := 0 |})
    /\ length routes
       = length (List.filter
                   (direct_where origin destination (startOf_day departureDate)
                      (endOf_day departureDate) (NOW w))
                   (flights (db w)))
    /\ StronglySorted
         (fun a b => fl_departure_datetime (fd_flight (dr_flight a))
                     <= fl_departure_datetime (fd_flight (dr_flight b)))
         routes
    /\ db (snd (getDirectFlights startOf_day endOf_day origin destination
                  departureDate w)) = db w.
Proof.
  unfold getDirectFlights. unfold_db. unfold_m. cbn.
  change (NOW (with_trace _ w)) with (NOW w).
  eexists. split; [reflexivity|].
  unfold direct_query.
  set (leb := fun a b : FlightRow =>
                (fl_departure_datetime a <=? fl_departure_datetime b)%Z).
  set (keep := direct_where origin destination (startOf_day departureDate)
                 (endOf_day departureDate) (NOW w)).
  split; [|split; [|split; [|reflexivity]]].
  - intros r. split.
    + intros Hr. apply in_map_iff in Hr as (fd & <- & Hr).
      apply in_map_iff in Hr as (f & <- & Hin).
      apply (proj1 (order_by_In leb _ _)) in Hin. apply List.filter_In in Hin as [Hin Hk].
      subst keep. unfold direct_where in Hk. rewrite !andb_true_iff in Hk.
      destruct Hk as [[[Ho Hd] [Hs He]] Hn].
      apply String.eqb_eq in Ho, Hd. apply Z.leb_le in Hs, He, Hn.
      exists f. repeat split; auto.
    + intros (f & Hin & Ho & Hd & [Hs He] & Hn & ->).
      apply in_map_iff. exists (details_of f). split; [reflexivity|].
      apply in_map. apply (proj2 (order_by_In leb _ _)). apply List.filter_In. split; [exact Hin|].
      subst keep. unfold direct_where. rewrite !andb_true_iff.
      repeat split; try (by apply String.eqb_eq); by apply Z.leb_le.
  - by rewrite !length_map, order_by_length.
  - apply Sorted_StronglySorted.
    { intros a b c. lia. }
    rewrite List.map_map.
    apply (Sorted_fmap (fun f => direct_of (details_of f))
             (fun a b => leb a b = true)).
    { intros a b Hab. cbn. by apply Z.leb_le. }
    apply order_by_Sorted. apply departure_leb_total.
Qed.

(** X11. [getTransitRoutes] returns the best fifty: every pair of flights
    that meets at a hub and satisfies the [WHERE] clause is among the routes
    returned, or else fifty routes are returned and each of them comes no
    later than the pair in the order by total duration and first
    departure. *)
Theorem getTransitRoutes_returns_the_best_fifty {J} (startOf_day endOf_day : Z -> Z)
    (w : World J) (origin destination : string) (departureDate : Z)
    (f1 f2 : FlightRow) :
  In f1 (flights (db w)) -> In f2 (flights (db w)) ->
  fl_destination f1 = fl_origin f2 ->
  where_clause origin destination (startOf_day departureDate)
    (endOf_day departureDate) (NOW w) f1 f2 = true ->
  exists routes,
    fst (getTransitRoutes startOf_day endOf_day origin destination departureDate w)
    = Ok routes
    /\ (In (route_of (select_row f1 f2)) routes
        \/ (length routes = 50%nat
            /\ Forall (fun r => ordered r (route_of (select_row f1 f2))) routes)).
Proof.
  intros Hf1 Hf2 Hjoin Hwhere.
  unfold getTransitRoutes. unfold_db. unfold_m. cbn.
  change (NOW (with_trace _ w)) with (NOW w).
  eexists. split; [reflexivity|].
  unfold transit_query.
  set (all := order_by order_leb _).
  assert (Hin : In (select_row f1 f2) all).
  { subst all. apply (proj2 (order_by_In order_leb _ _)). apply in_flat_map. exists f1. split; [exact Hf1|].
    apply in_map. apply List.filter_In. split; [exact Hf2|].
    rewrite Hwhere, andb_true_r. by apply String.eqb_eq. }
  assert (Hsorted : StronglySorted ordered (map route_of all)).
  { apply Sorted_StronglySorted; [apply ordered_transitive|].
    apply (Sorted_fmap route_of (fun a b => order_leb a b = true) ordered);
      [intros a b; apply order_leb_ordered|].
    subst all. apply order_by_Sorted. apply order_leb_total. }
  rewrite <- (take_drop 50 all) in Hin, Hsorted.
  apply in_app_or in Hin as [Hin|Hin]; [left; by apply in_map|].
  right. split.
  - rewrite length_map, length_take.
    assert (length all > 50)%nat; [|lia].
    destruct (le_gt_dec (length all) 50) as [Hle|Hgt]; [|exact Hgt].
    rewrite drop_ge in Hin by lia. destruct Hin.
  - rewrite map_app in Hsorted. apply Forall_forall. intros r Hr.
    eapply StronglySorted_app_1_elem_of; [exact Hsorted|exact Hr|].
    apply list_elem_of_fmap. eexists. split; [reflexivity|by apply list_elem_of_In].
Qed.

Lemma getTransitRoutes_returns_the_best_fifty_witness :
  let w : World unit := Sample.world Sample.empty_db true ∅ in
  exists routes,
    fst (getTransitRoutes utc_startOf_day utc_endOf_day "DEL" "BLR" 40000 w) = Ok routes
    /\ In (route_of (select_row (Sample.flight "F1" "AI1" 36000 43200 "DEL" "HYD")
                       (Sample.flight "F2" "AI2" 50400 57600 "HYD" "BLR")))
         routes.
Proof.
  intros w.
  destruct (getTransitRoutes_returns_the_best_fifty utc_startOf_day utc_endOf_day w
              "DEL" "BLR" 40000
              (Sample.flight "F1" "AI1" 36000 43200 "DEL" "HYD")
              (Sample.flight "F2" "AI2" 50400 57600 "HYD" "BLR"))
    as (routes & Hok & Hcases).
  - left. reflexivity.
  - right. left. reflexivity.
  - reflexivity.
  - vm_compute. reflexivity.
  - exists routes. split; [exact Hok|].
    destruct Hcases as [Hin|[Hlen _]]; [exact Hin|].
    exfalso. vm_compute in Hok. injection Hok as <-. discriminate Hlen.
Defined.

Lemma getRoutes_cases (startOf_day endOf_day : Z -> Z) (format_date : Z -> string)
    (w : World Routes) (origin destination : string) (departureDate : Z) :
  let res := getRoutes startOf_day endOf_day format_date origin destination
               departureDate w in
  let key := routes_key origin destination (format_date departureDate) in
  let computed :=
    {| direct :=
         map direct_of
           (direct_query origin destination (startOf_day departureDate)
              (endOf_day departureDate) (NOW w) (flights (db w)));
       transit :=
         map route_of
           (transit_query origin destination (startOf_day departureDate)
              (endOf_day departureDate) (NOW w) (flights (db w))) |} in
  db (snd res) = db w
  /\ clock (snd res) = clock w
  /\ isConnected (redis (snd res)) = isConnected (redis w)
  /\ failing (redis (snd res)) = failing (redis w)
  /\ ((isConnected (redis w) = true /\ failing (redis w) = false
       /\ exists cached,
            store (redis w) !! key = Some (Json cached)
            /\ fst res = Ok cached
            /\ store (redis (snd res)) = store (redis w)
            /\ trace (snd res) = (trace w ++ [GET key])%list)
      \/ ((isConnected (redis w) = false \/ failing (redis w) = true
           \/ forall cached, store (redis w) !! key <> Some (Json cached))
          /\ fst res = Ok computed
          /\ store (redis (snd res))
             = if isConnected (redis w) && negb (failing (redis w))
               then <[key := Json computed]> (store (redis w))
               else store (redis w))).
Proof.
  intros res key computed. subst res.
  unfold getRoutes, getCachedFlightRoutes, cacheFlightRoutes, getDirectFlights,
    getTransitRoutes.
  fold key. unfold_db. unfold_m.
  destruct (isConnected (redis w)) eqn:Hc; cbn.
  2:{ rewrite ?Hc; cbn; repeat split; auto; right; repeat split; auto. }
  destruct (failing (redis w)) eqn:Hf; cbn.
  { rewrite ?Hc; cbn; rewrite ?Hf; cbn; repeat split; auto; right; repeat split; auto. }
  destruct (store (redis w) !! key) as [[s|cached]|] eqn:Hv; cbn.
  - rewrite ?Hc; cbn; rewrite ?Hf; cbn; repeat split; auto; right;
      repeat split; auto; right; right; intros c; congruence.
  - repeat split; auto; left; repeat split; auto; eauto.
  - rewrite ?Hc; cbn; rewrite ?Hf; cbn; repeat split; auto; right;
      repeat split; auto; right; right; intros c; congruence.
Qed.




(** X12. [getRoutes] is cache-first by origin, destination and day. With the
    cache client up, an entry under the key of the search is returned as it
    is, after one [GET] and without a query to the relational store; with no
    entry, the direct and the transit routes are computed from the store,
    cached together under the key and returned; so once a search has been
    answered, every search of the same pair on the same day gets the same
    answer for as long as the entry stays, whatever has changed in the
    flights table since. With the client down the routes are computed from
    the store and nothing is cached. The flights table is never changed. *)
Theorem getRoutes_is_cache_first (startOf_day endOf_day : Z -> Z)
    (format_date : Z -> string) (w : World Routes) (origin destination : string)
    (departureDate : Z) :
  let res := getRoutes startOf_day endOf_day format_date origin destination
               departureDate w in
  let key := routes_key origin destination (format_date departureDate) in
  let up := isConnected (redis w) && negb (failing (redis w)) in
  let computed :=
    {| direct :=
         map direct_of
           (direct_query origin destination (startOf_day departureDate)
              (endOf_day departureDate) (NOW w) (flights (db w)));
       transit :=
         map route_of
           (transit_query origin destination (startOf_day departureDate)
              (endOf_day departureDate) (NOW w) (flights (db w))) |} in
  exists routes,
    fst res = Ok routes
    /\ db (snd res) = db w
    /\ (up = true ->
        store (redis (snd res)) !! key = Some (Json routes)
        /\ (forall cached, store (redis w) !! key = Some (Json cached) ->
            routes = cached /\ trace (snd res) = (trace w ++ [GET key])%list)
        /\ (store (redis w) !! key = None -> routes = computed)
        /\ forall (w' : World Routes) (later : Z),
             format_date later = format_date departureDate ->
             isConnected (redis w') = true -> failing (redis w') = false ->
             store (redis w') !! key = store (redis (snd res)) !! key ->
             fst (getRoutes startOf_day endOf_day format_date origin destination
                    later w') = Ok routes)
    /\ (up = false -> routes = computed /\ store (redis (snd res)) = store (redis w)).
Proof.
  intros res key up computed.
  pose proof (getRoutes_cases startOf_day endOf_day format_date w origin destination
                departureDate) as Hcases.
  cbn zeta in Hcases. fold res key computed in Hcases.
  destruct Hcases as (Hdb & _ & _ & _ & Hcases).
  assert (Hhit : forall (w' : World Routes) later routes,
    format_date later = format_date departureDate ->
    isConnected (redis w') = true -> failing (redis w') = false ->
    store (redis w') !! key = Some (Json routes) ->
    fst (getRoutes startOf_day endOf_day format_date origin destination later w')
    = Ok routes).
  { intros w' later routes Hday Hc Hf Hentry.
    pose proof (getRoutes_cases startOf_day endOf_day format_date w' origin destination
                  later) as H'.
    cbn zeta in H'. rewrite Hday in H'. fold key in H'.
    destruct H' as (_ & _ & _ & _ & [(_ & _ & c & Hv & Hr & _)|([H|[H|H]] & _)]);
      try congruence; exfalso; by eapply H. }
  destruct Hcases as [(Hc & Hf & cached & Hv & Hr & Hs & Ht)|(Hmiss & Hr & Hs)].
  - exists cached. split; [exact Hr|]. split; [exact Hdb|].
    split; [|subst up; rewrite Hc, Hf; discriminate].
    intros _. rewrite Hs. split; [exact Hv|]. split.
    { intros c Hc'. split; [congruence|exact Ht]. }
    split; [congruence|].
    intros w' later Hday Hc' Hf' Hentry. apply Hhit; auto. congruence.
  - exists computed. split; [exact Hr|]. split; [exact Hdb|].
    fold up in Hs. split.
    + intros Hup. rewrite Hup in Hs. rewrite Hs. split; [apply lookup_insert_eq|].
      split.
      { intros c Hc'. exfalso. subst up. apply andb_prop in Hup as [Hc Hf].
        apply negb_true_iff in Hf.
        destruct Hmiss as [H|[H|H]]; try congruence; by eapply H. }
      split; [reflexivity|].
      intros w' later Hday Hc' Hf' Hentry. apply Hhit; auto.
      rewrite Hentry. apply lookup_insert_eq.
    + intros Hup. rewrite Hup in Hs. auto.
Qed.

(** ** Adding flights *)

Lemma insert_flight_rows_cases {J} (rows : list FlightRow) (w : World J) :
  (forallb flight_fits rows = false
   /\ insert_flight_rows rows w = (Throw (SqlError "ER_DATA_TOO_LONG"), w))
  \/ (forallb flight_fits rows = true /\ duplicate_flight rows (db w) = true
      /\ insert_flight_rows rows w = (Throw (SqlError "ER_DUP_ENTRY"), w))
  \/ (forallb flight_fits rows = true /\ duplicate_flight rows (db w) = false
      /\ insert_flight_rows rows w = (Ok tt, with_db (add_flights rows (db w)) w)).
Proof.
  unfold insert_flight_rows. unfold_db. unfold_m.
  destruct (forallb flight_fits rows); cbn; [|auto].
  destruct (duplicate_flight rows (db w)); cbn; auto.
Qed.

Lemma duplicate_flight_false (rows : list FlightRow) (d : DB) :
  duplicate_flight rows d = false ->
  NoDup (map fl_flight_id rows)
  /\ forall r f, In r rows -> In f (flights d) -> fl_flight_id f <> fl_flight_id r.
Proof.
  unfold duplicate_flight. intros H. apply orb_false_iff in H as [Hex Hnd].
  apply negb_false_iff, bool_decide_eq_true in Hnd. split; [exact Hnd|].
  intros r f Hr Hf Heq.
  apply not_true_iff_false in Hex. apply Hex.
  apply existsb_exists. exists r. split; [exact Hr|].
  apply existsb_exists. exists f. split; [exact Hf|]. by apply String.eqb_eq.
Qed.

Lemma add_flights_pk (rows : list FlightRow) (d : DB) :
  duplicate_flight rows d = false ->
  NoDup (map fl_flight_id (flights d)) ->
  NoDup (map fl_flight_id (flights (add_flights rows d))).
Proof.
  intros Hdup Hpk. destruct (duplicate_flight_false rows d Hdup) as [Hnd Hnew].
  cbn. rewrite map_app. apply NoDup_app. split; [exact Hpk|]. split; [|exact Hnd].
  intros id Hin Hin'.
  apply list_elem_of_fmap in Hin as (f & -> & Hf).
  apply list_elem_of_fmap in Hin' as (r & Heq & Hr).
  apply list_elem_of_In in Hf, Hr. by eapply Hnew.
Qed.

Section AddFlight.
Context {J : Type}.
Variable format_date : Z -> string.
Variable add_days : Z -> Z -> Z.

Lemma clear_days_spec (origin destination : string) (n : nat) :
  forall (i : Z) (w : World J),
    let res := clear_days format_date add_days origin destination i n w in
    let up := isConnected (redis w) && negb (failing (redis w)) in
    fst res = Ok tt
    /\ db (snd res) = db w /\ undo (snd res) = undo w /\ clock (snd res) = clock w
    /\ isConnected (redis (snd res)) = isConnected (redis w)
    /\ failing (redis (snd res)) = failing (redis w)
    /\ (forall k, store (redis (snd res)) !! k = None
                  \/ store (redis (snd res)) !! k = store (redis w) !! k)
    /\ (up = false -> store (redis (snd res)) = store (redis w))
    /\ (up = true ->
        forall j, i <= j < i + Z.of_nat n ->
          store (redis (snd res))
            !! routes_key origin destination (format_date (add_days (clock w) j)) = None
          /\ store (redis (snd res))
               !! routes_key destination origin (format_date (add_days (clock w) j))
             = None).
Proof.
  induction n as [|n IH]; intros i w; cbn zeta.
  { cbn. repeat split; auto; lia. }
  cbn [clear_days]. unfold del. unfold_m.
  destruct (isConnected (redis w)) eqn:Hc; cbn.
  2:{ rewrite Hc. cbn.
      specialize (IH (i + 1) w). cbn zeta in IH. rewrite Hc in IH. cbn in IH.
      destruct IH as (H1 & H2 & H3 & H4 & H5 & H6 & H7 & H8 & _).
      repeat split; auto; congruence. }
  destruct (failing (redis w)) eqn:Hf; cbn.
  { rewrite Hc. cbn. rewrite Hf. cbn.
    match goal with
    | |- context [clear_days _ _ _ _ _ n ?w1] => specialize (IH (i + 1) w1)
    end.
    cbn zeta in IH. cbn in IH. rewrite Hc, Hf in IH. cbn in IH.
    destruct IH as (H1 & H2 & H3 & H4 & H5 & H6 & H7 & H8 & _).
    repeat split; auto; congruence. }
  rewrite Hc. cbn. rewrite Hf. cbn.
  match goal with
  | |- context [clear_days _ _ _ _ _ n ?w1] => specialize (IH (i + 1) w1)
  end.
  cbn zeta in IH. cbn in IH. rewrite Hc, Hf in IH. cbn in IH.
  destruct IH as (H1 & H2 & H3 & H4 & H5 & H6 & H7 & _ & H9).
  set (k1 := routes_key origin destination (format_date (add_days (clock w) i))) in *.
  set (k2 := routes_key destination origin (format_date (add_days (clock w) i))) in *.
  assert (Hgone : forall k, (k = k1 \/ k = k2) ->
            delete k2 (delete k1 (store (redis w))) !! k = None).
  { intros k [->| ->].
    - destruct (decide (k2 = k1)) as [->|Hne]; [apply lookup_delete_eq|].
      rewrite lookup_delete_ne by exact Hne. apply lookup_delete_eq.
    - apply lookup_delete_eq. }
  assert (F1 := H7 k1). assert (F2 := H7 k2).
  rewrite (Hgone k1) in F1 by auto. rewrite (Hgone k2) in F2 by auto.
  repeat split; auto; try congruence.
  - intros k. destruct (H7 k) as [Hk|Hk]; [by left|]. rewrite Hk.
    destruct (decide (k = k1)) as [->|Hk1]; [left; apply Hgone; auto|].
    destruct (decide (k = k2)) as [->|Hk2]; [left; apply Hgone; auto|].
    right. by rewrite !lookup_delete_ne.
  - match goal with
    | Hj : _ <= ?j < _ |- _ =>
        destruct (Z.eq_dec j i) as [->|Hne]; [|apply (H9 eq_refl j); lia]
    end.
    destruct F1 as [F1|F1]; exact F1.
  - match goal with
    | Hj : _ <= ?j < _ |- _ =>
        destruct (Z.eq_dec j i) as [->|Hne]; [|apply (H9 eq_refl j); lia]
    end.
    destruct F2 as [F2|F2]; exact F2.
Qed.
End AddFlight.

Lemma duplicate_flight_single (f : FlightRow) (d : DB) :
  duplicate_flight [f] d
  = existsb (fun g => String.eqb (fl_flight_id g) (fl_flight_id f)) (flights d).
Proof.
  unfold duplicate_flight. cbn [existsb map].
  assert (H : bool_decide (NoDup [fl_flight_id f]) = true)
    by (apply bool_decide_eq_true; apply NoDup_singleton).
  rewrite H. cbn [negb]. by rewrite !orb_false_r.
Qed.

(** X13. [addFlight] stores the flight or changes nothing, and which of the
    two is decided by the flight and the table alone. With a column too long
    it throws [ER_DATA_TOO_LONG], with a [flight_id] that the table has it
    throws [ER_DUP_ENTRY], and both stores are as they were. Otherwise it
    returns [{ success: true, flight_id }]: the flight is appended to the
    table, whose primary key is kept, [getFlightById] returns it with its
    duration, and with the cache client up the cached routes between its
    origin and its destination, in both directions, are deleted for today
    and the six days after, so that the next [getRoutes] for one of these
    days reads the store and lists the flight among the direct routes of its
    day. *)
Theorem addFlight_stores_the_flight_and_clears_its_routes
    (startOf_day endOf_day : Z -> Z) (format_date : Z -> string)
    (add_days : Z -> Z -> Z) (w : World Routes) (flightData : FlightRow) :
  let res := addFlight format_date add_days flightData w in
  let origin := fl_origin flightData in
  let destination := fl_destination flightData in
  let up := isConnected (redis w) && negb (failing (redis w)) in
  let known :=
    existsb (fun f => String.eqb (fl_flight_id f) (fl_flight_id flightData))
      (flights (db w)) in
  (flight_fits flightData = false ->
   res = (Throw (SqlError "ER_DATA_TOO_LONG"), w))
  /\ (flight_fits flightData = true -> known = true ->
      res = (Throw (SqlError "ER_DUP_ENTRY"), w))
  /\ (flight_fits flightData = true -> known = false ->
      fst res = Ok {| added_success := true;
                      added_flight_id := fl_flight_id flightData |}
      /\ db (snd res) = add_flights [flightData] (db w)
      /\ (NoDup (map fl_flight_id (flights (db w))) ->
          NoDup (map fl_flight_id (flights (db (snd res)))))
      /\ fst (getFlightById (fl_flight_id flightData) (snd res))
         = Ok (Some (details_of flightData))
      /\ (up = false -> store (redis (snd res)) = store (redis w))
      /\ (up = true ->
          forall i, 0 <= i < 7 ->
            store (redis (snd res))
              !! routes_key origin destination
                   (format_date (add_days (clock w) i)) = None
            /\ store (redis (snd res))
                 !! routes_key destination origin
                      (format_date (add_days (clock w) i)) = None)
      /\ (up = true ->
          forall date i,
            0 <= i < 7 ->
            format_date date = format_date (add_days (clock w) i) ->
            startOf_day date <= fl_departure_datetime flightData <= endOf_day date ->
            NOW w <= fl_departure_datetime flightData ->
            exists routes,
              fst (getRoutes startOf_day endOf_day format_date origin destination
                     date (snd res)) = Ok routes
              /\ In (direct_of (details_of flightData)) (direct routes))).
Proof.
  intros res origin destination up known. subst res known.
  unfold addFlight, clearRouteCache.
  destruct (insert_flight_rows_cases [flightData] w)
    as [(Hfit & He)|[(Hfit & Hdup & He)|(Hfit & Hdup & He)]];
    cbn [forallb] in Hfit; rewrite andb_true_r in Hfit;
    try rewrite duplicate_flight_single in Hdup.
  - rewrite (bind_throw _ _ _ _ _ He).
    split; [reflexivity|]. split; intros; congruence.
  - rewrite (bind_throw _ _ _ _ _ He).
    split; [intros; congruence|]. split; [reflexivity|]. intros; congruence.
  - split; [intros; congruence|]. split; [intros; congruence|]. intros _ _.
    rewrite (bind_ok _ _ _ _ _ He).
    assert (Hdup' : duplicate_flight [flightData] (db w) = false)
      by (by rewrite duplicate_flight_single).
    destruct (duplicate_flight_false _ _ Hdup') as [_ Hnew].
    set (w1 := with_db (add_flights [flightData] (db w)) w).
    unfold bind.
    pose proof (clear_days_spec format_date add_days origin destination 7 0 w1) as Hclear.
    cbn zeta in Hclear. fold origin destination.
    destruct (clear_days format_date add_days origin destination 0 7 w1) as [r w2].
    cbn [fst snd] in Hclear.
    destruct Hclear as (-> & Hdb & _ & Hclock & Hc & Hf & _ & Hdown & Hup).
    cbn [fst snd]. unfold ret. cbn [fst snd].
    change (clock w1) with (clock w) in *. change (redis w1) with (redis w) in *.
    change (db w1) with (add_flights [flightData] (db w)) in *.
    fold up in Hdown, Hup.
    split; [reflexivity|]. split; [exact Hdb|].
    split; [rewrite Hdb; by apply add_flights_pk|].
    split.
    { unfold getFlightById. unfold_db. unfold_m. cbn. rewrite Hdb.
      unfold flights_by_id. cbn [flights add_flights].
      rewrite List.filter_app.
      rewrite (existsb_false_filter _ (flights (db w))).
      - cbn. by rewrite String.eqb_refl.
      - apply not_true_is_false. intros Hex.
        apply existsb_exists in Hex as (f & Hf' & Heq). apply String.eqb_eq in Heq.
        apply (Hnew flightData f); auto. by left. }
    split; [exact Hdown|]. split; [exact Hup|].
    intros Hupt date i Hi Hday [Hs Hend] Hnow.
    pose proof (getRoutes_cases startOf_day endOf_day format_date w2 origin destination
                  date) as Hget.
    cbn zeta in Hget.
    destruct Hget as (_ & _ & _ & _ & [(_ & _ & c & Hv & _)|(_ & Hr & _)]).
    { exfalso. rewrite Hday in Hv. destruct (Hup Hupt i Hi) as [Hnone _]. congruence. }
    eexists. split; [exact Hr|]. cbn [direct].
    apply in_map. unfold direct_query. apply in_map.
    apply (proj2 (order_by_In _ _ _)). apply List.filter_In. split.
    + rewrite Hdb. cbn. apply in_or_app. right. by left.
    + unfold direct_where, NOW. rewrite Hclock. fold (NOW w).
      rewrite !andb_true_iff. repeat split; try apply String.eqb_refl; by apply Z.leb_le.
Qed.

Lemma addFlight_stores_the_flight_and_clears_its_routes_witness :
  let w : World Routes := Sample.world Sample.empty_db true ∅ in
  let format_date := fun t => pretty (t / 86400000) in
  let add_days := fun t i => t + 86400000 * i in
  let direct := Sample.flight "F9" "AI9" 36000 57600 "DEL" "BLR" in
  let res := addFlight format_date add_days direct w in
  fst res = Ok {| added_success := true; added_flight_id := "F9" |}
  /\ fst (getFlightById "F9" (snd res)) = Ok (Some (details_of direct))
  /\ fst (addFlight format_date add_days direct (snd res))
     = Throw (SqlError "ER_DUP_ENTRY").
Proof.
  intros w format_date add_days direct res.
  destruct (addFlight_stores_the_flight_and_clears_its_routes utc_startOf_day
              utc_endOf_day format_date add_days w direct)
    as (_ & _ & Hnew).
  destruct (Hnew eq_refl eq_refl) as (Hok & _ & _ & Hget & _).
  split; [exact Hok|]. split; [exact Hget|].
  destruct (addFlight_stores_the_flight_and_clears_its_routes utc_startOf_day
              utc_endOf_day format_date add_days (snd res) direct)
    as (_ & Hdup & _).
  rewrite Hdup; [reflexivity|reflexivity|vm_compute; reflexivity].
Defined.

Section BulkAddFlights.
Context {J : Type}.
Variable sqlMessage : string -> string.

Lemma bulk_batch_cases (batch : list FlightRow) (w : World J) :
  let res :=
    try_catch
      (transaction (insert_flight_rows batch) ;;;
       ret (map (fun f => {| fr_flight_id := fl_flight_id f; fr_success := true;
                             fr_error := None |}) batch))
      (fun error =>
         ret (map (fun f => {| fr_flight_id := fl_flight_id f; fr_success := false;
                               fr_error := Some (message_of sqlMessage error) |})
                batch)) w in
  redis (snd res) = redis w /\ clock (snd res) = clock w
  /\ exists pushed,
       fst res = Ok pushed
       /\ map fr_flight_id pushed = map fl_flight_id batch
       /\ ((Forall (fun r => fr_success r = false) pushed /\ db (snd res) = db w)
           \/ (Forall (fun r => fr_success r = true) pushed
               /\ duplicate_flight batch (db w) = false
               /\ db (snd res) = add_flights batch (db w))).
Proof.
  intros res. subst res. unfold try_catch, bind, transaction.
  match goal with
  | |- context [insert_flight_rows batch ?w1] =>
      destruct (insert_flight_rows_cases batch w1)
        as [(Hfit & ->)|[(Hfit & Hdup & ->)|(Hfit & Hdup & ->)]]
  end; cbn.
  - split; [reflexivity|]. split; [reflexivity|]. eexists. split; [reflexivity|].
    rewrite map_map. cbn. split; [reflexivity|]. left. split; [|reflexivity].
    apply Forall_forall. intros r Hr. apply list_elem_of_fmap in Hr as (f & -> & _).
    reflexivity.
  - split; [reflexivity|]. split; [reflexivity|]. eexists. split; [reflexivity|].
    rewrite map_map. cbn. split; [reflexivity|]. left. split; [|reflexivity].
    apply Forall_forall. intros r Hr. apply list_elem_of_fmap in Hr as (f & -> & _).
    reflexivity.
  - split; [reflexivity|]. split; [reflexivity|]. eexists. split; [reflexivity|].
    rewrite map_map. cbn. split; [reflexivity|]. right. split; [|auto].
    apply Forall_forall. intros r Hr. apply list_elem_of_fmap in Hr as (f & -> & _).
    reflexivity.
Qed.

Lemma add_flights_nil (d : DB) : add_flights [] d = d.
Proof. destruct d. unfold add_flights. cbn. by rewrite app_nil_r. Qed.

Lemma add_flights_app (a b : list FlightRow) (d : DB) :
  add_flights b (add_flights a d) = add_flights (a ++ b) d.
Proof. unfold add_flights. cbn. by rewrite app_assoc. Qed.

Lemma stored_flights_app (a b : list FlightRow) (ra rb : list FlightResult) :
  length a = length ra ->
  stored_flights (a ++ b) (ra ++ rb) = (stored_flights a ra ++ stored_flights b rb)%list.
Proof.
  unfold stored_flights. revert ra.
  induction a as [|x a IH]; intros [|r ra] Hlen; try discriminate; [reflexivity|].
  cbn. destruct (fr_success r); cbn; rewrite IH; auto.
Qed.

Lemma stored_flights_none (a : list FlightRow) (ra : list FlightResult) :
  Forall (fun r => fr_success r = false) ra -> stored_flights a ra = [].
Proof.
  unfold stored_flights. revert ra. induction a as [|x a IH]; intros [|r ra] H; cbn;
    try reflexivity.
  apply Forall_cons in H as [Hr H]. rewrite Hr. by apply IH.
Qed.

Lemma stored_flights_all (a : list FlightRow) (ra : list FlightResult) :
  length a = length ra ->
  Forall (fun r => fr_success r = true) ra -> stored_flights a ra = a.
Proof.
  unfold stored_flights. revert ra. induction a as [|x a IH]; intros [|r ra] Hlen H; cbn;
    try reflexivity; try discriminate.
  apply Forall_cons in H as [Hr H]. rewrite Hr. cbn. f_equal. apply IH; auto.
Qed.

Lemma bulk_batches_spec (fuel : nat) :
  forall (fs : list FlightRow) (w : World J),
    (length fs <= fuel)%nat ->
    exists results,
      fst (FlightService.bulk_batches sqlMessage fuel fs w) = Ok results
      /\ map fr_flight_id results = map fl_flight_id fs
      /\ db (snd (FlightService.bulk_batches sqlMessage fuel fs w))
         = add_flights (stored_flights fs results) (db w)
      /\ (NoDup (map fl_flight_id (flights (db w))) ->
          NoDup (map fl_flight_id
                   (flights
                      (db (snd (FlightService.bulk_batches sqlMessage fuel fs w))))))
      /\ redis (snd (FlightService.bulk_batches sqlMessage fuel fs w)) = redis w.
Proof.
  induction fuel as [|fuel IH]; intros fs w Hlen.
  { destruct fs as [|x l]; [|cbn in Hlen; lia].
    exists []. cbn. rewrite add_flights_nil. auto. }
  destruct fs as [|x l].
  { exists []. cbn. rewrite add_flights_nil. auto. }
  cbn [FlightService.bulk_batches].
  set (all := x :: l) in *.
  pose proof (bulk_batch_cases (take 100 all) w) as Hbatch. cbn zeta in Hbatch.
  match type of Hbatch with
  | context [try_catch ?body ?handler w] =>
      set (step := try_catch body handler) in *
  end.
  destruct (step w) as [r1 w1] eqn:Hstep. cbn [fst snd] in Hbatch.
  destruct Hbatch as (Hredis & _ & pushed & -> & Hids & Hcases).
  rewrite (bind_ok _ _ _ _ _ Hstep).
  destruct (IH (drop 100 all) w1) as (results & Hres & Hrids & Hdb & Hpk & Hr2).
  { rewrite length_drop. subst all. cbn in *. lia. }
  destruct (FlightService.bulk_batches sqlMessage fuel (drop 100 all) w1)
    as [r2 w2] eqn:Hrest.
  cbn [fst snd] in *. subst r2.
  unfold bind. rewrite Hrest. unfold ret. cbn [fst snd].
  assert (Hlens : length (take 100 all) = length pushed).
  { rewrite <- (length_map fl_flight_id), <- Hids. by rewrite length_map. }
  exists (pushed ++ results)%list.
  split; [reflexivity|]. split.
  { rewrite map_app, Hids, Hrids, <- map_app. by rewrite take_drop. }
  assert (Hsplit : stored_flights all (pushed ++ results)
                   = (stored_flights (take 100 all) pushed
                      ++ stored_flights (drop 100 all) results)%list).
  { rewrite <- (stored_flights_app _ _ _ _ Hlens). by rewrite take_drop. }
  rewrite Hsplit.
  destruct Hcases as [(Hall & Hd1)|(Hall & Hdup & Hd1)].
  - split; [|split; [|congruence]].
    + rewrite (stored_flights_none _ _ Hall). cbn [app]. by rewrite Hdb, Hd1.
    + intros Hnd. apply Hpk. by rewrite Hd1.
  - split; [|split; [|congruence]].
    + rewrite (stored_flights_all _ _ Hlens Hall). by rewrite Hdb, Hd1, add_flights_app.
    + intros Hnd. apply Hpk. rewrite Hd1. by apply add_flights_pk.
Qed.
End BulkAddFlights.


Section BulkAddFlightsBatches.
Context {J : Type}.
Variable sqlMessage : string -> string.

Lemma bulk_batches_uniform (fuel : nat) :
  forall (fs : list FlightRow) (w : World J) results,
    fst (FlightService.bulk_batches sqlMessage fuel fs w) = Ok results ->
    forall i j r1 r2,
      results !! i = Some r1 -> results !! j = Some r2 ->
      (i / 100 = j / 100)%nat ->
      fr_success r1 = fr_success r2.
Proof.
  induction fuel as [|fuel IH]; intros fs w results Hres i j r1 r2 Hi Hj Hij.
  { destruct fs; cbn in Hres; injection Hres as <-; discriminate. }
  destruct fs as [|x l]; [cbn in Hres; injection Hres as <-; discriminate|].
  cbn [FlightService.bulk_batches] in Hres.
  set (all := x :: l) in *.
  pose proof (bulk_batch_cases sqlMessage (take 100%nat all) w) as Hbatch.
  cbn zeta in Hbatch.
  match type of Hbatch with
  | context [try_catch ?body ?handler w] =>
      set (step := try_catch body handler) in *
  end.
  destruct (step w) as [r0 w1] eqn:Hstep. cbn [fst snd] in Hbatch.
  destruct Hbatch as (_ & _ & pushed & -> & Hids & Hcases).
  rewrite (bind_ok _ _ _ _ _ Hstep) in Hres.
  unfold bind in Hres.
  destruct (FlightService.bulk_batches sqlMessage fuel (drop 100 all) w1)
    as [[rest|e] w2] eqn:Hrest; [|discriminate].
  cbn in Hres. injection Hres as <-.
  assert (Hlen : (length pushed <= 100)%nat).
  { rewrite <- (length_map fr_flight_id), Hids, length_map, length_take. lia. }
  assert (Hfull : (length pushed < 100)%nat -> rest = []).
  { intros Hshort.
    assert (Hall : (length all < 100)%nat).
    { rewrite <- (length_map fr_flight_id), Hids, length_map, length_take in Hshort.
      lia. }
    assert (Hd : drop 100 all = []) by (apply drop_ge; lia).
    rewrite Hd in Hrest. destruct fuel; cbn in Hrest; unfold ret in Hrest; congruence. }
  assert (Hsame : forall a b, In a pushed -> In b pushed -> fr_success a = fr_success b).
  { intros a b Ha Hb. apply list_elem_of_In in Ha, Hb.
    destruct Hcases as [(Hall & _)|(Hall & _)]; rewrite Forall_forall in Hall;
      rewrite (Hall a Ha), (Hall b Hb); reflexivity. }
  destruct (le_lt_dec 100%nat i) as [Hi100|Hi100].
  - assert (Hj100 : (100 <= j)%nat).
    { destruct (le_lt_dec 100%nat j) as [H|H]; [exact H|].
      rewrite (Nat.div_small j 100%nat) in Hij by exact H.
      apply Nat.div_small_iff in Hij; lia. }
    assert (Hp : length pushed = 100%nat).
    { destruct (Nat.eq_dec (length pushed) 100%nat) as [H|H]; [exact H|].
      rewrite (Hfull ltac:(lia)), app_nil_r in Hi.
      apply lookup_lt_Some in Hi. lia. }
    rewrite lookup_app_r in Hi, Hj by lia. rewrite Hp in Hi, Hj.
    apply (IH (drop 100 all) w1 rest ltac:(by rewrite Hrest) (i - 100)%nat (j - 100)%nat);
      auto.
    replace i with ((i - 100) + 1 * 100)%nat in Hij at 1 by lia.
    replace j with ((j - 100) + 1 * 100)%nat in Hij at 1 by lia.
    rewrite !Nat.div_add in Hij by lia. lia.
  - assert (Hj100 : (j < 100)%nat).
    { rewrite (Nat.div_small i 100%nat) in Hij by exact Hi100.
      symmetry in Hij. apply Nat.div_small_iff in Hij; lia. }
    assert (Hin : forall k r, (k < 100)%nat -> (pushed ++ rest)%list !! k = Some r ->
              In r pushed).
    { intros k r Hk Hr.
      destruct (le_lt_dec (length pushed) k) as [Hge|Hlt].
      - rewrite (Hfull ltac:(lia)), app_nil_r in Hr.
        apply lookup_lt_Some in Hr. lia.
      - rewrite lookup_app_l in Hr by exact Hlt.
        apply list_elem_of_In. by eapply list_elem_of_lookup_2. }
    apply Hsame; [apply (Hin i r1 Hi100 Hi)|apply (Hin j r2 Hj100 Hj)].
Qed.
End BulkAddFlightsBatches.

(** X14. [bulkAddFlights] never throws and its report says what it stored:
    the results name the flights in the order given, and the flights table
    afterwards is the table before followed by exactly the flights reported
    with [success: true], in that order; a flight reported as failed was not
    added, and the primary key of the table is kept. Each batch of a hundred
    is stored as a whole or not at all: the results of a batch all carry the
    same [success]. *)
Theorem bulkAddFlights_reports_what_it_stored {J} (sqlMessage : string -> string)
    (w : World J) (fs : list FlightRow) :
  exists results,
    fst (bulkAddFlights sqlMessage fs w) = Ok results
    /\ map fr_flight_id results = map fl_flight_id fs
    /\ db (snd (bulkAddFlights sqlMessage fs w))
       = add_flights (stored_flights fs results) (db w)
    /\ (NoDup (map fl_flight_id (flights (db w))) ->
        NoDup (map fl_flight_id (flights (db (snd (bulkAddFlights sqlMessage fs w))))))
    /\ redis (snd (bulkAddFlights sqlMessage fs w)) = redis w
    /\ (forall i j r1 r2,
          results !! i = Some r1 -> results !! j = Some r2 ->
          (i / 100 = j / 100)%nat -> fr_success r1 = fr_success r2).
Proof.
  unfold bulkAddFlights.
  destruct (bulk_batches_spec sqlMessage (length fs) fs w (le_n _))
    as (results & Hres & Hids & Hdb & Hpk & Hredis).
  exists results. repeat (split; [assumption|]).
  by apply (bulk_batches_uniform sqlMessage (length fs) fs w).
Qed.

(** ** Bulk updates *)

Lemma locked_update_row refId (w : World Booking) r status location flightId
    description row :
  stored refId (db w) = Some row ->
  let res := updateBookingStatus (fun d => d) r status location flightId description w in
  exists row',
    stored refId (db (snd res)) = Some row'
    /\ if String.eqb r refId && is_ok (fst res)
       then bk_version row' = bk_version row + 1 /\ bk_status row' = status
       else row' = row.
Proof.
  intros Hrow res. subst res.
  pose proof (locked_update_outcomes w (fun d => d) r status location flightId description)
    as Hout. cbn zeta in Hout.
  assert (Hfail : forall e,
    fst (updateBookingStatus (fun d => d) r status location flightId description w)
    = Throw e ->
    db (snd (updateBookingStatus (fun d => d) r status location flightId description w))
    = db w ->
    exists row',
      stored refId
        (db (snd (updateBookingStatus (fun d => d) r status location flightId
                    description w))) = Some row'
      /\ if String.eqb r refId
            && is_ok (fst (updateBookingStatus (fun d => d) r status location flightId
                             description w))
         then bk_version row' = bk_version row + 1 /\ bk_status row' = status
         else row' = row).
  { intros e He Hd. rewrite He, Hd, andb_false_r. eauto. }
  destruct Hout as [(_ & He & Hd)|(_ & [(_ & He & Hd)|(row0 & rest & Hrows & Hcases)])];
    [by eapply Hfail|by eapply Hfail|].
  destruct Hcases as [(_ & _ & He & Hd)|(_ & [(_ & He & Hd)|[(_ & [c He] & Hd)|(_ & Hok & Hd)]])];
    [by eapply Hfail|by eapply Hfail|by eapply Hfail|].
  rewrite Hok, Hd. cbn [is_ok]. rewrite andb_true_r.
  unfold stored. rewrite rows_by_ref_add_timeline_event.
  destruct (String.eqb r refId) eqn:Hr.
  - apply String.eqb_eq in Hr. subst r.
    pose proof (stored_rows _ _ _ _ Hrows) as Hs0.
    assert (row0 = row) by congruence. subst row0.
    pose proof (stored_gated_update_same refId status (clock w / 1000) (db w) row Hs0)
      as Hs.
    unfold stored in Hs. rewrite Hs. eexists. split; [reflexivity|]. cbn. auto.
  - apply String.eqb_neq in Hr.
    rewrite rows_by_ref_gated_update_other by exact Hr.
    exists row. split; [exact Hrow|reflexivity].
Qed.

Section BulkUpdate.
Variable sqlMessage : string -> string.

Lemma bulk_items_spec (batch : list string) status location :
  forall (w : World Booking),
    exists results,
      fst (bulk_items sqlMessage batch status location w) = Ok results
      /\ map br_refId results = batch
      /\ forall refId row,
           stored refId (db w) = Some row ->
           exists row',
             stored refId (db (snd (bulk_items sqlMessage batch status location w)))
             = Some row'
             /\ bk_version row' = bk_version row + successes refId results
             /\ (successes refId results = 0 -> row' = row)
             /\ (0 < successes refId results -> bk_status row' = status).
Proof.
  induction batch as [|r batch IH]; intros w.
  { exists []. cbn. repeat split; auto. intros refId row Hrow. exists row.
    unfold successes. cbn. repeat split; auto; lia. }
  cbn [bulk_items].
  set (item := try_catch _ _).
  assert (Hitem : exists result,
    item w = (Ok result,
              snd (updateBookingStatus (fun d => d) r status location None None w))
    /\ br_refId result = r
    /\ br_success result
       = is_ok (fst (updateBookingStatus (fun d => d) r status location None None w))).
  { subst item. unfold try_catch, bind, ret.
    destruct (updateBookingStatus (fun d => d) r status location None None w)
      as [[ack|e] w1]; eexists; repeat split. }
  destruct Hitem as (result & Hrun & Hid & Hsuccess).
  rewrite (bind_ok _ _ _ _ _ Hrun).
  set (w1 := snd (updateBookingStatus (fun d => d) r status location None None w)) in *.
  destruct (IH w1) as (results & Hres & Hids & Hrows).
  unfold bind.
  destruct (bulk_items sqlMessage batch status location w1) as [r2 w2] eqn:Hrest.
  cbn [fst snd] in *. subst r2. unfold ret. cbn [fst snd].
  exists (result :: results). split; [reflexivity|].
  split; [cbn; by rewrite Hid, Hids|].
  intros refId row Hrow.
  destruct (locked_update_row refId w r status location None None row Hrow)
    as (row1 & Hrow1 & Hstep).
  fold w1 in Hrow1.
  destruct (Hrows refId row1 Hrow1) as (row' & Hrow' & Hv & Hzero & Hpos).
  exists row'. split; [exact Hrow'|].
  assert (Hcount : successes refId (result :: results)
                   = (if String.eqb r refId
                         && is_ok (fst (updateBookingStatus (fun d => d) r status
                                          location None None w))
                      then 1 else 0) + successes refId results).
  { unfold successes. cbn [List.filter]. rewrite Hid, Hsuccess.
    destruct (String.eqb r refId && _); cbn [length]; lia. }
  assert (Hnonneg : 0 <= successes refId results) by (unfold successes; lia).
  rewrite Hcount.
  destruct (String.eqb r refId && _).
  - destruct Hstep as [Hv1 Hs1]. split; [lia|]. split; [lia|].
    intros _. destruct (Z.eq_dec (successes refId results) 0) as [H0|H0].
    + rewrite (Hzero H0). exact Hs1.
    + apply Hpos. lia.
  - subst row1. split; [lia|]. split; [intros H; apply Hzero; lia|].
    intros H. apply Hpos. lia.
Qed.
End BulkUpdate.

Lemma successes_app refId (a b : list BulkResult) :
  successes refId (a ++ b) = successes refId a + successes refId b.
Proof. unfold successes. rewrite List.filter_app, length_app. lia. Qed.

Lemma successes_nonneg refId (a : list BulkResult) : 0 <= successes refId a.
Proof. unfold successes. lia. Qed.

Lemma reported_nil status (d : DB) : reported status [] d d.
Proof.
  intros refId row Hrow. exists row. unfold successes. cbn.
  repeat split; auto; lia.
Qed.

Lemma reported_app status (a b : list BulkResult) (d d1 d2 : DB) :
  reported status a d d1 -> reported status b d1 d2 -> reported status (a ++ b) d d2.
Proof.
  intros Ha Hb refId row Hrow.
  destruct (Ha refId row Hrow) as (row1 & Hrow1 & Hv1 & Hz1 & Hp1).
  destruct (Hb refId row1 Hrow1) as (row2 & Hrow2 & Hv2 & Hz2 & Hp2).
  pose proof (successes_nonneg refId a). pose proof (successes_nonneg refId b).
  exists row2. rewrite successes_app. split; [exact Hrow2|]. split; [lia|]. split.
  - intros Hzero. rewrite Hz2 by lia. apply Hz1. lia.
  - intros Hpos. destruct (Z.eq_dec (successes refId b) 0) as [Hb0|Hb0].
    + rewrite (Hz2 Hb0). apply Hp1. lia.
    + apply Hp2. lia.
Qed.

Section BulkBatches.
Variable sqlMessage : string -> string.

Lemma bulk_batch_spec (batch : list string) status location (w : World Booking) :
  let step :=
    try_catch
      (transaction (bulk_items sqlMessage batch status location))
      (fun error =>
         ret (map (fun refId =>
                     {| br_refId := refId; br_success := false;
                        br_error := Some (message_of sqlMessage error) |})
                batch)) in
  exists pushed,
    fst (step w) = Ok pushed
    /\ map br_refId pushed = batch
    /\ reported status pushed (db w) (db (snd (step w))).
Proof.
  intros step. subst step. unfold try_catch, transaction.
  match goal with
  | |- context [bulk_items sqlMessage batch status location ?w0] =>
      destruct (bulk_items_spec sqlMessage batch status location w0)
        as (results & Hres & Hids & Hrows);
      destruct (bulk_items sqlMessage batch status location w0) as [r1 w1]
  end.
  cbn [fst snd] in *. subst r1. cbn [fst snd].
  exists results. split; [reflexivity|]. split; [exact Hids|]. exact Hrows.
Qed.

Lemma locked_bulk_batches_spec (fuel : nat) :
  forall (refIds : list string) status location (w : World Booking),
    (length refIds <= fuel)%nat ->
    exists results,
      fst (LockedBookingService.bulk_batches sqlMessage fuel refIds status location w)
      = Ok results
      /\ map br_refId results = refIds
      /\ reported status results (db w)
           (db (snd (LockedBookingService.bulk_batches sqlMessage fuel refIds status
                       location w))).
Proof.
  induction fuel as [|fuel IH]; intros refIds status location w Hlen.
  { destruct refIds as [|x l]; [|cbn in Hlen; lia].
    exists []. cbn. repeat split; auto. apply reported_nil. }
  destruct refIds as [|x l].
  { exists []. cbn. repeat split; auto. apply reported_nil. }
  cbn [LockedBookingService.bulk_batches].
  set (all := x :: l) in *.
  pose proof (bulk_batch_spec (take 10 all) status location w) as Hbatch.
  cbn zeta in Hbatch.
  match type of Hbatch with
  | context [try_catch ?body ?handler w] =>
      set (step := try_catch body handler) in *
  end.
  destruct (step w) as [r1 w1] eqn:Hstep. cbn [fst snd] in Hbatch.
  destruct Hbatch as (pushed & -> & Hids & Hrep).
  rewrite (bind_ok _ _ _ _ _ Hstep).
  destruct (IH (drop 10 all) status location w1) as (results & Hres & Hrids & Hrep2).
  { rewrite length_drop. subst all. cbn in *. lia. }
  unfold bind.
  destruct (LockedBookingService.bulk_batches sqlMessage fuel (drop 10 all) status
              location w1) as [r2 w2] eqn:Hrest.
  cbn [fst snd] in *. subst r2. unfold ret. cbn [fst snd].
  exists (pushed ++ results)%list. split; [reflexivity|]. split.
  - rewrite map_app, Hids, Hrids. apply take_drop.
  - by eapply reported_app.
Qed.
End BulkBatches.

(** X15. [bulkUpdateStatus] throws ['Invalid refIds array'] on an empty array
    before it touches anything. Otherwise it returns one result for every
    reference code, in the order given, whatever fails on the way, and the
    report is true to the store: the version of a booking has grown by the
    number of results that report a successful update of it; with no such
    result its row is as it was; with one it has the new status. *)
Theorem bulkUpdateStatus_reports_what_it_did (sqlMessage : string -> string)
    (w : World Booking) (refIds : list string) (status : Status)
    (location : option string) :
  let res := bulkUpdateStatus sqlMessage refIds status location w in
  (refIds = [] -> res = (Throw (JsError "Invalid refIds array"), w))
  /\ (refIds <> [] ->
      exists results,
        fst res = Ok results
        /\ map br_refId results = refIds
        /\ forall refId row,
             stored refId (db w) = Some row ->
             exists row',
               stored refId (db (snd res)) = Some row'
               /\ bk_version row' = bk_version row + successes refId results
               /\ (successes refId results = 0 -> row' = row)
               /\ (0 < successes refId results -> bk_status row' = status)).
Proof.
  intros res. subst res. unfold bulkUpdateStatus. split.
  - intros ->. reflexivity.
  - intros Hne. destruct refIds as [|x l]; [congruence|].
    cbn [length Nat.eqb].
    destruct (locked_bulk_batches_spec sqlMessage (S (length l)) (x :: l) status
                location w (le_n _)) as (results & Hres & Hids & Hrep).
    exists results. split; [exact Hres|]. split; [exact Hids|]. exact Hrep.
Qed.

Lemma bulkUpdateStatus_reports_what_it_did_witness :
  let w : World Booking :=
    run [Call (CreateBooking Sample.lockedBookingData ["F1"])]
      (Sample.world Sample.empty_db true ∅) in
  let res := bulkUpdateStatus (fun code => code) ["AC3UWM4XP"; "NOSUCHREF"; "AC3UWM4XP"]
               DEPARTED (Some "DEL") w in
  exists results,
    fst res = Ok results
    /\ map br_success results = [true; false; true]
    /\ stored_version "AC3UWM4XP" (db (snd res)) = Some 3.
Proof.
  intros w res.
  destruct (proj2 (bulkUpdateStatus_reports_what_it_did (fun code => code) w
                     ["AC3UWM4XP"; "NOSUCHREF"; "AC3UWM4XP"] DEPARTED (Some "DEL")))
    as (results & Hres & _ & _); [discriminate|].
  exists results. split; [exact Hres|].
  fold res in Hres. vm_compute in Hres. injection Hres as <-.
  split; vm_compute; reflexivity.
Defined.

(** ** The routes of the service of [unnamed/part_001] *)

Lemma plain_create_owner (w : World BookingService.Booking) bookingData flightIds b :
  fst (BookingService.createBooking bookingData flightIds w) = Ok (Some b) ->
  let w' := snd (BookingService.createBooking bookingData flightIds w) in
  let ref := bk_ref_id (BookingService.b_row b) in
  bk_user_id (BookingService.b_row b) = Some (BookingService.bd_userId bookingData)
  /\ bk_status (BookingService.b_row b) = BOOKED
  /\ bk_origin (BookingService.b_row b) = BookingService.bd_origin bookingData
  /\ bk_destination (BookingService.b_row b) = BookingService.bd_destination bookingData
  /\ fst (BookingService.getBookingHistory ref false w') = Ok (Some b).
Proof.
  intros Hok w' ref.
  destruct (create_cases w bookingData flightIds) as (Hc' & Hf' & _ & _ & Hcases).
  cbn zeta in Hcases, Hc', Hf'. fold w' in Hcases, Hc', Hf'.
  destruct Hcases as [([e He] & _)|
    (Hfree & Hknown & Hb & Hbf & Hte & Hfl & b' & Hres & Hfetch & Hbdef & Hstore)];
    [congruence|].
  assert (Hbb : b' = b) by congruence. rewrite Hbb in *. clear Hbb.
  assert (Href : ref = "AC" +:+ toString36 (clock w) +:+ next_random w).
  { subst ref. rewrite Hbdef. reflexivity. }
  split; [rewrite Hbdef; reflexivity|]. split; [rewrite Hbdef; reflexivity|].
  split; [rewrite Hbdef; reflexivity|]. split; [rewrite Hbdef; reflexivity|].
  rewrite Href.
  destruct (get_cases w' ("AC" +:+ toString36 (clock w) +:+ next_random w) false)
    as (_ & _ & _ & _ & _ & _ & Gcases).
  destruct Gcases as [(_ & Hc & Hf & b2 & Hhit & Hr & _)|(_ & Hr & _)].
  - rewrite Hr. do 2 f_equal.
    rewrite <- Hc', <- Hf', Hc, Hf in Hstore. cbn [andb negb] in Hstore.
    rewrite Hstore, lookup_insert_eq in Hhit. congruence.
  - rewrite Hr, Hfetch. reflexivity.
Qed.

Lemma auth_get_booking_run (sqlMessage : string -> string)
    (w : World BookingService.Booking) user_id refId :
  AuthBookingRoutes.get_booking sqlMessage user_id refId w
  = (Ok match fst (BookingService.getBookingHistory refId false w) with
        | Ok None => reply_error 404 "Booking not found"
        | Ok (Some b) =>
            if bool_decide (bk_user_id (BookingService.b_row b) = Some user_id)
            then reply_data 200 b
            else reply_error 403 "Forbidden"
        | Throw error => errorHandler (thrown sqlMessage error)
        end,
     snd (BookingService.getBookingHistory refId false w)).
Proof.
  unfold AuthBookingRoutes.get_booking, try_catch, bind, ret.
  destruct (BookingService.getBookingHistory refId false w) as [[[b|]|e] w1];
    cbn [fst snd]; try reflexivity.
  destruct (bool_decide _); reflexivity.
Qed.

(** X16. Behind [authMiddleware], [GET /:refId] hands a booking to its owner
    only: a 200 reply carries a booking whose [user_id] is the caller's, a
    booking of somebody else is answered with 403, an unknown reference code
    with 404, and the store is not changed. After [POST /] has answered 201
    to a user, [GET] of the new reference code answers 200 with the same
    booking to that user and 403 to every other user. [POST /] with equal
    origin and destination answers 400 and stores nothing. *)
Theorem owner_reads_the_booking_others_are_refused (sqlMessage : string -> string)
    (w : World BookingService.Booking) (user other : Z) (refId : string)
    (origin destination : string) (pieces weight_kg : Z) (flight_ids : list string) :
  let got := AuthBookingRoutes.get_booking sqlMessage user refId w in
  let posted :=
    AuthBookingRoutes.post_booking sqlMessage user origin destination pieces weight_kg
      flight_ids w in
  (exists reply,
     fst got = Ok reply
     /\ db (snd got) = db w
     /\ (forall b, res_data reply = Some b ->
         res_status reply = 200
         /\ bk_user_id (BookingService.b_row b) = Some user)
     /\ (forall b, fst (BookingService.getBookingHistory refId false w) = Ok (Some b) ->
         bk_user_id (BookingService.b_row b) <> Some user ->
         reply = reply_error 403 "Forbidden")
     /\ (fst (BookingService.getBookingHistory refId false w) = Ok None ->
         reply = reply_error 404 "Booking not found"))
  /\ (origin = destination ->
      posted = (Ok (reply_error 400 "Origin and destination cannot be the same."), w))
  /\ (forall b,
        fst posted = Ok (reply_data 201 (Some b)) ->
        let ref := bk_ref_id (BookingService.b_row b) in
        bk_user_id (BookingService.b_row b) = Some user
        /\ bk_status (BookingService.b_row b) = BOOKED
        /\ fst (AuthBookingRoutes.get_booking sqlMessage user ref (snd posted))
           = Ok (reply_data 200 b)
        /\ (other <> user ->
            fst (AuthBookingRoutes.get_booking sqlMessage other ref (snd posted))
            = Ok (reply_error 403 "Forbidden"))).
Proof.
  intros got posted. split; [|split].
  - subst got. rewrite auth_get_booking_run. cbn [fst snd].
    destruct (get_cases w refId false) as (Hdb & _).
    destruct (get_cases w refId false) as (_ & _ & _ & _ & _ & _ & Gcases).
    eexists. split; [reflexivity|]. split; [exact Hdb|].
    assert (Hok : exists r, fst (BookingService.getBookingHistory refId false w) = Ok r).
    { destruct Gcases as [(_ & _ & _ & b & _ & -> & _)|(_ & -> & _)]; eauto. }
    destruct Hok as [[b|] Hr]; rewrite Hr.
    + destruct (bool_decide (bk_user_id (BookingService.b_row b) = Some user)) eqn:Hu.
      * apply bool_decide_eq_true in Hu. cbn. split.
        { intros b' [= <-]. auto. }
        split; [intros b' [= <-] Hne; contradiction|discriminate].
      * cbn. split; [discriminate|]. split; [reflexivity|discriminate].
    + cbn. split; [discriminate|]. split; [discriminate|reflexivity].
  - intros ->. subst posted. unfold AuthBookingRoutes.post_booking.
    by rewrite String.eqb_refl.
  - intros b Hposted ref. subst posted.
    unfold AuthBookingRoutes.post_booking in *.
    destruct (String.eqb origin destination); [discriminate|].
    unfold try_catch, bind, ret in *.
    set (bookingData := {| BookingService.bd_userId := user |}) in *.
    pose proof (plain_create_owner w bookingData flight_ids b) as Hcreate.
    destruct (BookingService.createBooking bookingData flight_ids w) as [[r|e] w1];
      cbn [fst snd] in *.
    2:{ exfalso. injection Hposted as Hp.
        pose proof (errorHandler_status (A := option BookingService.Booking)
                      (thrown sqlMessage e)) as [Hd _].
        rewrite Hp in Hd. discriminate. }
    injection Hposted as ->.
    destruct (Hcreate eq_refl) as (Hu & Hs & _ & _ & Hget).
    split; [exact Hu|]. split; [exact Hs|].
    rewrite !auth_get_booking_run. cbn [fst]. fold ref in Hget. rewrite Hget.
    split.
    + rewrite bool_decide_eq_true_2 by exact Hu. reflexivity.
    + intros Hne. rewrite bool_decide_eq_false_2; [reflexivity|].
      rewrite Hu. subst bookingData. cbn. congruence.
Qed.

Lemma owner_reads_the_booking_others_are_refused_witness :
  let w : World BookingService.Booking := Sample.world Sample.empty_db true ∅ in
  let posted :=
    AuthBookingRoutes.post_booking (fun code => code) 7 "DEL" "BLR" 5 25 ["F1"] w in
  exists b,
    fst posted = Ok (reply_data 201 (Some b))
    /\ fst (AuthBookingRoutes.get_booking (fun code => code) 8 "AC3UW7K2Q" (snd posted))
       = Ok (reply_error 403 "Forbidden").
Proof.
  intros w posted.
  assert (Hp : exists b, fst posted = Ok (reply_data 201 (Some b))
                         /\ bk_ref_id (BookingService.b_row b) = "AC3UW7K2Q").
  { eexists. split; vm_compute; reflexivity. }
  destruct Hp as (b & Hp & Href). exists b. split; [exact Hp|].
  destruct (owner_reads_the_booking_others_are_refused (fun code => code)
              w 7 8 "" "DEL" "BLR" 5 25 ["F1"]) as (_ & _ & H).
  destruct (H b Hp) as (_ & _ & _ & Hother).
  rewrite Href in Hother. apply Hother. discriminate.
Defined.

(** X17. [PATCH /:refId/status] of the service of [unnamed/part_001] leaves
    every error to [errorHandler]: it answers 404 with ['Booking not found']
    when there is no such booking and 500 with ['Internal server error'] when
    a delivered booking is to be cancelled, the store being left as it was;
    it answers 200 exactly when [updateBookingStatus] has returned, with the
    booking read back from the store in its new status. *)
Theorem auth_patch_status_replies (sqlMessage : string -> string)
    (w : World BookingService.Booking) (refId : string) (status : Status)
    (location description : option string) :
  let res := AuthBookingRoutes.patch_status sqlMessage refId status location
               description w in
  let served :=
    BookingService.updateBookingStatus refId status
      {| BookingService.location := location;
         BookingService.description := description |} w in
  exists reply,
    fst res = Ok reply
    /\ snd res = snd served
    /\ (res_status reply = 200 <-> is_ok (fst served) = true)
    /\ (rows_by_ref refId (db w) = [] ->
        reply = reply_error 404 "Booking not found" /\ db (snd res) = db w)
    /\ (forall row, stored refId (db w) = Some row ->
        (status = CANCELLED -> bk_status row = DELIVERED ->
         reply = reply_error 500 "Internal server error" /\ db (snd res) = db w)
        /\ (res_status reply = 200 ->
            exists b,
              reply = reply_data 200 (Some b)
              /\ BookingService.fetch refId (db (snd res)) = Some b
              /\ bk_status (BookingService.b_row b) = status
              /\ bk_version (BookingService.b_row b) = bk_version row)).
Proof.
  intros res served. subst res.
  unfold AuthBookingRoutes.patch_status, try_catch, bind, ret. fold served.
  pose proof (update_cases w refId status
                {| BookingService.location := location;
                   BookingService.description := description |}) as Hcases.
  cbn zeta in Hcases. fold served in Hcases.
  destruct Hcases as (_ & _ & _ & _ & _ & Hcases).
  destruct served as [[r|e] w1] eqn:Hserved; cbn [fst snd] in *.
  - eexists. split; [reflexivity|]. split; [reflexivity|].
    split; [cbn; tauto|].
    split.
    { intros Hrows.
      destruct Hcases as [(_ & He & _)|(row & rest & Hr & _)]; congruence. }
    intros row Hstored. split.
    { intros Hs Hd.
      destruct Hcases as [(_ & He & _)|(row' & rest & Hr & Hc)]; [congruence|].
      assert (row' = row).
      { unfold stored in Hstored. rewrite Hr in Hstored. cbn in Hstored. congruence. }
      subst row'.
      destruct Hc as [(_ & _ & He & _)|(Hn & _)]; [congruence|tauto]. }
    intros _.
    destruct Hcases as [(_ & He & _)|(row' & rest & Hr & Hc)]; [congruence|].
    assert (row' = row).
    { unfold stored in Hstored. rewrite Hr in Hstored. cbn in Hstored. congruence. }
    subst row'.
    destruct Hc as [(_ & _ & He & _)|(_ & [([c He] & _)|(b & Hok & _ & Hfetch & Hrow & _)])];
      try congruence.
    injection Hok as ->. exists b. split; [reflexivity|]. split; [exact Hfetch|].
    rewrite Hrow. split; reflexivity.
  - eexists. split; [reflexivity|]. split; [reflexivity|].
    split.
    { split; [|discriminate]. intros H. exfalso. revert H. apply errorHandler_status. }
    split.
    { intros Hrows.
      destruct Hcases as [(_ & He & Hd & _)|(row & rest & Hr & _)]; [|congruence].
      injection He as ->. split; [reflexivity|exact Hd]. }
    intros row Hstored. split.
    { intros Hs Hd.
      destruct Hcases as [(Hr & _)|(row' & rest & Hr & Hc)].
      { unfold stored in Hstored. rewrite Hr in Hstored. discriminate. }
      assert (row' = row).
      { unfold stored in Hstored. rewrite Hr in Hstored. cbn in Hstored. congruence. }
      subst row'.
      destruct Hc as [(_ & _ & He & Hdb & _)|(Hn & _)]; [|tauto].
      injection He as ->. split; [reflexivity|exact Hdb]. }
    intros H. exfalso. revert H. apply errorHandler_status.
Qed.

Lemma insert_by_Permutation {A} (leb : A -> A -> bool) x l :
  insert_by leb x l ≡ₚ x :: l.
Proof.
  induction l as [|z l IH]; cbn; [reflexivity|].
  destruct (leb x z); [reflexivity|].
  rewrite IH. apply perm_swap.
Qed.

Lemma order_by_Permutation {A} (leb : A -> A -> bool) l : order_by leb l ≡ₚ l.
Proof.
  unfold order_by. induction l as [|x l IH]; cbn; [reflexivity|].
  rewrite insert_by_Permutation. by constructor.
Qed.

Lemma get_bookings_run (sqlMessage : string -> string)
    (w : World BookingService.Booking) (user_id : Z) :
  AuthBookingRoutes.get_bookings sqlMessage user_id w
  = (Ok (reply_data 200
           (map BookingService.listed_of (bookings_of_user user_id (db w)))), w).
Proof. reflexivity. Qed.

(** X18. [GET /] of [routes/bookings.js] answers 200 and changes nothing;
    it lists the bookings of the authenticated user and no others, once
    each, the newest first.  A booking that the user has just created with
    [createBooking] is in the list. *)
Theorem get_bookings_lists_the_users_bookings (sqlMessage : string -> string)
    (w : World BookingService.Booking) (user_id : Z) :
  exists listed,
    AuthBookingRoutes.get_bookings sqlMessage user_id w
    = (Ok (reply_data 200 listed), w)
    /\ (exists rows,
          listed = map BookingService.listed_of rows
          /\ rows ≡ₚ List.filter
                       (fun b => bool_decide (bk_user_id b = Some user_id))
                       (bookings (db w)))
    /\ (forall item,
          In item listed <->
          exists b, In b (bookings (db w)) /\ bk_user_id b = Some user_id
                    /\ item = BookingService.listed_of b)
    /\ Sorted (fun a b => BookingService.li_created_at b
                          <= BookingService.li_created_at a) listed
    /\ (forall w0 bookingData flightIds b,
          BookingService.createBooking bookingData flightIds w0 = (Ok (Some b), w) ->
          BookingService.bd_userId bookingData = user_id ->
          In (BookingService.listed_of (BookingService.b_row b)) listed).
Proof.
  exists (map BookingService.listed_of (bookings_of_user user_id (db w))).
  split; [apply get_bookings_run|].
  assert (Hin : forall item,
    In item (map BookingService.listed_of (bookings_of_user user_id (db w))) <->
    exists b, In b (bookings (db w)) /\ bk_user_id b = Some user_id
              /\ item = BookingService.listed_of b).
  { intros item. split.
    - intros H. apply in_map_iff in H as (b & <- & Hb).
      unfold bookings_of_user in Hb.
      apply (proj1 (order_by_In _ _ _)) in Hb.
      apply filter_In in Hb as (Hb & Hu). apply bool_decide_eq_true in Hu.
      exists b. auto.
    - intros (b & Hb & Hu & ->). apply in_map. unfold bookings_of_user.
      apply (proj2 (order_by_In _ _ _)). apply filter_In. split; [exact Hb|].
      by apply bool_decide_eq_true. }
  split.
  { exists (bookings_of_user user_id (db w)). split; [reflexivity|].
    unfold bookings_of_user. apply order_by_Permutation. }
  split; [exact Hin|].
  split.
  { unfold bookings_of_user.
    apply (Sorted_fmap BookingService.listed_of
             (fun a b => (bk_created_at b <=? bk_created_at a)%Z = true)).
    - intros a b H. cbn. lia.
    - apply order_by_Sorted. intros a b Hab. apply Z.leb_le. apply Z.leb_gt in Hab. lia. }
  intros w0 bookingData flightIds b Hrun Hu.
  apply Hin.
  destruct (create_cases w0 bookingData flightIds) as (_ & _ & _ & _ & Hcases).
  cbn zeta in Hcases. rewrite Hrun in Hcases. cbn [fst snd] in Hcases.
  destruct Hcases as [([e He] & _)|(_ & _ & Hb & _ & _ & _ & b' & Hres & _ & Hbdef & _)];
    [discriminate|].
  injection Hres as <-.
  eexists. split; [rewrite Hb; apply in_or_app; right; left; reflexivity|].
  rewrite Hbdef. cbn. split; [by rewrite Hu|reflexivity].
Qed.

Lemma count_status_sum (now : Z) (d : DB) :
  count_status now BOOKED d + count_status now DEPARTED d
  + count_status now ARRIVED d + count_status now DELIVERED d
  + count_status now CANCELLED d
  = Z.of_nat (length (List.filter (recent now) (bookings d))).
Proof.
  unfold count_status. induction (bookings d) as [|b l IH]; [reflexivity|].
  cbn [List.filter]. destruct (recent now b); cbn [andb]; [|exact IH].
  unfold status_eqb in *.
  destruct (bk_status b); repeat case_bool_decide; try discriminate;
    try congruence; cbn [length]; rewrite ?Nat2Z.inj_succ, <- IH; lia.
Qed.

Lemma count_status_nonneg now status d : 0 <= count_status now status d.
Proof. unfold count_status. lia. Qed.

Lemma stats_fold (c1 c2 c3 c4 c5 : Z) :
  0 <= c1 -> 0 <= c2 -> 0 <= c3 -> 0 <= c4 -> 0 <= c5 ->
  let stats :=
    fold_left BookingService.add_row
      (List.filter (fun row : Status * Z => (0 <? snd row)%Z)
         [(BOOKED, c1); (DEPARTED, c2); (ARRIVED, c3); (DELIVERED, c4);
          (CANCELLED, c5)])
      {| BookingService.total := 0; BookingService.by_status := ∅ |} in
  BookingService.total stats = c1 + c2 + c3 + c4 + c5
  /\ BookingService.by_status stats !! "BOOKED" = (if (0 <? c1)%Z then Some c1 else None)
  /\ BookingService.by_status stats !! "DEPARTED" = (if (0 <? c2)%Z then Some c2 else None)
  /\ BookingService.by_status stats !! "ARRIVED" = (if (0 <? c3)%Z then Some c3 else None)
  /\ BookingService.by_status stats !! "DELIVERED" = (if (0 <? c4)%Z then Some c4 else None)
  /\ BookingService.by_status stats !! "CANCELLED" = (if (0 <? c5)%Z then Some c5 else None)
  /\ (forall key, is_Some (BookingService.by_status stats !! key) ->
      exists status, key = status_name status).
Proof.
  intros H1 H2 H3 H4 H5. cbn [List.filter snd].
  destruct (0 <? c1)%Z eqn:E1, (0 <? c2)%Z eqn:E2, (0 <? c3)%Z eqn:E3,
    (0 <? c4)%Z eqn:E4, (0 <? c5)%Z eqn:E5;
    cbn [fold_left BookingService.add_row BookingService.total
         BookingService.by_status fst snd status_name];
    try apply Z.ltb_ge in E1; try apply Z.ltb_ge in E2; try apply Z.ltb_ge in E3;
    try apply Z.ltb_ge in E4; try apply Z.ltb_ge in E5;
    (split; [lia|]);
    repeat (split; [by simplify_map_eq|]);
    intros key [c Hc];
    repeat (match type of Hc with
            | <[?k:=_]> _ !! _ = _ =>
                destruct (decide (k = key)) as [<-|Hne];
                [ first [ by exists BOOKED | by exists DEPARTED | by exists ARRIVED
                        | by exists DELIVERED | by exists CANCELLED ]
                | rewrite lookup_insert_ne in Hc by exact Hne; clear Hne ]
            end);
    by rewrite lookup_empty in Hc.
Qed.

(** X19. [getBookingStats] changes nothing.  [total] is the number of
    bookings created in the last 30 days; [by_status] has an entry exactly
    for each status that at least one of these bookings has, holding how
    many have it, and no other key; the counts add up to [total]. *)
Theorem getBookingStats_counts_the_last_thirty_days
    (w : World BookingService.Booking) :
  let since := clock w / 1000 - 30 * 86400 in
  let having status :=
    Z.of_nat (length (List.filter
                        (fun b => (since <=? bk_created_at b)%Z
                                  && bool_decide (bk_status b = status))
                        (bookings (db w)))) in
  exists stats,
    BookingService.getBookingStats w = (Ok stats, w)
    /\ BookingService.total stats
       = Z.of_nat (length (List.filter (fun b => (since <=? bk_created_at b)%Z)
                             (bookings (db w))))
    /\ (forall status,
          BookingService.by_status stats !! status_name status
          = if (0 <? having status)%Z then Some (having status) else None)
    /\ (forall key, is_Some (BookingService.by_status stats !! key) ->
        exists status, key = status_name status)
    /\ BookingService.total stats
       = having BOOKED + having DEPARTED + having ARRIVED + having DELIVERED
         + having CANCELLED.
Proof.
  intros since having.
  set (now := clock w / 1000).
  assert (Hh : forall status, having status = count_status now status (db w))
    by reflexivity.
  eexists. split; [reflexivity|].
  pose proof (stats_fold _ _ _ _ _
                (count_status_nonneg now BOOKED (db w))
                (count_status_nonneg now DEPARTED (db w))
                (count_status_nonneg now ARRIVED (db w))
                (count_status_nonneg now DELIVERED (db w))
                (count_status_nonneg now CANCELLED (db w)))
    as (Ht & Hb & Hd & Ha & Hl & Hc & Hk).
  pose proof (count_status_sum now (db w)) as Hsum.
  split.
  { etransitivity; [exact Ht|]. exact Hsum. }
  split.
  { intros status. rewrite Hh. destruct status; assumption. }
  split; [exact Hk|].
  rewrite !Hh. exact Ht.
Qed.


(** X20. [GET /:refId] of the lock-protected service always answers and never
    writes to the relational store. A reference code that fails
    [/^[A-Z0-9]{8,20}$/] gets 400 ['Invalid reference ID format'] and nothing
    is read. Otherwise the answer is 200 with a booking or 404
    ['Booking not found']: the cached booking when the client is connected and
    the cache holds one under [booking:<refId>], else the booking read from
    the store, and 404 when the store has no booking of that code. *)
Theorem get_booking_replies (sqlMessage : string -> string) (w : World Booking)
    (refId : string) :
  let res := BookingRoutes.get_booking sqlMessage refId w in
  let key := "booking:" +:+ refId in
  exists reply,
    fst res = Ok reply
    /\ db (snd res) = db w
    /\ (BookingRoutes.valid_refId refId = false ->
        reply = reply_error 400 "Invalid reference ID format" /\ snd res = w)
    /\ (BookingRoutes.valid_refId refId = true ->
        (forall b,
           isConnected (redis w) = true -> failing (redis w) = false ->
           store (redis w) !! key = Some (Json b) ->
           reply = reply_data 200 b)
        /\ ((isConnected (redis w) = false \/ failing (redis w) = true
             \/ forall b, store (redis w) !! key <> Some (Json b)) ->
            reply = match fetch refId (db w) with
                    | Some b => reply_data 200 b
                    | None => reply_error 404 "Booking not found"
                    end)).
Proof.
  intros res key. subst res. unfold BookingRoutes.get_booking.
  destruct (BookingRoutes.valid_refId refId) eqn:Hvalid; cbn [negb].
  2:{ eexists. split; [reflexivity|]. split; [reflexivity|].
      split; [auto|discriminate]. }
  unfold try_catch, bind.
  destruct (locked_get_cases w refId) as (Hdb & _ & _ & _ & _ & _ & Gcases).
  cbn zeta in Gcases. fold key in Gcases.
  destruct (getBookingHistory refId w) as [[booking|e] w1] eqn:Hget;
    cbn [fst snd] in *.
  2:{ destruct Gcases as [(_ & _ & b & _ & Hr & _)|(_ & Hr & _)]; discriminate. }
  destruct Gcases as [(Hc & Hf & b & Hhit & Hr & _)|(Hmiss & Hr & _)].
  - injection Hr as ->. eexists. split; [reflexivity|]. split; [exact Hdb|].
    split; [discriminate|]. intros _. split.
    + intros b' _ _ Hb'. rewrite Hhit in Hb'. by injection Hb' as ->.
    + intros [Hc'|[Hf'|Hnone]]; [congruence|congruence|]. by destruct (Hnone b).
  - injection Hr as ->.
    destruct (fetch refId (db w)) as [b|] eqn:Hfetch.
    + eexists. split; [reflexivity|]. split; [exact Hdb|].
      split; [discriminate|]. intros _. split; [|reflexivity].
      intros b' Hc Hf Hb'.
      destruct Hmiss as [Hc'|[Hf'|Hnone]]; [congruence|congruence|].
      by destruct (Hnone b').
    + eexists. split; [reflexivity|]. split; [exact Hdb|].
      split; [discriminate|]. intros _. split; [|reflexivity].
      intros b' Hc Hf Hb'.
      destruct Hmiss as [Hc'|[Hf'|Hnone]]; [congruence|congruence|].
      by destruct (Hnone b').
Qed.



(** With the cache client down [POST /] answers 423 and stores nothing. *)
Example post_booking_is_refused_while_the_cache_is_down :
  let w : World Booking := Sample.world Sample.empty_db false ∅ in
  BookingRoutes.post_booking (fun code => code) "DEL" "BLR" 5 25 ["F1"] w
  = (Ok (reply_error 423 "Resource locked, please try again"), w).
Proof. reflexivity. Qed.

Lemma placeholders_append (a b : string) :
  placeholders (a +:+ b) = (placeholders a + placeholders b)%nat.
Proof.
  unfold placeholders. by rewrite chars_append, List.filter_app, length_app.
Qed.

Lemma placeholders_condition (field : string) (value : JsValue) :
  placeholders (condition_of field value) = S (placeholders field).
Proof.
  unfold condition_of.
  assert (Heq : placeholders " = ?" = 1%nat) by (vm_compute; reflexivity).
  assert (Hlike : placeholders " LIKE ?" = 1%nat) by (vm_compute; reflexivity).
  destruct value as [|s|t]; [|destruct (includes s "%")|];
    rewrite placeholders_append, ?Heq, ?Hlike; lia.
Qed.

Lemma placeholders_join (conditions : list string) :
  Forall (fun c => placeholders c = 1%nat) conditions ->
  placeholders (join_AND conditions) = length conditions.
Proof.
  induction 1 as [|c rest Hc Hrest IH]; [reflexivity|].
  destruct rest as [|c' rest]; [exact Hc|].
  change (join_AND (c :: c' :: rest)) with (c +:+ " AND " +:+ join_AND (c' :: rest)).
  assert (Hand : placeholders " AND " = 0%nat) by (vm_compute; reflexivity).
  rewrite !placeholders_append, IH, Hc, Hand. reflexivity.
Qed.

Lemma kept_allowed (allowedFields : list string) (entry : string * JsValue) :
  kept allowedFields entry = true ->
  In (fst entry) allowedFields
  /\ snd entry <> Undefined /\ snd entry <> Str "".
Proof.
  unfold kept. intros H. apply andb_true_iff in H as [Hin Hv]. split.
  - apply existsb_exists in Hin as (f & Hf & Heq).
    apply String.eqb_eq in Heq. by rewrite Heq.
  - destruct (snd entry) as [|s|t]; [discriminate| |split; discriminate].
    split; [discriminate|]. intros [= ->]. discriminate.
Qed.

(** X22. [buildSearchConditions] builds a clause with as many [?]
    placeholders as values it returns, when no allowed field name contains a
    [?]. The clause is empty exactly when there are no values; otherwise it is
    [WHERE] followed by one condition per value, joined by [AND], each
    [<field> LIKE ?] or [<field> = ?] with an allowed field. No value is
    [undefined] or the empty string. *)
Theorem buildSearchConditions_placeholders_match_values
    (searchParams : list (string * JsValue)) (allowedFields : list string) :
  Forall (fun field => placeholders field = 0%nat) allowedFields ->
  let whereClause := fst (buildSearchConditions searchParams allowedFields) in
  let values := snd (buildSearchConditions searchParams allowedFields) in
  placeholders whereClause = length values
  /\ (whereClause = "" <-> values = [])
  /\ Forall (fun value => value <> Undefined /\ value <> Str "") values
  /\ exists conditions,
       length conditions = length values
       /\ (conditions <> [] -> whereClause = "WHERE " +:+ join_AND conditions)
       /\ Forall (fun c => exists field,
                    In field allowedFields
                    /\ (c = field +:+ " LIKE ?" \/ c = field +:+ " = ?"))
            conditions.
Proof.
  intros Hfields whereClause values. subst whereClause values.
  unfold buildSearchConditions, search_conditions. cbn [fst snd].
  set (entries := List.filter (kept allowedFields) searchParams).
  assert (Hkept : Forall (fun entry => In (fst entry) allowedFields
                            /\ snd entry <> Undefined /\ snd entry <> Str "") entries).
  { apply List.Forall_forall. intros entry Hin. subst entries.
    apply filter_In in Hin as [_ Hk]. by apply kept_allowed. }
  assert (Hone : Forall (fun c => placeholders c = 1%nat)
                   (map (fun entry => condition_of (fst entry) (snd entry)) entries)).
  { apply List.Forall_forall. intros c Hin.
    apply in_map_iff in Hin as (entry & <- & Hin).
    rewrite placeholders_condition.
    rewrite List.Forall_forall in Hkept, Hfields.
    by rewrite (Hfields _ (proj1 (Hkept _ Hin))). }
  set (conds := map (fun entry => condition_of (fst entry) (snd entry)) entries) in *.
  assert (Hlen : length conds = length entries) by apply length_map.
  assert (Hclause :
    (if (0 <? Z.of_nat (length conds))%Z then "WHERE " +:+ join_AND conds else "")
    = match conds with [] => "" | _ => "WHERE " +:+ join_AND conds end).
  { destruct conds; reflexivity. }
  rewrite Hclause, length_map. clear Hclause.
  assert (Hw : placeholders "WHERE " = 0%nat) by (vm_compute; reflexivity).
  split.
  { rewrite <- Hlen. destruct conds as [|c cs] eqn:Hc; [reflexivity|].
    rewrite placeholders_append, Hw, placeholders_join by exact Hone. reflexivity. }
  split.
  { destruct conds as [|c cs], entries as [|entry rest]; try discriminate;
      split; try done; discriminate. }
  split.
  { apply List.Forall_forall. intros v Hin.
    apply in_map_iff in Hin as (entry & <- & Hin).
    rewrite List.Forall_forall in Hkept. apply (Hkept _ Hin). }
  exists conds.
  split; [exact Hlen|]. split.
  { destruct conds as [|c cs]; [done|reflexivity]. }
  apply List.Forall_forall. intros c Hin. subst conds.
  apply in_map_iff in Hin as (entry & <- & Hin).
  rewrite List.Forall_forall in Hkept. destruct (Hkept _ Hin) as (Hf & _).
  exists (fst entry). split; [exact Hf|].
  unfold condition_of. destruct (snd entry) as [|s|t]; auto.
  destruct (includes s "%"); auto.
Qed.

Lemma buildSearchConditions_placeholders_match_values_witness :
  buildSearchConditions
    [("status", Str "BOOKED"); ("origin", Str "D%"); ("mode", Str "x");
     ("destination", Str ""); ("pieces", Other "5")]
    ["status"; "origin"; "destination"; "pieces"]
  = ("WHERE status = ? AND origin LIKE ? AND pieces = ?",
     [Str "BOOKED"; Str "D%"; Other "5"])
  /\ placeholders "WHERE status = ? AND origin LIKE ? AND pieces = ?" = 3%nat.
Proof.
  split; [reflexivity|].
  refine (proj1 (buildSearchConditions_placeholders_match_values
                   [("status", Str "BOOKED"); ("origin", Str "D%"); ("mode", Str "x");
                    ("destination", Str ""); ("pieces", Other "5")]
                   ["status"; "origin"; "destination"; "pieces"] _)).
  repeat constructor.
Defined.
